(** * Live session client of the GenAI SDK: a shallow embedding

    The development follows [live.ts] (classes [Live] and [Session],
    [handleWebSocketMessage]) and [node/node_client.ts] (the [GoogleGenAI]
    constructor).

    - JavaScript values are a first-order data type; objects are
      association lists in insertion order; numbers are integers.
    - Effects are threaded through an explicit [World]: the trace of
      what happens on the transport and in the user's callbacks, the
      console, and a store for the objects the caller shares with
      [connect] (the params object and its configuration object), so
      that a write in place is seen through every reference.
    - A call ends in an [Outcome]: it returns, throws, or stays pending
      on a promise that is never settled.
    - An [async] handler that is started and not awaited either runs to
      its end at once (no [await] on its path) or is kept in the world
      as suspended, to go on at a later step.
    - The transformers, converters and runtime services the client
      calls are parameters, gathered in [Externals].

    The first part is the model, the second part states and proves the
    properties. *)

From Stdlib Require Import ZArith Ascii String.
From stdpp Require Import base option list strings pretty gmap.

Local Open Scope string_scope.
Local Open Scope Z_scope.
Local Open Scope list_scope.
Local Set Warnings "-register-all".

(** ** JavaScript values *)

(** The JSON-like fragment of JavaScript values the client handles.
    Numbers are restricted to integers.  Strings are byte strings (the
    UTF-8 encoding of the JavaScript string). *)
Inductive JsValue : Type :=
| JUndefined
| JNull
| JBool (b : bool)
| JNum (z : Z)
| JStr (s : string)
| JArr (items : list JsValue)
| JObj (fields : list (string * JsValue)).

Definition JsObject : Type := list (string * JsValue).

(** [typeof v] *)
Definition js_typeof (v : JsValue) : string :=
  match v with
  | JUndefined => "undefined"
  | JNull => "object"
  | JBool _ => "boolean"
  | JNum _ => "number"
  | JStr _ => "string"
  | JArr _ => "object"
  | JObj _ => "object"
  end.

(** [v == null]: true exactly for [null] and [undefined]. *)
Definition js_nullish (v : JsValue) : bool :=
  match v with
  | JUndefined | JNull => true
  | _ => false
  end.

(** Truthiness of a string: every string but the empty one. *)
Definition truthy_string (s : string) : bool :=
  match s with
  | EmptyString => false
  | String _ _ => true
  end.

(** Truthiness of a [string | undefined]. *)
Definition truthy_ostring (o : option string) : bool :=
  match o with
  | Some s => truthy_string s
  | None => false
  end.

(** Truthiness of a value. *)
Definition js_truthy (v : JsValue) : bool :=
  match v with
  | JUndefined | JNull => false
  | JBool b => b
  | JNum z => negb (z =? 0)
  | JStr s => truthy_string s
  | JArr _ | JObj _ => true
  end.

(** Property read [o[k]] on an object given by its fields: the first
    binding of [k], [undefined] when there is none. *)
Fixpoint obj_get (k : string) (o : JsObject) : JsValue :=
  match o with
  | [] => JUndefined
  | (k', v) :: rest => if String.eqb k k' then v else obj_get k rest
  end.

(** [k in o] for own properties of a plain object. *)
Fixpoint obj_has (k : string) (o : JsObject) : bool :=
  match o with
  | [] => false
  | (k', _) :: rest => String.eqb k k' || obj_has k rest
  end.

(** Property write [o[k] = v]: an existing key keeps its place, a new key
    goes last. *)
Fixpoint obj_set (k : string) (v : JsValue) (o : JsObject) : JsObject :=
  match o with
  | [] => [(k, v)]
  | (k', v') :: rest =>
      if String.eqb k k' then (k', v) :: rest else (k', v') :: obj_set k v rest
  end.

(** [delete o[k]] *)
Definition obj_delete (k : string) (o : JsObject) : JsObject :=
  filter (fun kv => negb (String.eqb k (fst kv))) o.

(** Object spread [{...a, ...b}]: the own properties of [a], then those of
    [b] written over them in order. *)
Definition obj_spread (a b : JsObject) : JsObject :=
  fold_left (fun acc kv => obj_set (fst kv) (snd kv) acc) b a.

(** [k in v] for a value that passed the [typeof v === 'object'] and
    [v !== null] tests: a plain object answers by its fields, an array by
    its indices and [length]. *)
Definition js_in (k : string) (v : JsValue) : bool :=
  match v with
  | JObj o => obj_has k o
  | JArr items =>
      String.eqb k "length"
      || existsb (fun i => String.eqb k (pretty i)) (seq 0 (length items))
  | _ => false
  end.

(** [Array.isArray v] *)
Definition js_isArray (v : JsValue) : bool :=
  match v with
  | JArr _ => true
  | _ => false
  end.

(** ** JSON.stringify *)

(** The double quote character, code 34. *)
Definition dquote : ascii := Ascii false true false false false true false false.
(** The backslash character, code 92. *)
Definition backslash : ascii := Ascii false false true true true false true false.

Definition hex_digit (n : N) : ascii :=
  ascii_of_N (if (n <? 10)%N then 48 + n else 87 + n)%N.

(** How JSON.stringify writes one character of a string. *)
Definition json_escape_char (c : ascii) : string :=
  let n := N_of_ascii c in
  if Ascii.eqb c dquote then String backslash (String dquote EmptyString)
  else if Ascii.eqb c backslash then String backslash (String backslash EmptyString)
  else if (n =? 8)%N then String backslash "b"
  else if (n =? 9)%N then String backslash "t"
  else if (n =? 10)%N then String backslash "n"
  else if (n =? 12)%N then String backslash "f"
  else if (n =? 13)%N then String backslash "r"
  else if (n <? 32)%N then
    String backslash
      ("u00" +:+ String (hex_digit (n / 16)) (String (hex_digit (n mod 16)) EmptyString))
  else String c EmptyString.

Fixpoint json_escape (s : string) : string :=
  match s with
  | EmptyString => EmptyString
  | String c rest => json_escape_char c +:+ json_escape rest
  end.

Definition json_quote (s : string) : string :=
  String dquote (json_escape s +:+ String dquote EmptyString).

Fixpoint join_with (sep : string) (parts : list string) : string :=
  match parts with
  | [] => EmptyString
  | [p] => p
  | p :: rest => p +:+ sep +:+ join_with sep rest
  end.

(** The text of a value that stands where JSON.stringify writes
    something: an array element that is [undefined] is written [null], an
    object member whose value is [undefined] is left out. *)
Fixpoint json_text (v : JsValue) : string :=
  match v with
  | JUndefined => "null"
  | JNull => "null"
  | JBool true => "true"
  | JBool false => "false"
  | JNum z => pretty z
  | JStr s => json_quote s
  | JArr items => "[" +:+ join_with "," (map json_text items) +:+ "]"
  | JObj fields =>
      let fix members (l : list (string * JsValue)) : list string :=
        match l with
        | [] => []
        | (_, JUndefined) :: rest => members rest
        | (k, x) :: rest => (json_quote k +:+ ":" +:+ json_text x) :: members rest
        end in
      "{" +:+ join_with "," (members fields) +:+ "}"
  end.

(** [JSON.stringify(o)] for an object [o]: always a string. *)
Definition JSON_stringify (o : JsObject) : string := json_text (JObj o).

(** ** Outcomes and the world *)

(** How a call ends: it returns, it throws an [Error] with a message (for
    an [async] function: the promise is rejected), or it never completes
    (an awaited promise that is never settled). *)
Inductive Outcome (A : Type) : Type :=
| Returned (a : A)
| Threw (msg : string)
| Pending.
Arguments Returned {A} a.
Arguments Threw {A} msg.
Arguments Pending {A}.

(** A function supplied by the user, as far as the client can observe it. *)
Inductive UserFn : Type :=
| Completes
| Raises (msg : string).

(** The [Headers] class of the platform is not part of this repository.
    A [Headers] object is given by its header list: the names and values
    in the order [append] put them there. *)
Definition Headers : Type := list (string * string).

(** A [Record<string, string>] that is enumerated: its entries in the
    order of [Object.entries]. *)
Definition HeaderRecord : Type := list (string * string).

(** A [Record<string, string>] that is used as a map. *)
Definition HeaderMap : Type := gmap string string.

(** [types.Modality] *)
Inductive Modality : Type :=
| MODALITY_UNSPECIFIED
| TEXT
| IMAGE
| AUDIO.

(** [types.ToolUnion]: a static [Tool] declaration, or a [CallableTool],
    an object with a [callTool] function whose [tool()] resolves to the
    declaration (or fails). *)
Inductive ToolUnion : Type :=
| StaticTool (decl : JsValue)
| CallableTool (tool : Outcome JsValue).

(** [types.LiveCallbacks] *)
Record LiveCallbacks : Type := {
  onopen : option UserFn;
  onmessage : option UserFn;
  onerror : option UserFn;
  onclose : option UserFn;
}.

(** [types.LiveConnectConfig]: the fields [connect] reads or writes, and
    the remaining ones. *)
Record LiveConnectConfig : Type := {
  responseModalities : option (list Modality);
  generationConfig : option JsValue;
  tools : option (list ToolUnion);
  otherFields : JsObject;
}.

(** [types.LiveConnectParameters].  [C] is what [config] holds: a
    reference into the store for an object the caller shares, the
    configuration itself for a snapshot read by a converter. *)
Record LiveConnectParameters (C : Type) : Type := {
  model : string;
  config : option C;
  callbacks : option LiveCallbacks;
}.
Arguments model {C} _.
Arguments config {C} _.
Arguments callbacks {C} _.

(** References to objects of the store. *)
Definition loc : Type := positive.

(** What the [ApiClient] answers to the getters the live client calls. *)
Record ApiClient : Type := {
  isVertexAI : bool;
  getWebsocketBaseUrl : string;
  getApiVersion : string;
  getApiKey : option string;
  getProject : option string;
  getLocation : option string;
  getDefaultHeaders : HeaderRecord;
}.

(** The [Auth] collaborator: [addAuthHeaders] yields the headers with the
    credentials added, or fails. *)
Record Auth : Type := {
  addAuthHeaders : Headers -> Outcome Headers;
}.

(** The [WebSocketFactory] collaborator, as far as [connect] depends on
    it: whether the connection it creates for a URL and headers signals
    open.  A connection that signals an error or closes instead leaves
    [onopenPromise] unsettled. *)
Record WebSocketFactory : Type := {
  signalsOpen : string -> HeaderMap -> bool;
}.

(** The payload of a [MessageEvent]. *)
Inductive MessageData : Type :=
| DataText (s : string)
| DataArrayBuffer (bytes : string)
| DataBlob (bytes : string).

(** What is observable from outside, in the order it happens. *)
Inductive Event : Type :=
| WsCreate (c : nat) (url : string) (headers : HeaderMap)
| WsConnect (c : nat)
| WsOpen (c : nat)
| WsSend (c : nat) (frame : string)
| WsClose (c : nat)
| UserOnOpen
| UserOnMessage (msg : JsObject).

(** A call of [handleWebSocketMessage] suspended at
    [await event.data.text()]. *)
Record Suspended : Type := {
  sus_apiClient : ApiClient;
  sus_onmessage : option UserFn;
  sus_blob : string;
}.

Record World : Type := {
  param_objs : gmap loc (LiveConnectParameters loc);
  config_objs : gmap loc LiveConnectConfig;
  trace : list Event;
  console : list string;
  next_conn : nat;
  suspended : list Suspended;
}.

Definition with_param_objs (f : gmap loc (LiveConnectParameters loc) -> gmap loc (LiveConnectParameters loc))
    (w : World) : World :=
  {| param_objs := f (param_objs w); config_objs := config_objs w; trace := trace w;
     console := console w; next_conn := next_conn w; suspended := suspended w |}.

Definition with_config_objs (f : gmap loc LiveConnectConfig -> gmap loc LiveConnectConfig)
    (w : World) : World :=
  {| param_objs := param_objs w; config_objs := f (config_objs w); trace := trace w;
     console := console w; next_conn := next_conn w; suspended := suspended w |}.

Definition with_trace (f : list Event -> list Event) (w : World) : World :=
  {| param_objs := param_objs w; config_objs := config_objs w; trace := f (trace w);
     console := console w; next_conn := next_conn w; suspended := suspended w |}.

Definition with_console (f : list string -> list string) (w : World) : World :=
  {| param_objs := param_objs w; config_objs := config_objs w; trace := trace w;
     console := f (console w); next_conn := next_conn w; suspended := suspended w |}.

Definition with_next_conn (f : nat -> nat) (w : World) : World :=
  {| param_objs := param_objs w; config_objs := config_objs w; trace := trace w;
     console := console w; next_conn := f (next_conn w); suspended := suspended w |}.

Definition with_suspended (f : list Suspended -> list Suspended) (w : World) : World :=
  {| param_objs := param_objs w; config_objs := config_objs w; trace := trace w;
     console := console w; next_conn := next_conn w; suspended := f (suspended w) |}.

(** Effectful code: a function of the world that ends in an outcome and
    leaves a world.  What happened before a throw stays. *)
Definition M (A : Type) : Type := World -> Outcome A * World.

Definition ret {A} (a : A) : M A := fun w => (Returned a, w).

Definition bind {A B} (m : M A) (k : A -> M B) : M B :=
  fun w =>
    match m w with
    | (Returned a, w') => k a w'
    | (Threw msg, w') => (Threw msg, w')
    | (Pending, w') => (Pending, w')
    end.

Notation "x <- m ;; k" := (bind m (fun x => k))
  (at level 100, m at next level, right associativity).
Notation "m ;;; k" := (bind m (fun _ => k))
  (at level 100, right associativity).

(** [throw new Error(msg)] *)
Definition throw {A} (msg : string) : M A := fun w => (Threw msg, w).

(** A promise that is never settled. *)
Definition hang {A} : M A := fun w => (Pending, w).

(** The outcome of a collaborator, inside [M]. *)
Definition lift {A} (o : Outcome A) : M A := fun w => (o, w).

Definition emit (e : Event) : M unit :=
  fun w => (Returned tt, with_trace (fun t => t ++ [e]) w).

(** [console.warn] and [console.debug] *)
Definition console_log (line : string) : M unit :=
  fun w => (Returned tt, with_console (fun c => c ++ [line]) w).

(** The frames handed to [send] of connection [c], oldest first. *)
Definition frames_sent (c : nat) (t : list Event) : list string :=
  omap (fun e => match e with
                 | WsSend c' frame => if Nat.eqb c c' then Some frame else None
                 | _ => None
                 end) t.

(** The messages the user's [onmessage] was called with, oldest first. *)
Definition messages_dispatched (t : list Event) : list JsObject :=
  omap (fun e => match e with UserOnMessage m => Some m | _ => None end) t.

Definition outcome_bind {A B} (o : Outcome A) (k : A -> Outcome B) : Outcome B :=
  match o with
  | Returned a => k a
  | Threw msg => Threw msg
  | Pending => Pending
  end.

(** [l.map(f)] for an [f] that may throw: the first failure ends it. *)
Fixpoint outcome_map {A B} (f : A -> Outcome B) (l : list A) : Outcome (list B) :=
  match l with
  | [] => Returned []
  | a :: rest =>
      outcome_bind (f a) (fun b =>
      outcome_bind (outcome_map f rest) (fun bs => Returned (b :: bs)))
  end.

(** ** Collaborators that are not part of the live client *)

(** The transformers ([_transformers.ts]), the converters
    ([converters/_live_converters.ts], [converters/_models_converters.ts]),
    the MCP helpers ([mcp/_mcp.ts]), the two runtime services the
    inbound path uses ([JSON.parse], [TextDecoder.decode] and
    [Blob.text], which decode bytes alike) and the two methods of the
    platform's [Headers] class the client calls: [append], and [forEach]
    by the pairs of name and value it visits, in order.  What [Headers]
    does with names and values (lower case, equal names combined, sorted
    iteration) is the platform's; [append] is taken not to throw.  The
    live client only calls them; every definition below takes them as
    given. *)
Record Externals : Type := {
  tModel : ApiClient -> string -> Outcome string;
  tContents : JsValue -> Outcome (list JsValue);
  contentToVertex : JsValue -> Outcome JsValue;
  contentToMldev : JsValue -> Outcome JsValue;
  liveConnectParametersToVertex :
    ApiClient -> LiveConnectParameters LiveConnectConfig -> Outcome JsObject;
  liveConnectParametersToMldev :
    ApiClient -> LiveConnectParameters LiveConnectConfig -> Outcome JsObject;
  liveSendRealtimeInputParametersToVertex : JsValue -> Outcome JsValue;
  liveSendRealtimeInputParametersToMldev : JsValue -> Outcome JsValue;
  liveServerMessageFromVertex : JsValue -> Outcome JsObject;
  liveServerMessageFromMldev : JsValue -> Outcome JsObject;
  hasMcpToolUsage : list ToolUnion -> bool;
  setMcpUsageHeader : HeaderRecord -> HeaderRecord;
  JSON_parse : string -> option JsValue;
  decodeText : string -> string;
  Headers_append : Headers -> string -> string -> Headers;
  Headers_forEach : Headers -> list (string * string);
}.

(** ** Session *)

Definition FUNCTION_RESPONSE_REQUIRES_ID : string :=
  "FunctionResponse request must have an `id` field from the response of a ToolCall.FunctionalCalls in Google AI.".

Record Session : Type := {
  conn : nat;
  session_apiClient : ApiClient;
}.

(** [types.LiveSendToolResponseParameters] *)
Record LiveSendToolResponseParameters : Type := {
  functionResponses : JsValue;
}.

Definition defaultLiveSendClientContentParamerters : JsObject :=
  [("turnComplete", JBool true)].

(** [conn.send(frame)] *)
Definition conn_send (c : nat) (frame : string) : M unit := emit (WsSend c frame).

(** [conn.close()] *)
Definition conn_close (c : nat) : M unit := emit (WsClose c).

(** A single response or an array of them, as an array:
    [Array.isArray(x) ? x : [x]]. *)
Definition as_sequence (v : JsValue) : list JsValue :=
  match v with
  | JArr items => items
  | single => [single]
  end.

(** The loop of [tLiveClienttToolResponse] over the responses. *)
Fixpoint check_function_responses (vertex : bool) (frs : list JsValue) : Outcome unit :=
  match frs with
  | [] => Returned tt
  | functionResponse :: rest =>
      if negb (String.eqb (js_typeof functionResponse) "object")
         || (match functionResponse with JNull => true | _ => false end)
         || negb (js_in "name" functionResponse)
         || negb (js_in "response" functionResponse)
      then Threw ("Could not parse function response, type '"
                  +:+ js_typeof functionResponse +:+ "'.")
      else if negb vertex && negb (js_in "id" functionResponse)
      then Threw FUNCTION_RESPONSE_REQUIRES_ID
      else check_function_responses vertex rest
  end.

(** [Session.tLiveClienttToolResponse] *)
Definition tLiveClienttToolResponse (apiClient : ApiClient)
    (params : LiveSendToolResponseParameters) : Outcome JsObject :=
  if js_nullish (functionResponses params) then Threw "functionResponses is required."
  else
    let frs := as_sequence (functionResponses params) in
    if Nat.eqb (length frs) 0 then Threw "functionResponses is required."
    else
      outcome_bind (check_function_responses (isVertexAI apiClient) frs) (fun _ =>
      Returned [("toolResponse", JObj [("functionResponses", JArr frs)])]).

(** [Session.sendToolResponse] *)
Definition sendToolResponse (s : Session) (params : LiveSendToolResponseParameters) : M unit :=
  if js_nullish (functionResponses params)
  then throw "Tool response parameters are required."
  else
    clientMessage <- lift (tLiveClienttToolResponse (session_apiClient s) params) ;;
    conn_send (conn s) (JSON_stringify clientMessage).

(** [Session.close] *)
Definition close (s : Session) : M unit := conn_close (conn s).

Section WithExternals.

Context (ext : Externals).

(** [Session.tLiveClientContent].  A failure of the conversion of
    [turns] is caught and reported under the client's own message. *)
Definition tLiveClientContent (apiClient : ApiClient) (params : JsObject) : Outcome JsObject :=
  let turns := obj_get "turns" params in
  if negb (js_nullish turns) then
    let converted :=
      outcome_bind (tContents ext turns) (fun contents =>
      if isVertexAI apiClient
      then outcome_map (contentToVertex ext) contents
      else outcome_map (contentToMldev ext) contents) in
    match converted with
    | Returned contents =>
        Returned [("clientContent",
                   JObj [("turns", JArr contents);
                         ("turnComplete", obj_get "turnComplete" params)])]
    | Threw _ =>
        Threw ("Failed to parse client content " +:+ String dquote "turns"
               +:+ String dquote ", type: '" +:+ js_typeof turns +:+ "'")
    | Pending => Pending
    end
  else
    Returned [("clientContent", JObj [("turnComplete", obj_get "turnComplete" params)])].

(** [Session.sendClientContent].  [params] is [None] for a call without
    argument. *)
Definition sendClientContent (s : Session) (params : option JsObject) : M unit :=
  let params := obj_spread defaultLiveSendClientContentParamerters (default [] params) in
  clientMessage <- lift (tLiveClientContent (session_apiClient s) params) ;;
  conn_send (conn s) (JSON_stringify clientMessage).

(** [Session.sendRealtimeInput] *)
Definition sendRealtimeInput (s : Session) (params : JsValue) : M unit :=
  realtimeInput <- lift (if isVertexAI (session_apiClient s)
                         then liveSendRealtimeInputParametersToVertex ext params
                         else liveSendRealtimeInputParametersToMldev ext params) ;;
  conn_send (conn s) (JSON_stringify [("realtimeInput", realtimeInput)]).

(** ** Live *)

Record Live : Type := {
  apiClient : ApiClient;
  auth : Auth;
  webSocketFactory : WebSocketFactory;
}.

(** [o?.f] for an optional field [f] of an optional object [o]. *)
Definition optional_chain {A B} (o : option A) (f : A -> option B) : option B :=
  match o with
  | Some a => f a
  | None => None
  end.

(** [o !== undefined] *)
Definition is_defined {A} (o : option A) : bool :=
  match o with
  | Some _ => true
  | None => false
  end.

(** Reading a property of [undefined]. *)
Definition TYPE_ERROR : string := "TypeError: Cannot read properties of undefined".

(** [params], the object the caller passed by reference. *)
Definition read_params (p : loc) : M (LiveConnectParameters loc) :=
  fun w =>
    match param_objs w !! p with
    | Some o => (Returned o, w)
    | None => (Threw TYPE_ERROR, w)
    end.

(** [params.config]: the reference and the object it denotes now. *)
Definition read_config (p : loc) : M (option (loc * LiveConnectConfig)) :=
  params <- read_params p ;;
  match config params with
  | None => ret None
  | Some l =>
      fun w =>
        match config_objs w !! l with
        | Some cfg => (Returned (Some (l, cfg)), w)
        | None => (Threw TYPE_ERROR, w)
        end
  end.

(** A write to a field of the configuration object at [l]. *)
Definition write_config (l : loc) (cfg : LiveConnectConfig) : M unit :=
  fun w => (Returned tt, with_config_objs (fun h => <[l := cfg]> h) w).

(** [params.config = cfg] for a new object [cfg]. *)
Definition assign_new_config (p : loc) (cfg : LiveConnectConfig) : M unit :=
  params <- read_params p ;;
  fun w =>
    let l := fresh (dom (config_objs w)) in
    (Returned tt,
     with_param_objs
       (fun h => <[p := {| model := model params; config := Some l;
                           callbacks := callbacks params |}]> h)
       (with_config_objs (fun h => <[l := cfg]> h) w)).

Definition set_responseModalities (ms : list Modality) (cfg : LiveConnectConfig)
    : LiveConnectConfig :=
  {| responseModalities := Some ms; generationConfig := generationConfig cfg;
     tools := tools cfg; otherFields := otherFields cfg |}.

Definition set_tools (ts : list ToolUnion) (cfg : LiveConnectConfig) : LiveConnectConfig :=
  {| responseModalities := responseModalities cfg; generationConfig := generationConfig cfg;
     tools := Some ts; otherFields := otherFields cfg |}.

(** [mapToHeaders]: a new [Headers] object, to which every entry of the
    record is appended, in the order of [Object.entries]. *)
Definition mapToHeaders (map : HeaderRecord) : Headers :=
  fold_left (fun headers kv => Headers_append ext headers (fst kv) (snd kv)) map [].

(** [headersToMap]: [headerMap[key] = value] for every pair that
    [headers.forEach] visits, in that order. *)
Definition headersToMap (headers : Headers) : HeaderMap :=
  fold_left (fun headerMap kv => <[fst kv := snd kv]> headerMap)
    (Headers_forEach ext headers) ∅.

(** A template literal writes an absent value as [undefined]. *)
Definition template (o : option string) : string := default "undefined" o.

Definition EPHEMERAL_TOKEN_WARNING : string :=
  "Warning: Ephemeral token support is experimental and may change in future versions.".

Definition GENERATION_CONFIG_WARNING : string :=
  "Setting `LiveConnectConfig.generation_config` is deprecated, please set the fields on `LiveConnectConfig` directly. This will become an error in a future version (not before Q3 2025).".

(** The first part of [connect], up to the URL and the headers: the MCP
    usage header, then the URL of the backend variant, with the
    credentials in the headers (managed cloud) or the key in the query
    (direct API). *)
Definition connect_target (live : Live) (p : loc) : M (string * Headers) :=
  let websocketBaseUrl := getWebsocketBaseUrl (apiClient live) in
  let apiVersion := getApiVersion (apiClient live) in
  let defaultHeaders := getDefaultHeaders (apiClient live) in
  cfg <- read_config p ;;
  let defaultHeaders :=
    match cfg with
    | Some (_, c) =>
        match tools c with
        | Some ts => if hasMcpToolUsage ext ts
                     then setMcpUsageHeader ext defaultHeaders else defaultHeaders
        | None => defaultHeaders
        end
    | None => defaultHeaders
    end in
  let headers := mapToHeaders defaultHeaders in
  if isVertexAI (apiClient live) then
    let url := websocketBaseUrl +:+ "/ws/google.cloud.aiplatform." +:+ apiVersion
               +:+ ".LlmBidiService/BidiGenerateContent" in
    headers <- lift (addAuthHeaders (auth live) headers) ;;
    ret (url, headers)
  else
    match getApiKey (apiClient live) with
    | Some apiKey =>
        if truthy_string apiKey then
          let ephemeral := String.prefix "auth_tokens/" apiKey in
          (if ephemeral then console_log EPHEMERAL_TOKEN_WARNING else ret tt) ;;;
          let method := if ephemeral then "BidiGenerateContentConstrained"
                        else "BidiGenerateContent" in
          let keyName := if ephemeral then "access_token" else "key" in
          ret (websocketBaseUrl +:+ "/ws/google.ai.generativelanguage." +:+ apiVersion
               +:+ ".GenerativeService." +:+ method +:+ "?" +:+ keyName +:+ "=" +:+ apiKey,
               headers)
        else ret (websocketBaseUrl, headers)
    | None => ret (websocketBaseUrl, headers)
    end.

(** [webSocketFactory.create(url, headers, callbacks)] *)
Definition ws_create (url : string) (headers : HeaderMap) : M nat :=
  fun w =>
    let c := next_conn w in
    (Returned c, with_next_conn S (with_trace (fun t => t ++ [WsCreate c url headers]) w)).

(** [await onopenPromise]: the promise is resolved by
    [onopenAwaitedCallback], which the transport calls when it is open
    and which calls the user's [onopen] first. *)
Definition await_open (live : Live) (c : nat) (url : string) (headers : HeaderMap)
    (cbs : option LiveCallbacks) : M unit :=
  if signalsOpen (webSocketFactory live) url headers then
    emit (WsOpen c) ;;;
    match optional_chain cbs onopen with
    | Some f => emit UserOnOpen ;;;
                match f with
                | Completes => ret tt
                | Raises _ => hang
                end
    | None => ret tt
    end
  else hang.

(** The model name of the setup frame. *)
Definition qualified_model (client : ApiClient) (transformedModel : string) : string :=
  if isVertexAI client && String.prefix "publishers/" transformedModel
  then "projects/" +:+ template (getProject client) +:+ "/locations/"
       +:+ template (getLocation client) +:+ "/" +:+ transformedModel
  else transformedModel.

(** The default response modality of the managed-cloud variant, written
    to the caller's objects. *)
Definition default_responseModalities (live : Live) (p : loc) : M unit :=
  cfg <- read_config p ;;
  if isVertexAI (apiClient live)
     && negb (is_defined (optional_chain cfg (fun lc => responseModalities (snd lc))))
  then
    match cfg with
    | None =>
        assign_new_config p
          {| responseModalities := Some [AUDIO]; generationConfig := None;
             tools := None; otherFields := [] |}
    | Some (l, c) => write_config l (set_responseModalities [AUDIO] c)
    end
  else ret tt.

(** [Live.isCallableTool]: whether the object has a [callTool] function,
    which is what tells a [CallableTool] from a [Tool]. *)
Definition isCallableTool (tool : ToolUnion) : bool :=
  match tool with
  | CallableTool _ => true
  | StaticTool _ => false
  end.

(** One round of the loop over the configured tools:
    [await callableTool.tool()] for a callable tool, the tool itself for
    a static one. *)
Definition convert_tool (tool : ToolUnion) : Outcome JsValue :=
  match tool with
  | CallableTool resolve => resolve
  | StaticTool decl => Returned decl
  end.

(** The loop over the configured tools, which awaits one tool after the
    other and pushes the results in order. *)
Fixpoint convert_tools (inputTools : list ToolUnion) : Outcome (list JsValue) :=
  match inputTools with
  | [] => Returned []
  | tool :: rest =>
      outcome_bind (convert_tool tool) (fun converted =>
      outcome_bind (convert_tools rest) (fun more => Returned (converted :: more)))
  end.

(** The deprecation warning for [generationConfig]. *)
Definition warn_generationConfig (cfg : option LiveConnectConfig) : M unit :=
  if match optional_chain cfg generationConfig with
     | Some g => js_truthy g
     | None => false
     end
  then console_log GENERATION_CONFIG_WARNING
  else ret tt.

(** [if (convertedTools.length > 0) params.config!.tools = convertedTools] *)
Definition assign_tools (p : loc) (convertedTools : list JsValue) : M unit :=
  if Nat.ltb 0 (length convertedTools) then
    cfg <- read_config p ;;
    match cfg with
    | Some (l, cf) => write_config l (set_tools (map StaticTool convertedTools) cf)
    | None => throw TYPE_ERROR
    end
  else ret tt.

(** The setup envelope of the backend variant, before the [config] key
    is deleted. *)
Definition setup_envelope (client : ApiClient)
    (liveConnectParameters : LiveConnectParameters LiveConnectConfig) : Outcome JsObject :=
  if isVertexAI client
  then liveConnectParametersToVertex ext client liveConnectParameters
  else liveConnectParametersToMldev ext client liveConnectParameters.

(** The second part of [connect], once the transport is open. *)
Definition connect_setup (live : Live) (p : loc) (c : nat) : M Session :=
  params <- read_params p ;;
  transformedModel <- lift (tModel ext (apiClient live) (model params)) ;;
  let transformedModel := qualified_model (apiClient live) transformedModel in
  default_responseModalities live p ;;;
  cfg <- read_config p ;;
  warn_generationConfig (option_map snd cfg) ;;;
  let inputTools := default [] (optional_chain cfg (fun lc => tools (snd lc))) in
  convertedTools <- lift (convert_tools inputTools) ;;
  assign_tools p convertedTools ;;;
  params <- read_params p ;;
  cfg <- read_config p ;;
  let liveConnectParameters :=
    {| model := transformedModel; config := option_map snd cfg; callbacks := callbacks params |} in
  clientMessage <- lift (setup_envelope (apiClient live) liveConnectParameters) ;;
  conn_send c (JSON_stringify (obj_delete "config" clientMessage)) ;;;
  ret {| conn := c; session_apiClient := apiClient live |}.

(** [Live.connect] *)
Definition connect (live : Live) (p : loc) : M Session :=
  target <- connect_target live p ;;
  let url := fst target in
  let headers := headersToMap (snd target) in
  params <- read_params p ;;
  c <- ws_create url headers ;;
  emit (WsConnect c) ;;;
  await_open live c url headers (callbacks params) ;;;
  connect_setup live p c.

(** ** Inbound messages *)

(** [Object.assign(target, source)] on objects given by their fields. *)
Definition Object_assign (target source : JsObject) : JsObject := obj_spread target source.

(** [handleWebSocketMessage] from the point where [jsonData] is known.
    The function is [async] and its promise is dropped by [void]: a
    failure (of [JSON.parse], of the converter, of calling an absent
    [onmessage]) reaches nobody and leaves the world as it is. *)
Definition dispatch_text (client : ApiClient) (onmessage : option UserFn)
    (jsonData : string) (w : World) : World :=
  match JSON_parse ext jsonData with
  | None => w
  | Some data =>
      match (if isVertexAI client
             then liveServerMessageFromVertex ext data
             else liveServerMessageFromMldev ext data) with
      | Returned resp =>
          match onmessage with
          | Some _ =>
              with_trace (fun t => t ++ [UserOnMessage (Object_assign [] resp)]) w
          | None => w
          end
      | _ => w
      end
  end.

(** [handleWebSocketMessage], called by the transport with an event.  A
    text or an [ArrayBuffer] is decoded at once and the call runs to its
    end; for a [Blob] the call stops at [await event.data.text()] and
    the rest runs when the text is there. *)
Definition handleWebSocketMessage (client : ApiClient) (onmessage : option UserFn)
    (data : MessageData) (w : World) : World :=
  match data with
  | DataBlob bytes =>
      with_suspended
        (fun l => l ++ [{| sus_apiClient := client; sus_onmessage := onmessage;
                           sus_blob := bytes |}]) w
  | DataArrayBuffer bytes => dispatch_text client onmessage (decodeText ext bytes) w
  | DataText jsonData => dispatch_text client onmessage jsonData w
  end.

(** [websocketCallbacks.onmessage] of [connect].  Without [callbacks]
    the read of [callbacks.onmessage] throws into the transport. *)
Definition ws_onmessage (client : ApiClient) (cbs : option LiveCallbacks)
    (data : MessageData) (w : World) : World :=
  match cbs with
  | Some cb => handleWebSocketMessage client (onmessage cb) data w
  | None => w
  end.

(** The text of the [i]-th suspended call is there: the call goes on. *)
Definition resume_blob (i : nat) (w : World) : World :=
  match suspended w !! i with
  | Some h =>
      dispatch_text (sus_apiClient h) (sus_onmessage h) (decodeText ext (sus_blob h))
        (with_suspended (fun l => delete i l) w)
  | None => w
  end.

(** What happens on the inbound side of one connection: the transport
    delivers a message, or the text of a suspended [Blob] arrives. *)
Inductive InboundStep : Type :=
| Deliver (data : MessageData)
| BlobText (i : nat).

Definition inbound_step (client : ApiClient) (cbs : option LiveCallbacks)
    (w : World) (step : InboundStep) : World :=
  match step with
  | Deliver data => ws_onmessage client cbs data w
  | BlobText i => resume_blob i w
  end.

Definition inbound_run (client : ApiClient) (cbs : option LiveCallbacks)
    (steps : list InboundStep) (w : World) : World :=
  fold_left (inbound_step client cbs) steps w.

(** The messages of a run in the order the transport delivered them. *)
Definition delivered (steps : list InboundStep) : list MessageData :=
  omap (fun step => match step with Deliver data => Some data | BlobText _ => None end) steps.

Definition is_blob (data : MessageData) : bool :=
  match data with
  | DataBlob _ => true
  | _ => false
  end.

(** The frame a message decodes to, when it decodes. *)
Definition decode_frame (client : ApiClient) (data : MessageData) : option JsObject :=
  let jsonData := match data with
                  | DataText s => s
                  | DataArrayBuffer bytes => decodeText ext bytes
                  | DataBlob bytes => decodeText ext bytes
                  end in
  match JSON_parse ext jsonData with
  | None => None
  | Some parsed =>
      match (if isVertexAI client
             then liveServerMessageFromVertex ext parsed
             else liveServerMessageFromMldev ext parsed) with
      | Returned resp => Some (Object_assign [] resp)
      | _ => None
      end
  end.

End WithExternals.

(** ** The Node client: [GoogleGenAI] *)

Record GoogleAuthOptions : Type := {
  credentials : option JsValue;
}.

Record HttpOptions : Type := {
  baseUrl : option string;
  httpOtherFields : JsObject;
}.

(** [GoogleGenAIOptions] *)
Record GoogleGenAIOptions : Type := {
  opt_vertexai : option bool;
  opt_project : option string;
  opt_location : option string;
  opt_apiKey : option string;
  opt_apiVersion : option string;
  opt_apiUrl : option string;
  opt_googleAuthOptions : option GoogleAuthOptions;
  opt_httpOptions : option HttpOptions;
}.

(** The fields of a constructed client, and the [httpOptions] it hands
    to the [ApiClient]. *)
Record GoogleGenAI : Type := {
  vertexai : bool;
  apiUrl : option string;
  apiKey : option string;
  project : option string;
  location : option string;
  apiVersion : option string;
  httpOptions : option HttpOptions;
}.

Definition MUTUALLY_EXCLUSIVE : string :=
  "Project/location and API key are mutually exclusive in the client initializer.".

(** White space as [String.prototype.trim] sees it, within ASCII. *)
Definition is_space (c : ascii) : bool :=
  let n := N_of_ascii c in
  ((9 <=? n) && (n <=? 13) || (n =? 32))%N.

Fixpoint trim_start (s : string) : string :=
  match s with
  | String c rest => if is_space c then trim_start rest else s
  | EmptyString => EmptyString
  end.

Fixpoint trim_end (s : string) : string :=
  match s with
  | EmptyString => EmptyString
  | String c rest =>
      match trim_end rest with
      | EmptyString => if is_space c then EmptyString else String c EmptyString
      | rest' => String c rest'
      end
  end.

Definition trim (s : string) : string := trim_end (trim_start s).

Definition lower_char (c : ascii) : ascii :=
  let n := N_of_ascii c in
  if ((65 <=? n) && (n <=? 90))%N then ascii_of_N (n + 32) else c.

Fixpoint toLowerCase (s : string) : string :=
  match s with
  | EmptyString => EmptyString
  | String c rest => String (lower_char c) (toLowerCase rest)
  end.

(** [a || b] on [string | undefined] *)
Definition or_string (a b : option string) : option string :=
  if truthy_ostring a then a else b.

(** [a ?? b] *)
Definition nullish_or {A} (a b : option A) : option A :=
  match a with
  | Some _ => a
  | None => b
  end.

Section NodeClient.

(** [process.env], and [getBaseUrl] of [_base_url.ts]. *)
Context (env : string -> option string).
Context (getBaseUrl : GoogleGenAIOptions -> option string -> option string -> option string).

Definition getEnv (name : string) : option string := option_map trim (env name).

Definition stringToBoolean (str : option string) : bool :=
  match str with
  | None => false
  | Some s => String.eqb (toLowerCase s) "true"
  end.

Definition getBooleanEnv (name : string) : bool := stringToBoolean (getEnv name).

Definition BOTH_KEYS_WARNING : string :=
  "Both GOOGLE_API_KEY and GEMINI_API_KEY are set. Using GOOGLE_API_KEY.".

Definition getApiKeyFromEnv : M (option string) :=
  let envGoogleApiKey := getEnv "GOOGLE_API_KEY" in
  let envGeminiApiKey := getEnv "GEMINI_API_KEY" in
  (if truthy_ostring envGoogleApiKey && truthy_ostring envGeminiApiKey
   then console_log BOTH_KEYS_WARNING else ret tt) ;;;
  ret (or_string envGoogleApiKey envGeminiApiKey).

Definition getBaseApiUrlFromEnv : M (option string) :=
  let envGoogleApiKey := getEnv "GOOGLE_BASE_API_URL" in
  let envGeminiApiKey := getEnv "GEMINI_BASE_API_URL" in
  (if truthy_ostring envGoogleApiKey && truthy_ostring envGeminiApiKey
   then console_log BOTH_KEYS_WARNING else ret tt) ;;;
  ret (or_string envGoogleApiKey envGeminiApiKey).

(** The express-mode precedence rules of the constructor: what becomes
    of [(apiKey, project, location)], and the line written to the
    console for the rule that applied. *)
Definition express_mode (options : GoogleGenAIOptions)
    (envApiKey envProject envLocation : option string)
    (fields : option string * option string * option string)
    : M (option string * option string * option string) :=
  let '(apiKey, project, location) := fields in
  if default false (opt_vertexai options) then
    apiKey <-
      (if match optional_chain (opt_googleAuthOptions options) credentials with
          | Some cr => js_truthy cr
          | None => false
          end
       then console_log "The user provided Google Cloud credentials will take precedence over the API key from the environment variable." ;;;
            ret None
       else ret apiKey) ;;
    if truthy_ostring (or_string envProject envLocation)
       && truthy_ostring (opt_apiKey options)
    then console_log "The user provided Vertex AI API key will take precedence over the project/location from the environment variables." ;;;
         ret (apiKey, None, None)
    else if truthy_ostring (or_string (opt_project options) (opt_location options))
            && truthy_ostring envApiKey
    then console_log "The user provided project/location will take precedence over the API key from the environment variables." ;;;
         ret (None, project, location)
    else if truthy_ostring (or_string envProject envLocation) && truthy_ostring envApiKey
    then console_log "The project/location from the environment variables will take precedence over the API key from the environment variables." ;;;
         ret (None, project, location)
    else ret (apiKey, project, location)
  else ret (apiKey, project, location).

(** The constructor of [GoogleGenAI], up to the fields it hands to the
    [ApiClient]. *)
Definition GoogleGenAI_new (options : GoogleGenAIOptions) : M GoogleGenAI :=
  if truthy_ostring (or_string (opt_project options) (opt_location options))
     && truthy_ostring (opt_apiKey options)
  then throw MUTUALLY_EXCLUSIVE
  else
    let vertexai := default (getBooleanEnv "GOOGLE_GENAI_USE_VERTEXAI") (opt_vertexai options) in
    envApiBaseUrl <- getBaseApiUrlFromEnv ;;
    envApiKey <- getApiKeyFromEnv ;;
    let envProject := getEnv "GOOGLE_CLOUD_PROJECT" in
    let envLocation := getEnv "GOOGLE_CLOUD_LOCATION" in
    fields <- express_mode options envApiKey envProject envLocation
                (nullish_or (opt_apiKey options) envApiKey,
                 nullish_or (opt_project options) envProject,
                 nullish_or (opt_location options) envLocation) ;;
    let '(apiKey, project, location) := fields in
    let baseUrl := getBaseUrl options (getEnv "GOOGLE_VERTEX_BASE_URL")
                     (getEnv "GOOGLE_GEMINI_BASE_URL") in
    let httpOptions :=
      if truthy_ostring baseUrl then
        match opt_httpOptions options with
        | Some h => Some {| baseUrl := baseUrl; httpOtherFields := httpOtherFields h |}
        | None => Some {| baseUrl := baseUrl; httpOtherFields := [] |}
        end
      else opt_httpOptions options in
    ret {| vertexai := vertexai;
           apiUrl := nullish_or (opt_apiUrl options) envApiBaseUrl;
           apiKey := apiKey; project := project; location := location;
           apiVersion := opt_apiVersion options;
           httpOptions := httpOptions |}.

End NodeClient.

(** ** Concrete collaborators, clients and worlds

    Used to run the definitions above on examples. *)

Definition modality_name (m : Modality) : string :=
  match m with
  | MODALITY_UNSPECIFIED => "MODALITY_UNSPECIFIED"
  | TEXT => "TEXT"
  | IMAGE => "IMAGE"
  | AUDIO => "AUDIO"
  end.

Definition sample_tModel (client : ApiClient) (name : string) : Outcome string :=
  if negb (truthy_string name) then Threw "model is required and must be a string"
  else if isVertexAI client then
    if String.prefix "publishers/" name || String.prefix "projects/" name
       || String.prefix "models/" name
    then Returned name
    else Returned ("publishers/google/models/" +:+ name)
  else if String.prefix "models/" name || String.prefix "tunedModels/" name
  then Returned name
  else Returned ("models/" +:+ name).

Definition sample_setup (client : ApiClient)
    (params : LiveConnectParameters LiveConnectConfig) : Outcome JsObject :=
  Returned
    [("setup",
      JObj [("model", JStr (model params));
            ("generationConfig",
             JObj [("responseModalities",
                    match optional_chain (config params) responseModalities with
                    | Some ms => JArr (map (fun m => JStr (modality_name m)) ms)
                    | None => JUndefined
                    end)])])].

Definition sample_tContents (turns : JsValue) : Outcome (list JsValue) :=
  match turns with
  | JArr items => Returned items
  | JObj _ => Returned [turns]
  | JStr text =>
      Returned [JObj [("role", JStr "user"); ("parts", JArr [JObj [("text", JStr text)]])]]
  | _ => Threw "Unsupported content type"
  end.

Definition sample_serverMessage (data : JsValue) : Outcome JsObject :=
  match data with
  | JObj fields => Returned fields
  | _ => Threw "not an object"
  end.

Definition frame_setupComplete : JsObject := [("setupComplete", JObj [])].
Definition frame_serverContent : JsObject :=
  [("serverContent", JObj [("turnComplete", JBool true)])].

(** A [JSON.parse] that knows the texts of two server frames. *)
Definition sample_JSON_parse (text : string) : option JsValue :=
  if String.eqb text (JSON_stringify frame_setupComplete) then Some (JObj frame_setupComplete)
  else if String.eqb text (JSON_stringify frame_serverContent)
  then Some (JObj frame_serverContent)
  else None.

(** The [Headers] of the platform for valid names and values: [append]
    adds to the header list; [forEach] visits the names in lower case
    and sorted, the values of equal names combined with a comma and a
    space, but for [set-cookie]. *)
Definition ascii_lower (c : ascii) : ascii :=
  if (65 <=? nat_of_ascii c)%nat && (nat_of_ascii c <=? 90)%nat
  then ascii_of_nat (nat_of_ascii c + 32)
  else c.

Fixpoint string_lower (s : string) : string :=
  match s with
  | EmptyString => EmptyString
  | String c rest => String (ascii_lower c) (string_lower rest)
  end.

Fixpoint combine_header (k v : string) (sorted : list (string * string))
    : list (string * string) :=
  match sorted with
  | [] => [(k, v)]
  | (k', v') :: rest =>
      if String.eqb k k' && negb (String.eqb k "set-cookie")
      then (k', v' +:+ ", " +:+ v) :: rest
      else if String.ltb k k' then (k, v) :: (k', v') :: rest
      else (k', v') :: combine_header k v rest
  end.

Definition sample_Headers_append (headers : Headers) (key value : string) : Headers :=
  headers ++ [(key, value)].

Definition sample_Headers_forEach (headers : Headers) : list (string * string) :=
  fold_left (fun sorted kv => combine_header (string_lower (fst kv)) (snd kv) sorted) headers [].

Definition sample_externals : Externals :=
  {| tModel := sample_tModel;
     tContents := sample_tContents;
     contentToVertex := Returned;
     contentToMldev := Returned;
     liveConnectParametersToVertex := sample_setup;
     liveConnectParametersToMldev := sample_setup;
     liveSendRealtimeInputParametersToVertex := Returned;
     liveSendRealtimeInputParametersToMldev := Returned;
     liveServerMessageFromVertex := sample_serverMessage;
     liveServerMessageFromMldev := sample_serverMessage;
     hasMcpToolUsage := fun _ => false;
     setMcpUsageHeader := fun h => h ++ [("x-goog-api-client", "mcp_used/unknown")];
     JSON_parse := sample_JSON_parse;
     decodeText := fun bytes => bytes;
     Headers_append := sample_Headers_append;
     Headers_forEach := sample_Headers_forEach |}.

Definition mldev_client : ApiClient :=
  {| isVertexAI := false;
     getWebsocketBaseUrl := "wss://generativelanguage.googleapis.com";
     getApiVersion := "v1beta";
     getApiKey := Some "secret";
     getProject := None;
     getLocation := None;
     getDefaultHeaders := [("user-agent", "google-genai-sdk")] |}.

Definition vertex_client : ApiClient :=
  {| isVertexAI := true;
     getWebsocketBaseUrl := "wss://us-central1-aiplatform.googleapis.com";
     getApiVersion := "v1beta1";
     getApiKey := None;
     getProject := Some "p";
     getLocation := Some "l";
     getDefaultHeaders := [("user-agent", "google-genai-sdk")] |}.

Definition sample_auth : Auth :=
  {| addAuthHeaders := fun h => Returned (h ++ [("authorization", "Bearer token")]) |}.

Definition open_factory : WebSocketFactory := {| signalsOpen := fun _ _ => true |}.

Definition mldev_live : Live :=
  {| apiClient := mldev_client; auth := sample_auth; webSocketFactory := open_factory |}.

Definition vertex_live : Live :=
  {| apiClient := vertex_client; auth := sample_auth; webSocketFactory := open_factory |}.

Definition mldev_session : Session := {| conn := 0%nat; session_apiClient := mldev_client |}.
Definition vertex_session : Session := {| conn := 0%nat; session_apiClient := vertex_client |}.

Definition sample_callbacks : LiveCallbacks :=
  {| onopen := Some Completes; onmessage := Some Completes; onerror := None; onclose := None |}.

Definition empty_world : World :=
  {| param_objs := ∅; config_objs := ∅; trace := []; console := [];
     next_conn := 0%nat; suspended := [] |}.

(** A response without [name] and without [id]. *)
Definition response_without_name : JsValue :=
  JObj [("response", JObj [("ok", JBool true)])].

(** A response with [name] and [response], without [id]. *)
Definition response_without_id : JsValue :=
  JObj [("name", JStr "lookup"); ("response", JObj [("ok", JBool true)])].

(** A static tool and a callable tool that resolves. *)
Definition sample_tools : list ToolUnion :=
  [StaticTool (JObj [("googleSearch", JObj [])]);
   CallableTool (Returned (JObj [("functionDeclarations", JArr [])]))].

(** A configuration with tools and without [responseModalities]. *)
Definition caller_config : LiveConnectConfig :=
  {| responseModalities := None; generationConfig := None;
     tools := Some sample_tools; otherFields := [] |}.

(** Params that refer to the configuration object at reference 1. *)
Definition caller_params : LiveConnectParameters loc :=
  {| model := "gemini-2.0-flash-live-preview-04-09"; config := Some 1%positive;
     callbacks := Some sample_callbacks |}.

(** A world in which the caller holds a params object, at reference 1,
    that refers to a configuration object, at reference 1. *)
Definition caller_world : World :=
  {| param_objs := {[ 1%positive := caller_params ]};
     config_objs := {[ 1%positive := caller_config ]};
     trace := []; console := []; next_conn := 0%nat; suspended := [] |}.

(** Params without [config]. *)
Definition bare_params : LiveConnectParameters loc :=
  {| model := "gemini-2.0-flash-live-001"; config := None;
     callbacks := Some sample_callbacks |}.

(** A world in which the caller's params object has no [config]. *)
Definition bare_world : World :=
  {| param_objs := {[ 1%positive := bare_params ]};
     config_objs := ∅;
     trace := []; console := []; next_conn := 0%nat; suspended := [] |}.

(** A direct-API client whose key is an ephemeral token. *)
Definition ephemeral_client : ApiClient :=
  {| isVertexAI := false;
     getWebsocketBaseUrl := "wss://generativelanguage.googleapis.com";
     getApiVersion := "v1alpha";
     getApiKey := Some "auth_tokens/abc";
     getProject := None;
     getLocation := None;
     getDefaultHeaders := [] |}.

Definition ephemeral_live : Live :=
  {| apiClient := ephemeral_client; auth := sample_auth; webSocketFactory := open_factory |}.

(** The texts of two server frames, the first delivered as a [Blob]
    whose text is there after the second message was delivered. *)
Definition blob_then_text : list InboundStep :=
  [Deliver (DataBlob (JSON_stringify frame_setupComplete));
   Deliver (DataText (JSON_stringify frame_serverContent));
   BlobText 0].

(** The same two texts, delivered as a text and as an [ArrayBuffer]. *)
Definition text_then_buffer : list MessageData :=
  [DataText (JSON_stringify frame_setupComplete);
   DataArrayBuffer (JSON_stringify frame_serverContent)].

(** Options with an API key and a project. *)
Definition key_and_project : GoogleGenAIOptions :=
  {| opt_vertexai := Some true; opt_project := Some "my-project"; opt_location := None;
     opt_apiKey := Some "secret"; opt_apiVersion := None; opt_apiUrl := None;
     opt_googleAuthOptions := None; opt_httpOptions := None |}.

(** ** Vocabulary of the statements *)

(** A computation keeps the relation [R] between the world before and
    the world after, whatever its outcome. *)
Definition preserves (R : World -> World -> Prop) {A} (m : M A) : Prop :=
  forall w, R w (snd (m w)).

(** What the loop of [tLiveClienttToolResponse] asks of every response
    before it looks for the [id]. *)
Definition carries_name_and_response (fr : JsValue) : bool :=
  String.eqb (js_typeof fr) "object"
  && negb (match fr with JNull => true | _ => false end)
  && js_in "name" fr && js_in "response" fr.

Definition lacks_id (fr : JsValue) : bool := negb (js_in "id" fr).

(** The text [{"clientContent":{"turnComplete":b}}], written character
    by character. *)
Definition frame_turnComplete (b : string) : string :=
  "{" +:+ String dquote ("clientContent" +:+ String dquote (":{"
      +:+ String dquote ("turnComplete" +:+ String dquote (":" +:+ b +:+ "}}")))).

(** The configuration object [params.config] denotes in a world. *)
Definition config_snapshot (w : World) (params : LiveConnectParameters loc)
    : option LiveConnectConfig :=
  match config params with
  | Some l => config_objs w !! l
  | None => None
  end.

Definition audio_only : LiveConnectConfig :=
  {| responseModalities := Some [AUDIO]; generationConfig := None;
     tools := None; otherFields := [] |}.

(** The configuration after the default of the response modality. *)
Definition with_default_modality (client : ApiClient) (cfg : option LiveConnectConfig)
    : option LiveConnectConfig :=
  if isVertexAI client && negb (is_defined (optional_chain cfg responseModalities))
  then Some (match cfg with
             | Some c => set_responseModalities [AUDIO] c
             | None => audio_only
             end)
  else cfg.

(** The configuration after the resolved tools are written to it. *)
Definition with_converted_tools (converted : list JsValue) (cfg : option LiveConnectConfig)
    : option LiveConnectConfig :=
  if Nat.ltb 0 (length converted)
  then option_map (set_tools (map StaticTool converted)) cfg
  else cfg.

(** The configuration the setup frame is built from. *)
Definition resolved_config (client : ApiClient) (cfg : option LiveConnectConfig)
    (converted : list JsValue) : option LiveConnectConfig :=
  with_converted_tools converted (with_default_modality client cfg).

(** Only the console may differ. *)
Definition quiet (w w1 : World) : Prop :=
  param_objs w1 = param_objs w /\ config_objs w1 = config_objs w
  /\ trace w1 = trace w /\ next_conn w1 = next_conn w.

(** The trace is extended, and no connection is created. *)
Definition extends (w w1 : World) : Prop :=
  next_conn w1 = next_conn w /\ exists more, trace w1 = trace w ++ more.

(** The user's callback the transport's open signal reaches. *)
Definition user_open_events (cbs : option LiveCallbacks) : list Event :=
  match optional_chain cbs onopen with
  | Some _ => [UserOnOpen]
  | None => []
  end.

(** The URL of the direct-API variant, as the handshake describes it. *)
Definition direct_api_url (client : ApiClient) : string :=
  match getApiKey client with
  | Some key =>
      if truthy_string key then
        getWebsocketBaseUrl client +:+ "/ws/google.ai.generativelanguage."
        +:+ getApiVersion client +:+ ".GenerativeService."
        +:+ (if String.prefix "auth_tokens/" key
             then "BidiGenerateContentConstrained" else "BidiGenerateContent")
        +:+ "?"
        +:+ (if String.prefix "auth_tokens/" key then "access_token" else "key")
        +:+ "=" +:+ key
      else getWebsocketBaseUrl client
  | None => getWebsocketBaseUrl client
  end.

(** ** Vocabulary of the further properties *)

(** What [tLiveClienttToolResponse] accepts of one response on a
    variant: [name] and [response], and on the direct API [id]. *)
Definition acceptable_response (vertex : bool) (fr : JsValue) : bool :=
  carries_name_and_response fr && (vertex || js_in "id" fr).

(** The message for a response that is not an object with [name] and
    [response]. *)
Definition could_not_parse (fr : JsValue) : string :=
  "Could not parse function response, type '" +:+ js_typeof fr +:+ "'.".

(** The message of [tLiveClientContent] for [turns] it cannot convert. *)
Definition failed_to_parse_turns (turns : JsValue) : string :=
  "Failed to parse client content " +:+ String dquote "turns"
  +:+ String dquote ", type: '" +:+ js_typeof turns +:+ "'".

(** The outcome of a send operation on connection [c] from the world
    [w]: one frame handed to [c] and nothing else changed, or a failure
    that left the world as it was. *)
Definition one_frame_or_nothing (c : nat) (w : World) (r : Outcome unit * World) : Prop :=
  (exists frame, r = (Returned tt, with_trace (fun t => t ++ [WsSend c frame]) w))
  \/ (fst r <> Returned tt /\ snd r = w).

(** The [turnComplete] of a call of [sendClientContent]: the caller's
    when the key is there, [true] otherwise. *)
Definition effective_turnComplete (params : JsObject) : JsValue :=
  if obj_has "turnComplete" params then obj_get "turnComplete" params else JBool true.

(** The conversion of [turns] on a variant. *)
Definition convert_turns (ext : Externals) (client : ApiClient) (turns : JsValue)
    : Outcome (list JsValue) :=
  outcome_bind (tContents ext turns) (fun contents =>
  if isVertexAI client
  then outcome_map (contentToVertex ext) contents
  else outcome_map (contentToMldev ext) contents).

(** Params with turns, an explicit completion flag and a key the client
    does not know. *)
Definition turns_params : JsObject :=
  [("turns", JStr "Hello?"); ("turnComplete", JBool false); ("note", JNum 1)].

(** Collaborators whose content transform refuses everything. *)
Definition refusing_externals : Externals :=
  {| tModel := sample_tModel;
     tContents := fun _ => Threw "Unsupported content type";
     contentToVertex := Returned;
     contentToMldev := Returned;
     liveConnectParametersToVertex := sample_setup;
     liveConnectParametersToMldev := sample_setup;
     liveSendRealtimeInputParametersToVertex := Returned;
     liveSendRealtimeInputParametersToMldev := Returned;
     liveServerMessageFromVertex := sample_serverMessage;
     liveServerMessageFromMldev := sample_serverMessage;
     hasMcpToolUsage := fun _ => false;
     setMcpUsageHeader := fun h => h;
     JSON_parse := sample_JSON_parse;
     decodeText := fun bytes => bytes;
     Headers_append := sample_Headers_append;
     Headers_forEach := sample_Headers_forEach |}.

(** A response with [name], [response] and [id]. *)
Definition response_with_id : JsValue :=
  JObj [("id", JStr "call-1"); ("name", JStr "lookup"); ("response", JObj [])].

(** The fields list denotes a JavaScript object: no key occurs twice. *)
Fixpoint unique_keys (o : JsObject) : bool :=
  match o with
  | [] => true
  | (k, _) :: rest => negb (obj_has k rest) && unique_keys rest
  end.

(** The frames of a stretch of the trace, each with the connection it
    was handed to. *)
Definition sends (t : list Event) : list (nat * string) :=
  omap (fun e => match e with WsSend c frame => Some (c, frame) | _ => None end) t.

(** The connections closed in a stretch of the trace. *)
Definition closes (t : list Event) : list nat :=
  omap (fun e => match e with WsClose c => Some c | _ => None end) t.

(** The trace is extended by events none of which is a send or a close. *)
Definition calm (w w1 : World) : Prop :=
  exists more, trace w1 = trace w ++ more /\ sends more = [] /\ closes more = [].

(** The objects the caller shares are as they were. *)
Definition same_stores (w w1 : World) : Prop :=
  param_objs w1 = param_objs w /\ config_objs w1 = config_objs w.

(** A computation that returns from no world. *)
Definition never_returns {A} (m : M A) : Prop :=
  forall w a, fst (m w) <> Returned a.

(** What [connect] does with [send] and [close]: it closes nothing, and
    it hands a frame to [send] only when it returns, then exactly one,
    on the connection of the session. *)
Definition sends_once (m : M Session) : Prop :=
  forall w, exists more,
    trace (snd (m w)) = trace w ++ more
    /\ closes more = []
    /\ match fst (m w) with
       | Returned s => exists frame, sends more = [(conn s, frame)]
       | _ => sends more = []
       end.

(** The record [connect] makes its [Headers] object of: the default
    headers of the client, with the MCP usage header when the configured
    tools use MCP. *)
Definition default_headers (ext : Externals) (client : ApiClient)
    (cfg : option LiveConnectConfig) : HeaderRecord :=
  match optional_chain cfg tools with
  | Some ts => if hasMcpToolUsage ext ts
               then setMcpUsageHeader ext (getDefaultHeaders client)
               else getDefaultHeaders client
  | None => getDefaultHeaders client
  end.

(** The value of the last pair with a name, among the pairs visited. *)
Fixpoint last_value (name : string) (visited : list (string * string)) : option string :=
  match visited with
  | [] => None
  | (key, value) :: rest =>
      match last_value name rest with
      | Some later => Some later
      | None => if String.eqb name key then Some value else None
      end
  end.

(** The headers [connect] starts from: the default headers of the
    client, with the MCP usage header when the configured tools use
    MCP. *)
Definition request_headers (ext : Externals) (client : ApiClient)
    (cfg : option LiveConnectConfig) : Headers :=
  mapToHeaders ext
    match optional_chain cfg tools with
    | Some ts => if hasMcpToolUsage ext ts
                 then setMcpUsageHeader ext (getDefaultHeaders client)
                 else getDefaultHeaders client
    | None => getDefaultHeaders client
    end.

(** An auth provider that fails. *)
Definition failing_auth : Auth :=
  {| addAuthHeaders := fun _ => Threw "Could not load the default credentials" |}.

Definition unauthorized_live : Live :=
  {| apiClient := vertex_client; auth := failing_auth; webSocketFactory := open_factory |}.

(** A transport that never signals open. *)
Definition silent_factory : WebSocketFactory := {| signalsOpen := fun _ _ => false |}.

Definition silent_live : Live :=
  {| apiClient := vertex_client; auth := sample_auth; webSocketFactory := silent_factory |}.

(** A caller whose [onopen] throws. *)
Definition raising_params : LiveConnectParameters loc :=
  {| model := "gemini-2.0-flash-live-001"; config := None;
     callbacks := Some {| onopen := Some (Raises "boom"); onmessage := Some Completes;
                          onerror := None; onclose := None |} |}.

Definition raising_world : World :=
  {| param_objs := {[ 1%positive := raising_params ]}; config_objs := ∅;
     trace := []; console := []; next_conn := 0%nat; suspended := [] |}.

(** A caller without a model name, which the sample transform refuses. *)
Definition nameless_params : LiveConnectParameters loc :=
  {| model := EmptyString; config := Some 1%positive; callbacks := Some sample_callbacks |}.

Definition nameless_world : World :=
  {| param_objs := {[ 1%positive := nameless_params ]};
     config_objs := {[ 1%positive := caller_config ]};
     trace := []; console := []; next_conn := 0%nat; suspended := [] |}.

(** A managed-cloud client in express mode: a key, no project, no
    location. *)
Definition express_client : ApiClient :=
  {| isVertexAI := true;
     getWebsocketBaseUrl := "wss://aiplatform.googleapis.com";
     getApiVersion := "v1beta1";
     getApiKey := Some "secret";
     getProject := None;
     getLocation := None;
     getDefaultHeaders := [] |}.

Definition express_live : Live :=
  {| apiClient := express_client; auth := sample_auth; webSocketFactory := open_factory |}.

(** A configuration whose tools are all static. *)
Definition static_config : LiveConnectConfig :=
  {| responseModalities := Some [TEXT]; generationConfig := None;
     tools := Some (map StaticTool [JObj [("googleSearch", JObj [])];
                                    JObj [("codeExecution", JObj [])]]);
     otherFields := [] |}.

Definition static_world : World :=
  {| param_objs := {[ 1%positive := caller_params ]};
     config_objs := {[ 1%positive := static_config ]};
     trace := []; console := []; next_conn := 0%nat; suspended := [] |}.

(** The frame a suspended call of [handleWebSocketMessage] will hand to
    its callback once the text is there. *)
Definition pending_frame (ext : Externals) (h : Suspended) : option JsObject :=
  match sus_onmessage h with
  | Some _ => decode_frame ext (sus_apiClient h) (DataBlob (sus_blob h))
  | None => None
  end.

(** Two [Blob]s, a text between them, and the texts of the [Blob]s
    arriving in the opposite order. *)
Definition interleaved_steps : list InboundStep :=
  [Deliver (DataBlob (JSON_stringify frame_setupComplete));
   Deliver (DataText (JSON_stringify frame_serverContent));
   Deliver (DataBlob (JSON_stringify frame_serverContent));
   BlobText 1; BlobText 0].

(** A step of a run in which all messages are [Blob]s and their texts
    arrive in the order of delivery: the delivery of a [Blob], or the
    arrival of the text of the call suspended longest. *)
Definition in_delivery_order (step : InboundStep) : bool :=
  match step with
  | Deliver data => is_blob data
  | BlobText i => Nat.eqb i 0
  end.

(** Two [Blob]s, the text of each arriving before the next delivery. *)
Definition alternating_steps : list InboundStep :=
  [Deliver (DataBlob (JSON_stringify frame_setupComplete)); BlobText 0;
   Deliver (DataBlob (JSON_stringify frame_serverContent)); BlobText 0].

(** The frames that reached the callback, then the frames that suspended
    calls still hold. *)
Definition accounted (ext : Externals) (w : World) : list JsObject :=
  messages_dispatched (trace w) ++ omap (pending_frame ext) (suspended w).

(** [options.googleAuthOptions?.credentials] is truthy. *)
Definition has_credentials (options : GoogleGenAIOptions) : bool :=
  match optional_chain (opt_googleAuthOptions options) credentials with
  | Some cr => js_truthy cr
  | None => false
  end.

(** The API key of the environment: [GOOGLE_API_KEY], or else
    [GEMINI_API_KEY]. *)
Definition env_api_key (env : string -> option string) : option string :=
  or_string (getEnv env "GOOGLE_API_KEY") (getEnv env "GEMINI_API_KEY").

(** The warnings of the two lookups that have a Google and a Gemini
    variable. *)
Definition env_warnings (env : string -> option string) : list string :=
  (if truthy_ostring (getEnv env "GOOGLE_BASE_API_URL")
      && truthy_ostring (getEnv env "GEMINI_BASE_API_URL")
   then [BOTH_KEYS_WARNING] else [])
  ++ (if truthy_ostring (getEnv env "GOOGLE_API_KEY")
         && truthy_ostring (getEnv env "GEMINI_API_KEY")
      then [BOTH_KEYS_WARNING] else []).

(** An environment given by its variables. *)
Definition env_of (vars : list (string * string)) (name : string) : option string :=
  snd <$> find (fun kv => String.eqb name (fst kv)) vars.

(** An environment that selects Vertex AI and has a key and a project. *)
Definition vertex_environment : string -> option string :=
  env_of [("GOOGLE_GENAI_USE_VERTEXAI", " True "); ("GOOGLE_API_KEY", "google-key");
          ("GEMINI_API_KEY", "gemini-key"); ("GOOGLE_CLOUD_PROJECT", "env-project")].

Definition no_options : GoogleGenAIOptions :=
  {| opt_vertexai := None; opt_project := None; opt_location := None;
     opt_apiKey := None; opt_apiVersion := None; opt_apiUrl := None;
     opt_googleAuthOptions := None; opt_httpOptions := None |}.

(** Vertex AI with an explicit key. *)
Definition express_options : GoogleGenAIOptions :=
  {| opt_vertexai := Some true; opt_project := None; opt_location := None;
     opt_apiKey := Some "explicit-key"; opt_apiVersion := None; opt_apiUrl := None;
     opt_googleAuthOptions := None; opt_httpOptions := None |}.

(** Vertex AI with an explicit key and explicit credentials. *)
Definition credential_options : GoogleGenAIOptions :=
  {| opt_vertexai := Some true; opt_project := None; opt_location := None;
     opt_apiKey := Some "explicit-key"; opt_apiVersion := None; opt_apiUrl := None;
     opt_googleAuthOptions := Some {| credentials := Some (JObj [("type", JStr "service_account")]) |};
     opt_httpOptions := None |}.

(** An environment with both base-URL variables and no API key. *)
Definition two_base_urls : string -> option string :=
  env_of [("GOOGLE_BASE_API_URL", "https://google.example");
          ("GEMINI_BASE_API_URL", "https://gemini.example")].

(** The lines [connect] writes to the console: the warning for an
    ephemeral token, then the deprecation warning for
    [generationConfig]. *)
Definition connect_warnings (client : ApiClient) (cfg : option LiveConnectConfig)
    : list string :=
  (if negb (isVertexAI client)
      && match getApiKey client with
         | Some key => truthy_string key && String.prefix "auth_tokens/" key
         | None => false
         end
   then [EPHEMERAL_TOKEN_WARNING] else [])
  ++ (if match optional_chain cfg generationConfig with
         | Some g => js_truthy g
         | None => false
         end
      then [GENERATION_CONFIG_WARNING] else []).

(** The console is as it was. *)
Definition silent (w w1 : World) : Prop := console w1 = console w.

(** The caller's objects are there: [p] denotes the params, and their
    [config], if they have one, denotes a configuration. *)
Definition params_valid (p : loc) (w : World) : Prop :=
  exists prm, param_objs w !! p = Some prm
    /\ forall l, config prm = Some l -> is_Some (config_objs w !! l).

(** A caller with a deprecated [generationConfig]. *)
Definition deprecated_config : LiveConnectConfig :=
  {| responseModalities := None; generationConfig := Some (JObj [("temperature", JNum 1)]);
     tools := None; otherFields := [] |}.

Definition deprecated_world : World :=
  {| param_objs := {[ 1%positive := caller_params ]};
     config_objs := {[ 1%positive := deprecated_config ]};
     trace := []; console := []; next_conn := 0%nat; suspended := [] |}.

(** A caller one of whose tools cannot be resolved. *)
Definition unavailable_config : LiveConnectConfig :=
  set_tools [StaticTool (JObj [("googleSearch", JObj [])]);
             CallableTool (Threw "tool unavailable")] caller_config.

Definition unavailable_world : World :=
  {| param_objs := {[ 1%positive := caller_params ]};
     config_objs := {[ 1%positive := unavailable_config ]};
     trace := []; console := []; next_conn := 0%nat; suspended := [] |}.


(** * Properties *)

(** ** Session: tool responses *)

Lemma check_function_responses_vertex (frs : list JsValue) :
  forallb carries_name_and_response frs = true ->
  check_function_responses true frs = Returned tt.
Proof.
  induction frs as [|fr rest IH]; simpl; [reflexivity|].
  unfold carries_name_and_response at 1.
  rewrite !andb_true_iff, negb_true_iff.
  intros [[[[Hty Hnull] Hname] Hresp] Hrest].
  rewrite Hty, Hname, Hresp. simpl.
  destruct fr; try discriminate Hnull; simpl; auto.
Qed.

Lemma check_function_responses_mldev (frs : list JsValue) :
  forallb carries_name_and_response frs = true ->
  existsb lacks_id frs = true ->
  check_function_responses false frs = Threw FUNCTION_RESPONSE_REQUIRES_ID.
Proof.
  induction frs as [|fr rest IH]; simpl; [discriminate|].
  unfold carries_name_and_response at 1.
  rewrite !andb_true_iff, negb_true_iff.
  intros [[[[Hty Hnull] Hname] Hresp] Hrest] Hid.
  rewrite Hty, Hname, Hresp. simpl.
  assert (Hn : match fr with JNull => true | _ => false end = false)
    by (destruct fr; auto).
  rewrite Hn. simpl.
  unfold lacks_id in Hid at 1.
  destruct (js_in "id" fr); simpl in *; auto.
Qed.

Lemma as_sequence_nonempty (v : JsValue) :
  existsb lacks_id (as_sequence v) = true -> Nat.eqb (length (as_sequence v)) 0 = false.
Proof. destruct (as_sequence v); [discriminate | reflexivity]. Qed.

Lemma carries_name_not_nullish (v : JsValue) :
  forallb carries_name_and_response (as_sequence v) = true -> js_nullish v = false.
Proof. destruct v; simpl; auto; discriminate. Qed.

(** C1 (as amended).  When every response is an object that carries
    [name] and [response] and at least one of them has no [id], then
    [sendToolResponse] on the direct-API variant throws the id-required
    message and leaves the world as it was (nothing is sent), and on
    the managed-cloud variant it returns after handing exactly one
    frame, the [toolResponse] envelope of the same responses, to the
    transport. *)
Theorem sendToolResponse_missing_id (c : nat) (mldev vertex : ApiClient)
    (v : JsValue) (w : World) :
  isVertexAI mldev = false ->
  isVertexAI vertex = true ->
  forallb carries_name_and_response (as_sequence v) = true ->
  existsb lacks_id (as_sequence v) = true ->
  sendToolResponse {| conn := c; session_apiClient := mldev |}
      {| functionResponses := v |} w
    = (Threw FUNCTION_RESPONSE_REQUIRES_ID, w)
  /\ sendToolResponse {| conn := c; session_apiClient := vertex |}
      {| functionResponses := v |} w
    = (Returned tt,
       with_trace
         (fun t => t ++ [WsSend c (JSON_stringify
                                     [("toolResponse",
                                       JObj [("functionResponses", JArr (as_sequence v))])])])
         w).
Proof.
  intros Hm Hv Hwf Hid.
  pose proof (carries_name_not_nullish v Hwf) as Hnn.
  pose proof (as_sequence_nonempty v Hid) as Hlen.
  unfold sendToolResponse, tLiveClienttToolResponse, bind, lift; simpl.
  rewrite Hnn, Hlen, Hm, Hv.
  rewrite (check_function_responses_mldev _ Hwf Hid).
  rewrite (check_function_responses_vertex _ Hwf).
  split; reflexivity.
Qed.

(** One response with [name] and [response] and without [id], on both variants. *)
Lemma sendToolResponse_missing_id_witness :
  sendToolResponse mldev_session {| functionResponses := JArr [response_without_id] |}
      empty_world
    = (Threw FUNCTION_RESPONSE_REQUIRES_ID, empty_world)
  /\ sendToolResponse vertex_session {| functionResponses := JArr [response_without_id] |}
      empty_world
    = (Returned tt,
       with_trace
         (fun t => t ++ [WsSend 0%nat
                           (JSON_stringify
                              [("toolResponse",
                                JObj [("functionResponses",
                                       JArr (as_sequence (JArr [response_without_id])))])])])
         empty_world).
Proof.
  apply (sendToolResponse_missing_id 0%nat mldev_client vertex_client
           (JArr [response_without_id]) empty_world); reflexivity.
Defined.

(** C1 as stated fails: a response without [id] that also has no [name]
    is refused with the could-not-parse message on both variants, so the
    direct-API variant does not throw the id-required message and the
    managed-cloud variant does not succeed. *)
Lemma sendToolResponse_missing_id_counterexample :
  existsb lacks_id (as_sequence (JArr [response_without_name])) = true
  /\ sendToolResponse mldev_session {| functionResponses := JArr [response_without_name] |}
       empty_world
     = (Threw "Could not parse function response, type 'object'.", empty_world)
  /\ sendToolResponse vertex_session {| functionResponses := JArr [response_without_name] |}
       empty_world
     = (Threw "Could not parse function response, type 'object'.", empty_world)
  /\ "Could not parse function response, type 'object'." <> FUNCTION_RESPONSE_REQUIRES_ID.
Proof. repeat split; try reflexivity. discriminate. Qed.

(** C2.  On either variant, [sendToolResponse] with [functionResponses]
    undefined, null or the empty array throws, with the message
    'Tool response parameters are required.' for an absent value and
    'functionResponses is required.' for the empty array, and leaves the
    world as it was: no frame reaches [conn.send]. *)
Theorem sendToolResponse_absent_or_empty (s : Session) (w : World) :
  sendToolResponse s {| functionResponses := JUndefined |} w
    = (Threw "Tool response parameters are required.", w)
  /\ sendToolResponse s {| functionResponses := JNull |} w
    = (Threw "Tool response parameters are required.", w)
  /\ sendToolResponse s {| functionResponses := JArr [] |} w
    = (Threw "functionResponses is required.", w).
Proof. repeat split. Qed.

(** ** Session: client content *)

(** C6.  [sendClientContent()] hands the text
    [{"clientContent":{"turnComplete":true}}] to the transport, and
    [sendClientContent({turnComplete:false})] the text
    [{"clientContent":{"turnComplete":false}}]; the message encoded in
    the second case has the single member [turnComplete], so no [turns]
    key. *)
Theorem sendClientContent_turnComplete (ext : Externals) (s : Session) (w : World) :
  sendClientContent ext s None w
    = (Returned tt,
       with_trace (fun t => t ++ [WsSend (conn s) (frame_turnComplete "true")]) w)
  /\ sendClientContent ext s (Some [("turnComplete", JBool false)]) w
    = (Returned tt,
       with_trace (fun t => t ++ [WsSend (conn s) (frame_turnComplete "false")]) w)
  /\ tLiveClientContent ext (session_apiClient s)
       (obj_spread defaultLiveSendClientContentParamerters [("turnComplete", JBool false)])
    = Returned [("clientContent", JObj [("turnComplete", JBool false)])].
Proof. repeat split. Qed.

(** ** Live.connect *)

Lemma bind_returned {A B} (m : M A) (k : A -> M B) (w : World) (b : B) (w' : World) :
  bind m k w = (Returned b, w') ->
  exists a w1, m w = (Returned a, w1) /\ k a w1 = (Returned b, w').
Proof.
  unfold bind. destruct (m w) as [[a|msg|] w1]; try discriminate.
  intros H. exists a, w1. split; [reflexivity | exact H].
Qed.

Lemma read_params_returned (p : loc) (w w1 : World) (prm : LiveConnectParameters loc) :
  read_params p w = (Returned prm, w1) -> w1 = w /\ param_objs w !! p = Some prm.
Proof.
  unfold read_params. destruct (param_objs w !! p); intros H; inversion H; auto.
Qed.

Lemma read_config_returned (p : loc) (w w1 : World) (cfg : option (loc * LiveConnectConfig)) :
  read_config p w = (Returned cfg, w1) ->
  w1 = w /\ exists prm, param_objs w !! p = Some prm
    /\ option_map fst cfg = config prm
    /\ option_map snd cfg = config_snapshot w prm.
Proof.
  unfold read_config. intros H.
  apply bind_returned in H as (prm & w0 & Hp & H).
  apply read_params_returned in Hp as [-> Hp].
  unfold config_snapshot.
  destruct (config prm) as [l|] eqn:Hcfg.
  - destruct (config_objs w !! l) as [c0|] eqn:Hl; inversion H; subst.
    split; [reflexivity|]. exists prm. rewrite Hcfg, Hl. auto.
  - inversion H; subst. split; [reflexivity|]. exists prm. rewrite Hcfg. auto.
Qed.

Lemma lift_returned {A} (o : Outcome A) (w w1 : World) (a : A) :
  lift o w = (Returned a, w1) -> w1 = w /\ o = Returned a.
Proof. unfold lift. intros H; inversion H; auto. Qed.

(** Computations that keep a relation between the world before and the
    world after, whatever their outcome. *)
Section Preserves.

Context (R : World -> World -> Prop).
Hypothesis R_refl : forall w, R w w.
Hypothesis R_trans : forall w1 w2 w3, R w1 w2 -> R w2 w3 -> R w1 w3.

Lemma preserves_bind {A B} (m : M A) (k : A -> M B) :
  preserves R m -> (forall a, preserves R (k a)) -> preserves R (bind m k).
Proof.
  intros Hm Hk w. specialize (Hm w). unfold bind.
  destruct (m w) as [[a|msg|] w1]; simpl in *; auto.
  eapply R_trans; [exact Hm | apply Hk].
Qed.

Lemma preserves_unchanged {A} (m : M A) :
  (forall w, snd (m w) = w) -> preserves R m.
Proof. intros H w. rewrite H. apply R_refl. Qed.

Lemma preserves_ret {A} (a : A) : preserves R (ret a).
Proof. apply preserves_unchanged. reflexivity. Qed.

Lemma preserves_throw {A} (msg : string) : preserves R (@throw A msg).
Proof. apply preserves_unchanged. reflexivity. Qed.

Lemma preserves_hang {A} : preserves R (@hang A).
Proof. apply preserves_unchanged. reflexivity. Qed.

Lemma preserves_lift {A} (o : Outcome A) : preserves R (lift o).
Proof. apply preserves_unchanged. reflexivity. Qed.

Lemma preserves_read_params (p : loc) : preserves R (read_params p).
Proof.
  apply preserves_unchanged. intros w. unfold read_params.
  destruct (param_objs w !! p); reflexivity.
Qed.

Lemma preserves_read_config (p : loc) : preserves R (read_config p).
Proof.
  apply preserves_unchanged. intros w. unfold read_config, bind, read_params.
  destruct (param_objs w !! p) as [prm|]; [|reflexivity].
  destruct (config prm) as [l|]; [|reflexivity].
  destruct (config_objs w !! l); reflexivity.
Qed.

End Preserves.

Lemma quiet_refl (w : World) : quiet w w.
Proof. repeat split. Qed.

Lemma quiet_trans (w1 w2 w3 : World) : quiet w1 w2 -> quiet w2 w3 -> quiet w1 w3.
Proof.
  unfold quiet. intros (A1 & B1 & C1 & D1) (A2 & B2 & C2 & D2).
  rewrite A2, B2, C2, D2. auto.
Qed.

Lemma extends_refl (w : World) : extends w w.
Proof. split; [reflexivity|]. exists []. symmetry. apply app_nil_r. Qed.

Lemma extends_trans (w1 w2 w3 : World) : extends w1 w2 -> extends w2 w3 -> extends w1 w3.
Proof.
  intros [N1 [m1 H1]] [N2 [m2 H2]]. split; [congruence|].
  exists (m1 ++ m2). rewrite H2, H1. symmetry. apply app_assoc.
Qed.

Lemma extends_emit (e : Event) : preserves extends (emit e).
Proof. intros w. split; [reflexivity|]. exists [e]. reflexivity. Qed.

Lemma extends_console_log (line : string) : preserves extends (console_log line).
Proof. intros w. split; [reflexivity|]. exists []. simpl. symmetry. apply app_nil_r. Qed.

Lemma quiet_console_log (line : string) : preserves quiet (console_log line).
Proof. intros w. repeat split. Qed.

Lemma extends_write_config (l : loc) (cfg : LiveConnectConfig) :
  preserves extends (write_config l cfg).
Proof. intros w. split; [reflexivity|]. exists []. simpl. symmetry. apply app_nil_r. Qed.

Lemma extends_assign_new_config (p : loc) (cfg : LiveConnectConfig) :
  preserves extends (assign_new_config p cfg).
Proof.
  intros w. unfold assign_new_config, bind, read_params.
  destruct (param_objs w !! p); [|apply extends_refl].
  split; [reflexivity|]. exists []. simpl. symmetry. apply app_nil_r.
Qed.

Create HintDb world.
#[local] Hint Resolve quiet_refl quiet_trans extends_refl extends_trans : world.
#[local] Hint Resolve preserves_ret preserves_throw preserves_hang preserves_lift
  preserves_read_params preserves_read_config extends_emit extends_console_log
  quiet_console_log extends_write_config extends_assign_new_config : world.

Ltac preserve :=
  repeat first
    [ solve [eauto 3 with world]
    | apply preserves_bind
    | match goal with
      | |- forall _, _ => intro
      | |- preserves _ (if ?b then _ else _) => destruct b
      | |- preserves _ (match ?x with _ => _ end) => destruct x
      end ].

Section ConnectProperties.

Context (ext : Externals).

Lemma connect_target_quiet (live : Live) (p : loc) : preserves quiet (connect_target ext live p).
Proof. unfold connect_target. preserve. Qed.

Lemma await_open_extends (live : Live) (c : nat) (url : string) (headers : HeaderMap)
    (cbs : option LiveCallbacks) :
  preserves extends (await_open live c url headers cbs).
Proof. unfold await_open. preserve. Qed.

Lemma connect_setup_extends (live : Live) (p : loc) (c : nat) :
  preserves extends (connect_setup ext live p c).
Proof.
  unfold connect_setup, default_responseModalities, warn_generationConfig, assign_tools,
    conn_send.
  preserve.
Qed.

Lemma default_responseModalities_returned (live : Live) (p : loc) (w w1 : World) :
  default_responseModalities live p w = (Returned tt, w1) ->
  exists prm prm1,
    param_objs w !! p = Some prm
    /\ param_objs w1 !! p = Some prm1
    /\ model prm1 = model prm
    /\ callbacks prm1 = callbacks prm
    /\ (forall l, config prm = Some l -> config prm1 = Some l)
    /\ (config prm = None -> forall l, config prm1 = Some l -> config_objs w !! l = None)
    /\ config_snapshot w1 prm1 = with_default_modality (apiClient live) (config_snapshot w prm)
    /\ trace w1 = trace w.
Proof.
  unfold default_responseModalities. intros H.
  apply bind_returned in H as (cfg & w0 & Hc & H).
  apply read_config_returned in Hc as (-> & prm & Hp & Hfst & Hsnd).
  exists prm.
  unfold with_default_modality. rewrite <- Hsnd.
  destruct cfg as [[l c0]|]; simpl in *.
  - destruct (isVertexAI (apiClient live) && negb (is_defined (responseModalities c0))) eqn:Hcond.
    + unfold write_config in H. inversion H; subst; clear H.
      exists prm. simpl. repeat split; auto.
      * intros Hnone. rewrite Hnone in Hfst. discriminate.
      * unfold config_snapshot. rewrite <- Hfst. simpl. apply lookup_insert_eq.
    + inversion H; subst. exists prm. repeat split; auto.
      intros Hnone. rewrite Hnone in Hfst. discriminate.
  - destruct (isVertexAI (apiClient live)); simpl in H.
    + unfold assign_new_config in H.
      apply bind_returned in H as (prm0 & w0 & Hp0 & H).
      apply read_params_returned in Hp0 as [-> Hp0].
      rewrite Hp in Hp0. inversion Hp0; subst prm0. inversion H; subst; clear H.
      eexists. simpl. rewrite lookup_insert_eq. repeat split; auto.
      * intros l Hl. rewrite <- Hfst in Hl. discriminate.
      * intros _ l Hl. inversion Hl; subst l.
        apply not_elem_of_dom. apply is_fresh.
      * unfold config_snapshot. simpl. apply lookup_insert_eq.
    + inversion H; subst. exists prm. repeat split; auto.
      intros Hnone l Hl. rewrite Hnone in Hl. discriminate.
Qed.

Lemma warn_generationConfig_returned (cfg : option LiveConnectConfig) (w w1 : World) (u : unit) :
  warn_generationConfig cfg w = (Returned u, w1) ->
  param_objs w1 = param_objs w /\ config_objs w1 = config_objs w /\ trace w1 = trace w.
Proof.
  unfold warn_generationConfig.
  destruct (match optional_chain cfg generationConfig with
            | Some g => js_truthy g
            | None => false
            end); intros H; inversion H; subst; auto.
Qed.

Lemma assign_tools_returned (p : loc) (converted : list JsValue) (w w1 : World)
    (prm : LiveConnectParameters loc) :
  assign_tools p converted w = (Returned tt, w1) ->
  param_objs w !! p = Some prm ->
  param_objs w1 = param_objs w
  /\ config_snapshot w1 prm = with_converted_tools converted (config_snapshot w prm)
  /\ trace w1 = trace w.
Proof.
  unfold assign_tools, with_converted_tools. intros H Hp.
  destruct (Nat.ltb 0 (length converted)).
  - apply bind_returned in H as (cfg & w0 & Hc & H).
    apply read_config_returned in Hc as (-> & prm0 & Hp0 & Hfst & Hsnd).
    rewrite Hp in Hp0. inversion Hp0; subst prm0.
    rewrite <- Hsnd.
    destruct cfg as [[l cf]|]; [|discriminate].
    unfold write_config in H. inversion H; subst; clear H. simpl in *.
    repeat split; auto.
    unfold config_snapshot. rewrite <- Hfst. simpl. apply lookup_insert_eq.
  - inversion H; subst. auto.
Qed.

Lemma connect_setup_returned (live : Live) (p : loc) (c : nat) (w w' : World) (s : Session) :
  connect_setup ext live p c w = (Returned s, w') ->
  exists prm tm converted msg prm',
    param_objs w !! p = Some prm
    /\ tModel ext (apiClient live) (model prm) = Returned tm
    /\ convert_tools (default [] (optional_chain (config_snapshot w prm) tools))
       = Returned converted
    /\ setup_envelope ext (apiClient live)
         {| model := qualified_model (apiClient live) tm;
            config := resolved_config (apiClient live) (config_snapshot w prm) converted;
            callbacks := callbacks prm |} = Returned msg
    /\ trace w' = trace w ++ [WsSend c (JSON_stringify (obj_delete "config" msg))]
    /\ s = {| conn := c; session_apiClient := apiClient live |}
    /\ param_objs w' !! p = Some prm'
    /\ model prm' = model prm
    /\ callbacks prm' = callbacks prm
    /\ (forall l, config prm = Some l -> config prm' = Some l)
    /\ (config prm = None -> forall l, config prm' = Some l -> config_objs w !! l = None)
    /\ config_snapshot w' prm' = resolved_config (apiClient live) (config_snapshot w prm) converted.
Proof.
  intros H. unfold connect_setup in H.
  apply bind_returned in H as (prm & w0 & Hp & H).
  apply read_params_returned in Hp as [-> Hp].
  apply bind_returned in H as (tm & w0 & Htm & H).
  apply lift_returned in Htm as [-> Htm].
  apply bind_returned in H as ([] & w1 & Hdef & H).
  apply default_responseModalities_returned in Hdef
    as (prm0 & prm1 & Hp0 & Hp1 & Hmodel & Hcbs & Hsame & Hnew & Hsnap1 & Htr1).
  rewrite Hp in Hp0. inversion Hp0; subst prm0; clear Hp0.
  apply bind_returned in H as (cfg & w0 & Hc & H).
  apply read_config_returned in Hc as (-> & prm0 & Hp0 & _ & Hsnd).
  rewrite Hp1 in Hp0. inversion Hp0; subst prm0; clear Hp0.
  apply bind_returned in H as (u & w2 & Hwarn & H).
  apply warn_generationConfig_returned in Hwarn as (Hpo2 & Hco2 & Htr2).
  apply bind_returned in H as (converted & w0 & Hconv & H).
  apply lift_returned in Hconv as [-> Hconv].
  apply bind_returned in H as ([] & w3 & Hassign & H).
  assert (Hp2 : param_objs w2 !! p = Some prm1) by (rewrite Hpo2; exact Hp1).
  apply (assign_tools_returned _ _ _ _ prm1) in Hassign as (Hpo3 & Hsnap3 & Htr3); [|exact Hp2].
  apply bind_returned in H as (prm3 & w0 & Hp3 & H).
  apply read_params_returned in Hp3 as [-> Hp3].
  rewrite Hpo3, Hp2 in Hp3. inversion Hp3; subst prm3; clear Hp3.
  apply bind_returned in H as (cfg3 & w0 & Hc3 & H).
  apply read_config_returned in Hc3 as (-> & prm3 & Hp3 & _ & Hsnd3).
  rewrite Hpo3, Hp2 in Hp3. inversion Hp3; subst prm3; clear Hp3.
  apply bind_returned in H as (msg & w0 & Hmsg & H).
  apply lift_returned in Hmsg as [-> Hmsg].
  apply bind_returned in H as ([] & w4 & Hsend & H).
  unfold conn_send, emit in Hsend. inversion Hsend; subst w4; clear Hsend.
  unfold ret in H. inversion H; subst; clear H.
  assert (Hsnap2 : config_snapshot w2 prm1 = config_snapshot w1 prm1)
    by (unfold config_snapshot; rewrite Hco2; reflexivity).
  assert (Hfinal : config_snapshot w3 prm1
                   = resolved_config (apiClient live) (config_snapshot w prm) converted)
    by (unfold resolved_config; rewrite Hsnap3, Hsnap2, Hsnap1; reflexivity).
  assert (Htools : optional_chain cfg (fun lc => tools (snd lc))
                   = optional_chain (config_snapshot w prm) tools).
  { transitivity (optional_chain (option_map snd cfg) tools);
      [destruct cfg; reflexivity|].
    rewrite Hsnd, Hsnap1. unfold with_default_modality.
    destruct (isVertexAI (apiClient live)
              && negb (is_defined (optional_chain (config_snapshot w prm) responseModalities)));
      [|reflexivity].
    destruct (config_snapshot w prm); reflexivity. }
  exists prm, tm, converted, msg, prm1.
  rewrite Htools in Hconv. rewrite Hsnd3, Hfinal, Hcbs in Hmsg.
  simpl. rewrite Hpo3, Htr3, Htr2, Htr1.
  repeat split; auto.
Qed.

Lemma await_open_returned (live : Live) (c : nat) (url : string) (headers : HeaderMap)
    (cbs : option LiveCallbacks) (w w1 : World) :
  await_open live c url headers cbs w = (Returned tt, w1) ->
  signalsOpen (webSocketFactory live) url headers = true
  /\ param_objs w1 = param_objs w /\ config_objs w1 = config_objs w
  /\ trace w1 = trace w ++ WsOpen c :: user_open_events cbs.
Proof.
  unfold await_open, user_open_events.
  destruct (signalsOpen (webSocketFactory live) url headers); [|discriminate].
  unfold bind, emit, ret, hang.
  destruct (optional_chain cbs onopen) as [[|msg]|]; intros H; inversion H; subst; simpl;
    rewrite <- ?app_assoc; auto.
Qed.

Lemma connect_returned (live : Live) (p : loc) (w w' : World) (s : Session) :
  connect ext live p w = (Returned s, w') ->
  exists url hdrs prm tm converted msg prm',
    fst (connect_target ext live p w) = Returned (url, hdrs)
    /\ signalsOpen (webSocketFactory live) url (headersToMap ext hdrs) = true
    /\ s = {| conn := next_conn w; session_apiClient := apiClient live |}
    /\ trace w' = trace w
         ++ [WsCreate (next_conn w) url (headersToMap ext hdrs); WsConnect (next_conn w);
             WsOpen (next_conn w)]
         ++ user_open_events (callbacks prm)
         ++ [WsSend (next_conn w) (JSON_stringify (obj_delete "config" msg))]
    /\ param_objs w !! p = Some prm
    /\ tModel ext (apiClient live) (model prm) = Returned tm
    /\ convert_tools (default [] (optional_chain (config_snapshot w prm) tools))
       = Returned converted
    /\ setup_envelope ext (apiClient live)
         {| model := qualified_model (apiClient live) tm;
            config := resolved_config (apiClient live) (config_snapshot w prm) converted;
            callbacks := callbacks prm |} = Returned msg
    /\ param_objs w' !! p = Some prm'
    /\ model prm' = model prm
    /\ callbacks prm' = callbacks prm
    /\ (forall l, config prm = Some l -> config prm' = Some l)
    /\ (config prm = None -> forall l, config prm' = Some l -> config_objs w !! l = None)
    /\ config_snapshot w' prm' = resolved_config (apiClient live) (config_snapshot w prm) converted.
Proof.
  intros H. unfold connect in H.
  apply bind_returned in H as ([url hdrs] & w1 & Htarget & H).
  destruct (connect_target_quiet live p w) as (Hpo1 & Hco1 & Htr1 & Hnc1).
  rewrite Htarget in Hpo1, Hco1, Htr1, Hnc1. simpl in Hpo1, Hco1, Htr1, Hnc1.
  apply bind_returned in H as (prm & w0 & Hp & H).
  apply read_params_returned in Hp as [-> Hp].
  apply bind_returned in H as (c & w2 & Hcreate & H).
  unfold ws_create in Hcreate. inversion Hcreate; subst c w2; clear Hcreate.
  apply bind_returned in H as ([] & w3 & Hconnect & H).
  unfold emit in Hconnect. inversion Hconnect; subst w3; clear Hconnect.
  apply bind_returned in H as ([] & w4 & Hopen & H).
  apply await_open_returned in Hopen as (Hsig & Hpo4 & Hco4 & Htr4).
  simpl in Hsig, Hpo4, Hco4, Htr4.
  apply connect_setup_returned in H
    as (prm0 & tm & converted & msg & prm' & Hp0 & Htm & Hconv & Hmsg & Htr & Hs & Hp' & Hm & Hc & Hsame & Hnew & Hsnap).
  rewrite Hpo4, Hp in Hp0. inversion Hp0; subst prm0; clear Hp0.
  rewrite Hco4, Hco1 in Hnew.
  assert (Hsnap0 : config_snapshot w4 prm = config_snapshot w prm)
    by (unfold config_snapshot; rewrite Hco4, Hco1; reflexivity).
  rewrite Hsnap0 in Hconv, Hmsg, Hsnap.
  exists url, hdrs, prm, tm, converted, msg, prm'.
  rewrite Htarget, <- Hpo1, <- Hnc1. simpl.
  rewrite Htr, Htr4, Htr1. rewrite <- !app_assoc. simpl.
  repeat split; auto.
Qed.

Lemma resolved_config_responseModalities (client : ApiClient)
    (cfg : option LiveConnectConfig) (converted : list JsValue) :
  optional_chain (resolved_config client cfg converted) responseModalities
  = if isVertexAI client && negb (is_defined (optional_chain cfg responseModalities))
    then Some [AUDIO]
    else optional_chain cfg responseModalities.
Proof.
  unfold resolved_config, with_converted_tools, with_default_modality.
  destruct (isVertexAI client && negb (is_defined (optional_chain cfg responseModalities)));
    destruct (Nat.ltb 0 (length converted)); destruct cfg; reflexivity.
Qed.







Lemma trace_ends (t a u : list Event) (e : Event) :
  t ++ a ++ u ++ [e] = (t ++ a ++ u) ++ [e].
Proof. rewrite <- !app_assoc. reflexivity. Qed.


(** C5.  On the managed-cloud variant, when the model transform yields
    a name [tm] that starts with [publishers/] and the client has project
    [pj] and location [lc], a [connect] that returns has sent the setup
    envelope built for the model [projects/pj/locations/lc/tm] (and the
    resolved configuration). *)
Theorem connect_qualifies_publisher_model (live : Live) (p : loc) (w w' : World)
    (s : Session) (prm : LiveConnectParameters loc) (tm pj lc : string) :
  isVertexAI (apiClient live) = true ->
  param_objs w !! p = Some prm ->
  tModel ext (apiClient live) (model prm) = Returned tm ->
  String.prefix "publishers/" tm = true ->
  getProject (apiClient live) = Some pj ->
  getLocation (apiClient live) = Some lc ->
  connect ext live p w = (Returned s, w') ->
  exists converted msg before,
    convert_tools (default [] (optional_chain (config_snapshot w prm) tools))
      = Returned converted
    /\ setup_envelope ext (apiClient live)
         {| model := "projects/" +:+ pj +:+ "/locations/" +:+ lc +:+ "/" +:+ tm;
            config := resolved_config (apiClient live) (config_snapshot w prm) converted;
            callbacks := callbacks prm |} = Returned msg
    /\ trace w' = before ++ [WsSend (conn s) (JSON_stringify (obj_delete "config" msg))].
Proof.
  intros Hv Hp Htm Hpre Hpj Hlc H.
  apply connect_returned in H
    as (url & hdrs & prm0 & tm0 & converted & msg & prm' & _ & _ & -> & Htr & Hp0 & Htm0 & Hconv & Hmsg & _).
  rewrite Hp in Hp0. inversion Hp0; subst prm0; clear Hp0.
  rewrite Htm in Htm0. inversion Htm0; subst tm0; clear Htm0.
  unfold qualified_model in Hmsg. rewrite Hv, Hpre, Hpj, Hlc in Hmsg. simpl in Hmsg.
  eexists converted, msg, _. split; [exact Hconv|]. split; [exact Hmsg|].
  rewrite Htr. apply trace_ends.
Qed.

(** C7.  A [connect] that returns has sent the setup envelope built for
    the resolved configuration, and: on the managed-cloud variant, when
    the caller gave no configuration or one without
    [responseModalities], the resolved configuration has
    [responseModalities] equal to [[AUDIO]]; on the direct-API variant
    its [responseModalities] is what the caller gave, absent when the
    caller gave none. *)
Theorem connect_default_responseModalities (live : Live) (p : loc) (w w' : World)
    (s : Session) (prm : LiveConnectParameters loc) :
  param_objs w !! p = Some prm ->
  connect ext live p w = (Returned s, w') ->
  exists tm converted msg before,
    tModel ext (apiClient live) (model prm) = Returned tm
    /\ convert_tools (default [] (optional_chain (config_snapshot w prm) tools))
       = Returned converted
    /\ setup_envelope ext (apiClient live)
         {| model := qualified_model (apiClient live) tm;
            config := resolved_config (apiClient live) (config_snapshot w prm) converted;
            callbacks := callbacks prm |} = Returned msg
    /\ trace w' = before ++ [WsSend (conn s) (JSON_stringify (obj_delete "config" msg))]
    /\ (isVertexAI (apiClient live) = true ->
        optional_chain (config_snapshot w prm) responseModalities = None ->
        optional_chain (resolved_config (apiClient live) (config_snapshot w prm) converted)
          responseModalities = Some [AUDIO])
    /\ (isVertexAI (apiClient live) = false ->
        optional_chain (resolved_config (apiClient live) (config_snapshot w prm) converted)
          responseModalities
        = optional_chain (config_snapshot w prm) responseModalities).
Proof.
  intros Hp H.
  apply connect_returned in H
    as (url & hdrs & prm0 & tm & converted & msg & prm' & _ & _ & -> & Htr & Hp0 & Htm & Hconv & Hmsg & _).
  rewrite Hp in Hp0. inversion Hp0; subst prm0; clear Hp0.
  eexists tm, converted, msg, _.
  split; [exact Htm|]. split; [exact Hconv|]. split; [exact Hmsg|].
  split; [rewrite Htr; apply trace_ends|].
  rewrite resolved_config_responseModalities.
  split; intros Hv; rewrite Hv; simpl; [intros Hnone; rewrite Hnone|]; reflexivity.
Qed.

Lemma read_config_valid (p : loc) (w : World) (prm : LiveConnectParameters loc) :
  param_objs w !! p = Some prm ->
  (forall l, config prm = Some l -> is_Some (config_objs w !! l)) ->
  exists cfg, read_config p w = (Returned cfg, w).
Proof.
  intros Hp Hvalid. unfold read_config, bind, read_params. rewrite Hp.
  destruct (config prm) as [l|]; [|eexists; reflexivity].
  destruct (Hvalid l eq_refl) as [c0 Hl]. rewrite Hl. eexists; reflexivity.
Qed.

Lemma connect_target_direct_api (live : Live) (p : loc) (w : World)
    (prm : LiveConnectParameters loc) :
  isVertexAI (apiClient live) = false ->
  param_objs w !! p = Some prm ->
  (forall l, config prm = Some l -> is_Some (config_objs w !! l)) ->
  exists hdrs w1,
    connect_target ext live p w = (Returned (direct_api_url (apiClient live), hdrs), w1).
Proof.
  intros Hv Hp Hvalid.
  destruct (read_config_valid p w prm Hp Hvalid) as [cfg Hcfg].
  unfold connect_target, direct_api_url. unfold bind at 1. rewrite Hcfg, Hv.
  destruct (getApiKey (apiClient live)) as [key|]; [|eexists _, _; reflexivity].
  destruct (truthy_string key); [|eexists _, _; reflexivity].
  destruct (String.prefix "auth_tokens/" key); eexists _, _; reflexivity.
Qed.

Lemma connect_rest_extends (live : Live) (p : loc) (c : nat) (url : string)
    (headers : HeaderMap) (cbs : option LiveCallbacks) :
  preserves extends
    (emit (WsConnect c) ;;; await_open live c url headers cbs ;;; connect_setup ext live p c).
Proof.
  apply preserves_bind; [apply extends_trans | apply extends_emit | intros _].
  apply preserves_bind; [apply extends_trans | apply await_open_extends | intros _].
  apply connect_setup_extends.
Qed.

(** C4.  On the direct-API variant [connect] creates the connection for
    the URL [{wsBase}/ws/google.ai.generativelanguage.{apiVersion}.GenerativeService.{method}?{keyParam}={apiKey}]
    with method [BidiGenerateContentConstrained] and key parameter
    [access_token] when the API key starts with [auth_tokens/], with
    method [BidiGenerateContent] and key parameter [key] for any other
    key, and for the bare websocket base URL when there is no key (the
    client has none, or an empty one). *)
Theorem connect_url_direct_api (live : Live) (p : loc) (w : World)
    (prm : LiveConnectParameters loc) :
  isVertexAI (apiClient live) = false ->
  param_objs w !! p = Some prm ->
  (forall l, config prm = Some l -> is_Some (config_objs w !! l)) ->
  exists url hdrs more,
    trace (snd (connect ext live p w))
      = trace w ++ WsCreate (next_conn w) url hdrs :: more
    /\ (forall key, getApiKey (apiClient live) = Some key -> truthy_string key = true ->
        String.prefix "auth_tokens/" key = true ->
        url = getWebsocketBaseUrl (apiClient live) +:+ "/ws/google.ai.generativelanguage."
              +:+ getApiVersion (apiClient live) +:+ ".GenerativeService."
              +:+ "BidiGenerateContentConstrained" +:+ "?" +:+ "access_token" +:+ "=" +:+ key)
    /\ (forall key, getApiKey (apiClient live) = Some key -> truthy_string key = true ->
        String.prefix "auth_tokens/" key = false ->
        url = getWebsocketBaseUrl (apiClient live) +:+ "/ws/google.ai.generativelanguage."
              +:+ getApiVersion (apiClient live) +:+ ".GenerativeService."
              +:+ "BidiGenerateContent" +:+ "?" +:+ "key" +:+ "=" +:+ key)
    /\ (truthy_ostring (getApiKey (apiClient live)) = false ->
        url = getWebsocketBaseUrl (apiClient live)).
Proof.
  intros Hv Hp Hvalid.
  destruct (connect_target_direct_api live p w prm Hv Hp Hvalid) as (hdrs & w1 & Htarget).
  destruct (connect_target_quiet live p w) as (Hpo1 & _ & Htr1 & Hnc1).
  rewrite Htarget in Hpo1, Htr1, Hnc1. simpl in Hpo1, Htr1, Hnc1.
  unfold connect. unfold bind at 1. rewrite Htarget. simpl.
  unfold bind at 1. unfold read_params. rewrite Hpo1, Hp.
  unfold bind at 1. unfold ws_create.
  match goal with
  | |- context [snd (bind (emit (WsConnect ?c)) ?k ?w2)] =>
      destruct (connect_rest_extends live p c (direct_api_url (apiClient live))
                  (headersToMap ext hdrs) (callbacks prm) w2) as [_ [more Hmore]]
  end.
  exists (direct_api_url (apiClient live)), (headersToMap ext hdrs), more.
  split.
  - rewrite Hmore. simpl. rewrite Hnc1, Htr1, <- app_assoc. reflexivity.
  - unfold direct_api_url, truthy_ostring.
    destruct (getApiKey (apiClient live)) as [key|].
    + repeat split.
      * intros k Hk Ht Hpre. inversion Hk; subst k. rewrite Ht, Hpre. reflexivity.
      * intros k Hk Ht Hpre. inversion Hk; subst k. rewrite Ht, Hpre. reflexivity.
      * intros Ht. rewrite Ht. reflexivity.
    + repeat split; intros; try discriminate; reflexivity.
Qed.

End ConnectProperties.


(** A direct-API [connect] with an ephemeral token as the key. *)
Lemma connect_url_direct_api_witness :
  exists url hdrs more,
    trace (snd (connect sample_externals ephemeral_live 1%positive caller_world))
      = trace caller_world ++ WsCreate (next_conn caller_world) url hdrs :: more
    /\ (forall key, getApiKey (apiClient ephemeral_live) = Some key ->
        truthy_string key = true ->
        String.prefix "auth_tokens/" key = true ->
        url = getWebsocketBaseUrl (apiClient ephemeral_live)
              +:+ "/ws/google.ai.generativelanguage."
              +:+ getApiVersion (apiClient ephemeral_live) +:+ ".GenerativeService."
              +:+ "BidiGenerateContentConstrained" +:+ "?" +:+ "access_token" +:+ "=" +:+ key)
    /\ (forall key, getApiKey (apiClient ephemeral_live) = Some key ->
        truthy_string key = true ->
        String.prefix "auth_tokens/" key = false ->
        url = getWebsocketBaseUrl (apiClient ephemeral_live)
              +:+ "/ws/google.ai.generativelanguage."
              +:+ getApiVersion (apiClient ephemeral_live) +:+ ".GenerativeService."
              +:+ "BidiGenerateContent" +:+ "?" +:+ "key" +:+ "=" +:+ key)
    /\ (truthy_ostring (getApiKey (apiClient ephemeral_live)) = false ->
        url = getWebsocketBaseUrl (apiClient ephemeral_live)).
Proof.
  apply (connect_url_direct_api sample_externals ephemeral_live 1%positive caller_world
           caller_params).
  - reflexivity.
  - reflexivity.
  - intros l Hl. inversion Hl; subst l. exists caller_config. reflexivity.
Defined.

(** The sample transform yields [publishers/google/models/...] for a bare model name. *)
Lemma connect_qualifies_publisher_model_witness :
  exists converted msg before,
    convert_tools (default [] (optional_chain (config_snapshot caller_world caller_params)
                                 tools))
      = Returned converted
    /\ setup_envelope sample_externals (apiClient vertex_live)
         {| model := "projects/" +:+ "p" +:+ "/locations/" +:+ "l" +:+ "/"
                     +:+ "publishers/google/models/gemini-2.0-flash-live-preview-04-09";
            config := resolved_config (apiClient vertex_live)
                        (config_snapshot caller_world caller_params) converted;
            callbacks := callbacks caller_params |} = Returned msg
    /\ trace (snd (connect sample_externals vertex_live 1%positive caller_world))
       = before ++ [WsSend (conn vertex_session) (JSON_stringify (obj_delete "config" msg))].
Proof.
  apply (connect_qualifies_publisher_model sample_externals vertex_live 1%positive
           caller_world (snd (connect sample_externals vertex_live 1%positive caller_world))
           vertex_session caller_params
           "publishers/google/models/gemini-2.0-flash-live-preview-04-09" "p" "l");
    vm_compute; reflexivity.
Defined.

(** The caller's configuration has no [responseModalities]. *)
Lemma connect_default_responseModalities_witness :
  exists tm converted msg before,
    tModel sample_externals (apiClient vertex_live) (model caller_params) = Returned tm
    /\ convert_tools (default [] (optional_chain (config_snapshot caller_world caller_params)
                                    tools))
       = Returned converted
    /\ setup_envelope sample_externals (apiClient vertex_live)
         {| model := qualified_model (apiClient vertex_live) tm;
            config := resolved_config (apiClient vertex_live)
                        (config_snapshot caller_world caller_params) converted;
            callbacks := callbacks caller_params |} = Returned msg
    /\ trace (snd (connect sample_externals vertex_live 1%positive caller_world))
       = before ++ [WsSend (conn vertex_session) (JSON_stringify (obj_delete "config" msg))]
    /\ (isVertexAI (apiClient vertex_live) = true ->
        optional_chain (config_snapshot caller_world caller_params) responseModalities = None ->
        optional_chain (resolved_config (apiClient vertex_live)
                          (config_snapshot caller_world caller_params) converted)
          responseModalities = Some [AUDIO])
    /\ (isVertexAI (apiClient vertex_live) = false ->
        optional_chain (resolved_config (apiClient vertex_live)
                          (config_snapshot caller_world caller_params) converted)
          responseModalities
        = optional_chain (config_snapshot caller_world caller_params) responseModalities).
Proof.
  apply (connect_default_responseModalities sample_externals vertex_live 1%positive
           caller_world (snd (connect sample_externals vertex_live 1%positive caller_world))
           vertex_session caller_params).
  - reflexivity.
  - vm_compute. reflexivity.
Defined.

(** ** Inbound dispatch *)

Lemma messages_dispatched_snoc (t : list Event) (m : JsObject) :
  messages_dispatched (t ++ [UserOnMessage m]) = messages_dispatched t ++ [m].
Proof. unfold messages_dispatched. rewrite omap_app. reflexivity. Qed.

Section InboundProperties.

Context (ext : Externals).

Lemma dispatch_text_registered (client : ApiClient) (f : UserFn) (jsonData : string)
    (w : World) :
  messages_dispatched (trace (dispatch_text ext client (Some f) jsonData w))
    = messages_dispatched (trace w)
      ++ match decode_frame ext client (DataText jsonData) with
         | Some frame => [frame]
         | None => []
         end
  /\ suspended (dispatch_text ext client (Some f) jsonData w) = suspended w.
Proof.
  unfold dispatch_text, decode_frame.
  destruct (JSON_parse ext jsonData) as [data|];
    [|split; [symmetry; apply app_nil_r | reflexivity]].
  destruct (if isVertexAI client
            then liveServerMessageFromVertex ext data
            else liveServerMessageFromMldev ext data) as [resp|msg|]; simpl;
    try (split; [symmetry; apply app_nil_r | reflexivity]).
  split; [apply messages_dispatched_snoc | reflexivity].
Qed.

Lemma deliver_without_blob (client : ApiClient) (cb : LiveCallbacks) (data : MessageData)
    (w : World) :
  is_defined (onmessage cb) = true ->
  is_blob data = false ->
  messages_dispatched (trace (ws_onmessage ext client (Some cb) data w))
    = messages_dispatched (trace w)
      ++ match decode_frame ext client data with
         | Some frame => [frame]
         | None => []
         end
  /\ suspended (ws_onmessage ext client (Some cb) data w) = suspended w.
Proof.
  intros Hcb Hblob. unfold ws_onmessage, handleWebSocketMessage.
  destruct (onmessage cb) as [f|]; [|discriminate].
  destruct data as [s|bytes|bytes]; [| |discriminate].
  - apply dispatch_text_registered.
  - apply (dispatch_text_registered client f (decodeText ext bytes) w).
Qed.

(** C8 (as amended).  With an [onmessage] callback registered, when the
    transport delivers messages whose payloads are texts or
    [ArrayBuffer]s, each delivery calls the callback before it ends: the
    callback receives the decoded frames in the order of delivery (a
    message that does not decode reaches no callback), and no call is
    left suspended. *)
Theorem inbound_order_without_blobs (client : ApiClient) (cb : LiveCallbacks)
    (datas : list MessageData) (w : World) :
  is_defined (onmessage cb) = true ->
  forallb (fun data => negb (is_blob data)) datas = true ->
  messages_dispatched (trace (inbound_run ext client (Some cb) (map Deliver datas) w))
    = messages_dispatched (trace w) ++ omap (decode_frame ext client) datas
  /\ suspended (inbound_run ext client (Some cb) (map Deliver datas) w) = suspended w.
Proof.
  intros Hcb. revert w.
  induction datas as [|data rest IH]; intros w Hall.
  - simpl. split; [symmetry; apply app_nil_r | reflexivity].
  - simpl in Hall. apply andb_true_iff in Hall as [Hdata Hrest].
    apply negb_true_iff in Hdata.
    destruct (deliver_without_blob client cb data w Hcb Hdata) as [Hmsgs Hsus].
    destruct (IH (ws_onmessage ext client (Some cb) data w) Hrest) as [IHmsgs IHsus].
    change (inbound_run ext client (Some cb) (map Deliver (data :: rest)) w)
      with (inbound_run ext client (Some cb) (map Deliver rest)
              (ws_onmessage ext client (Some cb) data w)).
    rewrite IHmsgs, IHsus, Hmsgs, Hsus.
    split; [|reflexivity].
    rewrite <- app_assoc. f_equal. simpl.
    destruct (decode_frame ext client data); reflexivity.
Qed.

End InboundProperties.

(** A text and an [ArrayBuffer], delivered in this order. *)
Lemma inbound_order_without_blobs_witness :
  messages_dispatched
    (trace (inbound_run sample_externals mldev_client (Some sample_callbacks)
              (map Deliver text_then_buffer) empty_world))
    = messages_dispatched (trace empty_world)
      ++ omap (decode_frame sample_externals mldev_client) text_then_buffer
  /\ suspended (inbound_run sample_externals mldev_client (Some sample_callbacks)
                 (map Deliver text_then_buffer) empty_world)
     = suspended empty_world.
Proof.
  apply (inbound_order_without_blobs sample_externals mldev_client sample_callbacks
           text_then_buffer empty_world); reflexivity.
Defined.

(** C8 as stated fails: a message delivered as a [Blob] and then a
    message delivered as a text, both decoded and both dispatched once
    the text of the [Blob] is there, reach the callback in the opposite
    order. *)
Lemma inbound_order_counterexample :
  omap (decode_frame sample_externals mldev_client) (delivered blob_then_text)
    = [frame_setupComplete; frame_serverContent]
  /\ messages_dispatched
       (trace (inbound_run sample_externals mldev_client (Some sample_callbacks)
                 blob_then_text empty_world))
     = [frame_serverContent; frame_setupComplete]
  /\ suspended (inbound_run sample_externals mldev_client (Some sample_callbacks)
                 blob_then_text empty_world) = []
  /\ [frame_serverContent; frame_setupComplete] <> [frame_setupComplete; frame_serverContent].
Proof. repeat split; try (vm_compute; reflexivity). discriminate. Qed.

(** ** The Node client *)

(** C9.  When the options carry an API key and a project or a location
    (each a non-empty string, which is what the constructor tests), the
    constructor throws the mutually-exclusive error at once: nothing
    was read or written before, and no client is returned. *)
Theorem GoogleGenAI_new_mutually_exclusive (env : string -> option string)
    (getBaseUrl : GoogleGenAIOptions -> option string -> option string -> option string)
    (options : GoogleGenAIOptions) (w : World) :
  truthy_ostring (opt_apiKey options) = true ->
  truthy_ostring (opt_project options) = true \/ truthy_ostring (opt_location options) = true ->
  GoogleGenAI_new env getBaseUrl options w = (Threw MUTUALLY_EXCLUSIVE, w).
Proof.
  intros Hkey Hpl. unfold GoogleGenAI_new, or_string. rewrite Hkey.
  destruct (truthy_ostring (opt_project options)) eqn:Hproj.
  - rewrite Hproj. reflexivity.
  - destruct Hpl as [Hp|Hl]; [discriminate|]. rewrite Hl. reflexivity.
Qed.

(** An API key together with a project. *)
Lemma GoogleGenAI_new_mutually_exclusive_witness :
  GoogleGenAI_new (fun _ => None) (fun _ _ _ => None) key_and_project empty_world
    = (Threw MUTUALLY_EXCLUSIVE, empty_world).
Proof.
  apply (GoogleGenAI_new_mutually_exclusive (fun _ => None) (fun _ _ _ => None)
           key_and_project empty_world).
  - reflexivity.
  - left. reflexivity.
Defined.

(** ** Runs of the model on concrete inputs *)

(** JSON.stringify leaves out a member that is [undefined], writes an
    [undefined] array element as [null], and escapes quotes and control
    characters. *)
Example JSON_stringify_sample :
  JSON_stringify
    [("a", JUndefined); ("b", JArr [JUndefined; JNum (-12)]);
     ("c", JStr (String dquote (String (ascii_of_N 10) "x")))]
  = "{" +:+ String dquote ("b" +:+ String dquote (":[null,-12],"
        +:+ String dquote ("c" +:+ String dquote (":"
        +:+ String dquote (String backslash (String dquote (String backslash ("nx"
        +:+ String dquote "}")))))))).
Proof. vm_compute. reflexivity. Qed.

(** A single response that is not wrapped in an array is sent as an
    array of one element. *)
Example sendToolResponse_single_object :
  trace (snd (sendToolResponse vertex_session {| functionResponses := response_without_id |}
                empty_world))
  = [WsSend 0%nat
       (JSON_stringify
          [("toolResponse", JObj [("functionResponses", JArr [response_without_id])])])].
Proof. reflexivity. Qed.

(** On the managed-cloud variant a caller without configuration finds a
    new configuration object in its params after [connect]. *)
Example connect_creates_config :
  fst (connect sample_externals vertex_live 1%positive bare_world) = Returned vertex_session
  /\ param_objs (snd (connect sample_externals vertex_live 1%positive bare_world)) !! 1%positive
     = Some {| model := model bare_params; config := Some 1%positive;
               callbacks := callbacks bare_params |}
  /\ config_objs (snd (connect sample_externals vertex_live 1%positive bare_world)) !! 1%positive
     = Some audio_only.
Proof. repeat split; vm_compute; reflexivity. Qed.

(** On the direct-API variant the same caller finds its params as they
    were, and the key of the client is in the URL. *)
Example connect_direct_api_leaves_params :
  param_objs (snd (connect sample_externals mldev_live 1%positive bare_world)) !! 1%positive
    = Some bare_params
  /\ config_objs (snd (connect sample_externals mldev_live 1%positive bare_world)) = ∅
  /\ head (trace (snd (connect sample_externals mldev_live 1%positive bare_world)))
     = Some (WsCreate 0%nat
               "wss://generativelanguage.googleapis.com/ws/google.ai.generativelanguage.v1beta.GenerativeService.BidiGenerateContent?key=secret"
               {[ "user-agent" := "google-genai-sdk" ]}).
Proof. repeat split; vm_compute; reflexivity. Qed.

(** A transport that never signals open leaves [connect] pending, with
    nothing sent. *)
Example connect_pending_without_open :
  fst (connect sample_externals
         {| apiClient := mldev_client; auth := sample_auth;
            webSocketFactory := {| signalsOpen := fun _ _ => false |} |}
         1%positive bare_world) = Pending
  /\ frames_sent 0%nat
       (trace (snd (connect sample_externals
                      {| apiClient := mldev_client; auth := sample_auth;
                         webSocketFactory := {| signalsOpen := fun _ _ => false |} |}
                      1%positive bare_world))) = [].
Proof. split; vm_compute; reflexivity. Qed.

(** A callable tool that fails makes [connect] fail after the default
    modality was written and before any frame is sent. *)
Example connect_tool_failure :
  fst (connect sample_externals vertex_live 1%positive
         (with_config_objs
            (fun h => <[1%positive :=
                          set_tools [CallableTool (Threw "tool unavailable")] caller_config]> h)
            caller_world)) = Threw "tool unavailable".
Proof. vm_compute. reflexivity. Qed.

(** The constructor tests its options for truthiness: an empty project
    beside an API key is not refused. *)
Example GoogleGenAI_new_empty_project :
  fst (GoogleGenAI_new (fun _ => None) (fun _ _ _ => None)
         {| opt_vertexai := None; opt_project := Some EmptyString; opt_location := None;
            opt_apiKey := Some "secret"; opt_apiVersion := None; opt_apiUrl := None;
            opt_googleAuthOptions := None; opt_httpOptions := None |}
         empty_world)
  = Returned {| vertexai := false; apiUrl := None; apiKey := Some "secret";
                project := Some EmptyString; location := None; apiVersion := None;
                httpOptions := None |}.
Proof. vm_compute. reflexivity. Qed.

(** The variables of the environment are trimmed, and an explicit
    project wins over the API key of the environment in express mode. *)
Example GoogleGenAI_new_environment :
  GoogleGenAI_new
    (fun name => if String.eqb name "GOOGLE_API_KEY" then Some " from-env " else None)
    (fun _ _ _ => None)
    {| opt_vertexai := Some true; opt_project := Some "my-project";
       opt_location := Some "us-central1"; opt_apiKey := None; opt_apiVersion := None;
       opt_apiUrl := None; opt_googleAuthOptions := None; opt_httpOptions := None |}
    empty_world
  = (Returned {| vertexai := true; apiUrl := None; apiKey := None;
                 project := Some "my-project"; location := Some "us-central1";
                 apiVersion := None; httpOptions := None |},
     with_console
       (fun _ => ["The user provided project/location will take precedence over the API key from the environment variables."])
       empty_world).
Proof. vm_compute. reflexivity. Qed.

(** * Further properties *)

(** ** Session: what a send operation does to the world *)

Lemma lift_then_send {A} (o : Outcome A) (c : nat) (frame : A -> string) (w : World) :
  one_frame_or_nothing c w (bind (lift o) (fun a => conn_send c (frame a)) w).
Proof.
  unfold one_frame_or_nothing, bind, lift, conn_send, emit.
  destruct o as [a|msg|]; simpl.
  - left. exists (frame a). reflexivity.
  - right. split; [discriminate | reflexivity].
  - right. split; [discriminate | reflexivity].
Qed.

(** X1.  Each of [sendClientContent], [sendRealtimeInput] and
    [sendToolResponse] either hands exactly one frame to the session's
    own connection and changes nothing else, or fails and leaves the
    world as it was. *)
Theorem session_sends_one_frame_or_nothing (ext : Externals) (s : Session) (w : World) :
  (forall params, one_frame_or_nothing (conn s) w (sendClientContent ext s params w))
  /\ (forall params, one_frame_or_nothing (conn s) w (sendRealtimeInput ext s params w))
  /\ (forall params, one_frame_or_nothing (conn s) w (sendToolResponse s params w)).
Proof.
  repeat split; intros params.
  - unfold sendClientContent. apply lift_then_send.
  - unfold sendRealtimeInput.
    apply (lift_then_send _ (conn s) (fun r => JSON_stringify [("realtimeInput", r)])).
  - unfold sendToolResponse.
    destruct (js_nullish (functionResponses params)).
    + right. split; [discriminate | reflexivity].
    + apply lift_then_send.
Qed.

(** ** Session: which tool responses are accepted *)

Lemma check_function_responses_accepts (vertex : bool) (frs : list JsValue) :
  check_function_responses vertex frs = Returned tt
  <-> forallb (acceptable_response vertex) frs = true.
Proof.
  induction frs as [|fr rest IH]; simpl; [tauto|].
  unfold acceptable_response at 1, carries_name_and_response.
  destruct (String.eqb (js_typeof fr) "object"); simpl; [|split; discriminate].
  destruct (match fr with JNull => true | _ => false end); simpl; [split; discriminate|].
  destruct (js_in "name" fr); simpl; [|split; discriminate].
  destruct (js_in "response" fr); simpl; [|split; discriminate].
  destruct vertex; simpl; [exact IH|].
  destruct (js_in "id" fr); simpl; [exact IH | split; discriminate].
Qed.

Lemma check_function_responses_first_offender (vertex : bool)
    (good : list JsValue) (bad : JsValue) (rest : list JsValue) :
  forallb (acceptable_response vertex) good = true ->
  acceptable_response vertex bad = false ->
  check_function_responses vertex (good ++ bad :: rest)
  = Threw (if carries_name_and_response bad
           then FUNCTION_RESPONSE_REQUIRES_ID else could_not_parse bad).
Proof.
  intros Hgood Hbad.
  induction good as [|fr good IH]; simpl in *.
  - unfold acceptable_response in Hbad. unfold carries_name_and_response in *.
    unfold could_not_parse.
    destruct (String.eqb (js_typeof bad) "object"); simpl in *; [|reflexivity].
    destruct (match bad with JNull => true | _ => false end); simpl in *; [reflexivity|].
    destruct (js_in "name" bad); simpl in *; [|reflexivity].
    destruct (js_in "response" bad); simpl in *; [|reflexivity].
    destruct vertex; simpl in *; [discriminate|].
    destruct (js_in "id" bad); simpl in *; [discriminate | reflexivity].
  - apply andb_true_iff in Hgood as [Hfr Hgood].
    unfold acceptable_response in Hfr. unfold carries_name_and_response in Hfr.
    destruct (String.eqb (js_typeof fr) "object"); simpl in *; [|discriminate].
    destruct (match fr with JNull => true | _ => false end); simpl in *; [discriminate|].
    destruct (js_in "name" fr); simpl in *; [|discriminate].
    destruct (js_in "response" fr); simpl in *; [|discriminate].
    destruct vertex; simpl in *; [apply IH; exact Hgood|].
    destruct (js_in "id" fr); simpl in *; [apply IH; exact Hgood | discriminate].
Qed.

(** X2.  [sendToolResponse] returns exactly when [functionResponses] is
    there, is not empty, and every response is acceptable on the
    variant: an object with [name] and [response], and on the direct API
    with [id]. *)
Theorem sendToolResponse_returns_iff (s : Session) (v : JsValue) (w : World) :
  fst (sendToolResponse s {| functionResponses := v |} w) = Returned tt
  <-> js_nullish v = false
      /\ as_sequence v <> []
      /\ forallb (acceptable_response (isVertexAI (session_apiClient s))) (as_sequence v)
         = true.
Proof.
  unfold sendToolResponse, tLiveClienttToolResponse, bind, lift. simpl.
  destruct (js_nullish v); simpl.
  - split; [discriminate | intros [H _]; discriminate].
  - destruct (as_sequence v) as [|fr rest] eqn:Hseq.
    + simpl. split; [discriminate | intros (_ & H & _); congruence].
    + cbn [length Nat.eqb].
      rewrite <- (check_function_responses_accepts _ (fr :: rest)).
      destruct (check_function_responses (isVertexAI (session_apiClient s)) (fr :: rest))
        as [[]|msg|]; simpl.
      * split; [intros _; repeat split; congruence | reflexivity].
      * split; [discriminate | intros (_ & _ & H); discriminate].
      * split; [discriminate | intros (_ & _ & H); discriminate].
Qed.

(** X3.  The responses are checked in order and the first one that is
    not acceptable decides the error: the could-not-parse message with
    its [typeof] when it is not an object with [name] and [response],
    the id-required message otherwise.  The responses after it are not
    looked at, and nothing is sent. *)
Theorem sendToolResponse_first_offender (s : Session) (good : list JsValue)
    (bad : JsValue) (rest : list JsValue) (w : World) :
  forallb (acceptable_response (isVertexAI (session_apiClient s))) good = true ->
  acceptable_response (isVertexAI (session_apiClient s)) bad = false ->
  sendToolResponse s {| functionResponses := JArr (good ++ bad :: rest) |} w
  = (Threw (if carries_name_and_response bad
            then FUNCTION_RESPONSE_REQUIRES_ID else could_not_parse bad), w).
Proof.
  intros Hgood Hbad.
  unfold sendToolResponse, tLiveClienttToolResponse, bind, lift. simpl.
  rewrite (check_function_responses_first_offender _ good bad rest Hgood Hbad).
  destruct (good ++ bad :: rest) eqn:Heq; [destruct good; discriminate|].
  reflexivity.
Qed.

(** An acceptable response, then one without [id], then one that is not
    an object: on the direct API the second decides. *)
Lemma sendToolResponse_first_offender_witness :
  sendToolResponse mldev_session
    {| functionResponses := JArr ([response_with_id] ++ response_without_id :: [JNum 3]) |}
    empty_world
  = (Threw (if carries_name_and_response response_without_id
            then FUNCTION_RESPONSE_REQUIRES_ID else could_not_parse response_without_id),
     empty_world).
Proof.
  apply (sendToolResponse_first_offender mldev_session [response_with_id]
           response_without_id [JNum 3] empty_world); reflexivity.
Defined.

(** ** Session: client content with and without turns *)

Lemma obj_get_absent (k : string) (o : JsObject) :
  obj_has k o = false -> obj_get k o = JUndefined.
Proof.
  induction o as [|[k' v] rest IH]; simpl; [reflexivity|].
  destruct (String.eqb k k'); simpl; [discriminate | exact IH].
Qed.

Lemma obj_get_set (k k' : string) (v : JsValue) (o : JsObject) :
  obj_get k (obj_set k' v o) = if String.eqb k k' then v else obj_get k o.
Proof.
  induction o as [|[k0 v0] rest IH]; simpl; [reflexivity|].
  destruct (String.eqb_spec k' k0) as [->|Hne]; simpl.
  - destruct (String.eqb k k0); reflexivity.
  - rewrite IH.
    destruct (String.eqb_spec k k0) as [->|Hne0]; [|reflexivity].
    destruct (String.eqb_spec k0 k') as [->|_]; [congruence | reflexivity].
Qed.

Lemma obj_get_spread (k : string) (a b : JsObject) :
  unique_keys b = true ->
  obj_get k (obj_spread a b) = if obj_has k b then obj_get k b else obj_get k a.
Proof.
  unfold obj_spread. revert a.
  induction b as [|[k' v] rest IH]; intros a Hu; simpl in *; [reflexivity|].
  apply andb_true_iff in Hu as [Hfresh Hu]. apply negb_true_iff in Hfresh.
  rewrite (IH _ Hu), obj_get_set.
  destruct (String.eqb_spec k k') as [->|Hne]; simpl; [|reflexivity].
  rewrite Hfresh. reflexivity.
Qed.

Lemma spread_turns (params : JsObject) :
  unique_keys params = true ->
  obj_get "turns" (obj_spread defaultLiveSendClientContentParamerters params)
  = obj_get "turns" params.
Proof.
  intros Hu. rewrite (obj_get_spread _ _ _ Hu).
  destruct (obj_has "turns" params) eqn:Hhas; [reflexivity|].
  rewrite (obj_get_absent _ _ Hhas). reflexivity.
Qed.

Lemma spread_turnComplete (params : JsObject) :
  unique_keys params = true ->
  obj_get "turnComplete" (obj_spread defaultLiveSendClientContentParamerters params)
  = effective_turnComplete params.
Proof. intros Hu. rewrite (obj_get_spread _ _ _ Hu). reflexivity. Qed.

(** X4.  With [turns] present (neither null nor undefined) and
    convertible, [sendClientContent] sends the envelope
    [{clientContent: {turns, turnComplete}}] with the converted turns
    and the caller's [turnComplete], [true] when the caller gave none;
    the other keys of the params are not sent. *)
Theorem sendClientContent_with_turns (ext : Externals) (s : Session) (params : JsObject)
    (contents : list JsValue) (w : World) :
  unique_keys params = true ->
  js_nullish (obj_get "turns" params) = false ->
  convert_turns ext (session_apiClient s) (obj_get "turns" params) = Returned contents ->
  sendClientContent ext s (Some params) w
  = (Returned tt,
     with_trace
       (fun t => t ++ [WsSend (conn s)
                         (JSON_stringify
                            [("clientContent",
                              JObj [("turns", JArr contents);
                                    ("turnComplete", effective_turnComplete params)])])])
       w).
Proof.
  intros Hu Hturns Hconv.
  unfold sendClientContent, tLiveClientContent, bind, lift. simpl default.
  rewrite (spread_turns _ Hu), (spread_turnComplete _ Hu), Hturns. simpl negb. cbv iota.
  unfold convert_turns in Hconv. rewrite Hconv. reflexivity.
Qed.

(** A text as the turns, an explicit [turnComplete] and an unknown key. *)
Lemma sendClientContent_with_turns_witness :
  sendClientContent sample_externals mldev_session (Some turns_params) empty_world
  = (Returned tt,
     with_trace
       (fun t => t ++ [WsSend (conn mldev_session)
                         (JSON_stringify
                            [("clientContent",
                              JObj [("turns",
                                     JArr [JObj [("role", JStr "user");
                                                 ("parts", JArr [JObj [("text", JStr "Hello?")]])]]);
                                    ("turnComplete", effective_turnComplete turns_params)])])])
       empty_world).
Proof.
  apply (sendClientContent_with_turns sample_externals mldev_session turns_params
           [JObj [("role", JStr "user"); ("parts", JArr [JObj [("text", JStr "Hello?")]])]]
           empty_world); reflexivity.
Defined.

(** X5.  When the conversion of [turns] throws, in the content
    transform or in the variant's encoder, [sendClientContent] throws
    its own message, which names the [typeof] of the turns and not the
    cause, and sends nothing. *)
Theorem sendClientContent_turns_rejected (ext : Externals) (s : Session) (params : JsObject)
    (cause : string) (w : World) :
  unique_keys params = true ->
  js_nullish (obj_get "turns" params) = false ->
  convert_turns ext (session_apiClient s) (obj_get "turns" params) = Threw cause ->
  sendClientContent ext s (Some params) w
  = (Threw (failed_to_parse_turns (obj_get "turns" params)), w).
Proof.
  intros Hu Hturns Hconv.
  unfold sendClientContent, tLiveClientContent, bind, lift. simpl default.
  rewrite (spread_turns _ Hu), Hturns. simpl negb. cbv iota.
  unfold convert_turns in Hconv. rewrite Hconv. reflexivity.
Qed.

(** The content transform refuses the text. *)
Lemma sendClientContent_turns_rejected_witness :
  sendClientContent refusing_externals mldev_session (Some turns_params) empty_world
  = (Threw (failed_to_parse_turns (obj_get "turns" turns_params)), empty_world).
Proof.
  apply (sendClientContent_turns_rejected refusing_externals mldev_session turns_params
           "Unsupported content type" empty_world); reflexivity.
Defined.

(** X6.  With [turns] absent, undefined or null, [sendClientContent]
    calls no transform and sends [{clientContent: {turnComplete}}] with
    the caller's [turnComplete], [true] when the params have no such
    key.  A key that is there with the value undefined wins over the
    default, and the frame then has no [turnComplete]. *)
Theorem sendClientContent_without_turns (ext : Externals) (s : Session) (params : JsObject)
    (w : World) :
  unique_keys params = true ->
  js_nullish (obj_get "turns" params) = true ->
  sendClientContent ext s (Some params) w
  = (Returned tt,
     with_trace
       (fun t => t ++ [WsSend (conn s)
                         (JSON_stringify
                            [("clientContent",
                              JObj [("turnComplete", effective_turnComplete params)])])])
       w).
Proof.
  intros Hu Hturns.
  unfold sendClientContent, tLiveClientContent, bind, lift. simpl default.
  rewrite (spread_turns _ Hu), (spread_turnComplete _ Hu), Hturns. reflexivity.
Qed.

(** [turns] null and [turnComplete] undefined: the frame is
    [{"clientContent":{}}]. *)
Lemma sendClientContent_without_turns_witness :
  sendClientContent sample_externals mldev_session
    (Some [("turns", JNull); ("turnComplete", JUndefined)]) empty_world
  = (Returned tt,
     with_trace
       (fun t => t ++ [WsSend (conn mldev_session)
                         (JSON_stringify
                            [("clientContent",
                              JObj [("turnComplete",
                                     effective_turnComplete
                                       [("turns", JNull); ("turnComplete", JUndefined)])])])])
       empty_world).
Proof.
  apply (sendClientContent_without_turns sample_externals mldev_session
           [("turns", JNull); ("turnComplete", JUndefined)] empty_world); reflexivity.
Defined.

(** ** Live.connect: the target and its failures *)

Lemma sends_app (t1 t2 : list Event) : sends (t1 ++ t2) = sends t1 ++ sends t2.
Proof. unfold sends. apply omap_app. Qed.

Lemma closes_app (t1 t2 : list Event) : closes (t1 ++ t2) = closes t1 ++ closes t2.
Proof. unfold closes. apply omap_app. Qed.

Lemma calm_refl (w : World) : calm w w.
Proof. exists []. rewrite app_nil_r. auto. Qed.

Lemma calm_trans (w1 w2 w3 : World) : calm w1 w2 -> calm w2 w3 -> calm w1 w3.
Proof.
  intros (m1 & H1 & S1 & C1) (m2 & H2 & S2 & C2). exists (m1 ++ m2).
  rewrite H2, H1, <- app_assoc, sends_app, closes_app, S1, S2, C1, C2. auto.
Qed.

Lemma same_stores_refl (w : World) : same_stores w w.
Proof. split; reflexivity. Qed.

Lemma same_stores_trans (w1 w2 w3 : World) :
  same_stores w1 w2 -> same_stores w2 w3 -> same_stores w1 w3.
Proof. intros [A1 B1] [A2 B2]. split; congruence. Qed.

Lemma calm_emit (e : Event) :
  sends [e] = [] -> closes [e] = [] -> preserves calm (emit e).
Proof. intros Hs Hc w. exists [e]. auto. Qed.

Lemma calm_of_same_trace {A} (m : M A) :
  (forall w, trace (snd (m w)) = trace w) -> preserves calm m.
Proof. intros H w. exists []. rewrite H, app_nil_r. auto. Qed.

Lemma calm_console_log (line : string) : preserves calm (console_log line).
Proof. apply calm_of_same_trace. reflexivity. Qed.

Lemma calm_write_config (l : loc) (cfg : LiveConnectConfig) :
  preserves calm (write_config l cfg).
Proof. apply calm_of_same_trace. reflexivity. Qed.

Lemma calm_assign_new_config (p : loc) (cfg : LiveConnectConfig) :
  preserves calm (assign_new_config p cfg).
Proof.
  apply calm_of_same_trace. intros w. unfold assign_new_config, bind, read_params.
  destruct (param_objs w !! p); reflexivity.
Qed.

Lemma calm_ws_create (url : string) (headers : HeaderMap) : preserves calm (ws_create url headers).
Proof. intros w. exists [WsCreate (next_conn w) url headers]. auto. Qed.

Lemma same_stores_emit (e : Event) : preserves same_stores (emit e).
Proof. intros w. split; reflexivity. Qed.

Lemma same_stores_console_log (line : string) : preserves same_stores (console_log line).
Proof. intros w. split; reflexivity. Qed.

Lemma same_stores_ws_create (url : string) (headers : HeaderMap) :
  preserves same_stores (ws_create url headers).
Proof. intros w. split; reflexivity. Qed.

Create HintDb calm_db.
#[local] Hint Resolve calm_refl calm_trans same_stores_refl same_stores_trans : calm_db.
#[local] Hint Resolve preserves_ret preserves_throw preserves_hang preserves_lift
  preserves_read_params preserves_read_config calm_console_log calm_write_config
  calm_assign_new_config calm_ws_create same_stores_emit same_stores_console_log
  same_stores_ws_create : calm_db.
#[local] Hint Extern 1 (preserves calm (emit _)) =>
  apply calm_emit; reflexivity : calm_db.

Ltac keep_calm :=
  repeat first
    [ solve [eauto 3 with calm_db]
    | apply preserves_bind
    | match goal with
      | |- forall _, _ => intro
      | |- preserves _ (if ?b then _ else _) => destruct b
      | |- preserves _ (match ?x with _ => _ end) => destruct x
      end ].

Lemma never_returns_hang {A} : never_returns (@hang A).
Proof. intros w a. discriminate. Qed.

Lemma never_returns_bind_l {A B} (m : M A) (k : A -> M B) :
  never_returns m -> never_returns (bind m k).
Proof.
  intros Hm w b. unfold bind. specialize (Hm w).
  destruct (m w) as [[a|msg|] w1]; simpl in *; try discriminate.
  exfalso. apply (Hm a). reflexivity.
Qed.

Lemma never_returns_bind_r {A B} (m : M A) (k : A -> M B) :
  (forall a, never_returns (k a)) -> never_returns (bind m k).
Proof.
  intros Hk w b. unfold bind.
  destruct (m w) as [[a|msg|] w1]; simpl; try discriminate. apply Hk.
Qed.

Lemma preserves_bind_blocked (R : World -> World -> Prop) {A B} (m : M A) (k : A -> M B) :
  never_returns m -> preserves R m -> preserves R (bind m k).
Proof.
  intros Hn Hm w. specialize (Hm w). specialize (Hn w). unfold bind.
  destruct (m w) as [[a|msg|] w1]; simpl in *; auto.
  exfalso. apply (Hn a). reflexivity.
Qed.

Section ConnectFailures.

Context (ext : Externals).

Lemma connect_target_calm (live : Live) (p : loc) : preserves calm (connect_target ext live p).
Proof. unfold connect_target. keep_calm. Qed.

Lemma connect_target_same_stores (live : Live) (p : loc) :
  preserves same_stores (connect_target ext live p).
Proof. unfold connect_target. keep_calm. Qed.

Lemma await_open_calm (live : Live) (c : nat) (url : string) (headers : HeaderMap)
    (cbs : option LiveCallbacks) :
  preserves calm (await_open live c url headers cbs).
Proof. unfold await_open. keep_calm. Qed.

Lemma await_open_same_stores (live : Live) (c : nat) (url : string) (headers : HeaderMap)
    (cbs : option LiveCallbacks) :
  preserves same_stores (await_open live c url headers cbs).
Proof. unfold await_open. keep_calm. Qed.

Lemma connect_target_vertex (live : Live) (p : loc) (w : World)
    (prm : LiveConnectParameters loc) :
  isVertexAI (apiClient live) = true ->
  param_objs w !! p = Some prm ->
  (forall l, config prm = Some l -> is_Some (config_objs w !! l)) ->
  connect_target ext live p w
  = (outcome_bind
       (addAuthHeaders (auth live)
          (request_headers ext (apiClient live) (config_snapshot w prm)))
       (fun headers =>
          Returned (getWebsocketBaseUrl (apiClient live) +:+ "/ws/google.cloud.aiplatform."
                    +:+ getApiVersion (apiClient live)
                    +:+ ".LlmBidiService/BidiGenerateContent", headers)),
     w).
Proof.
  intros Hv Hp Hvalid.
  destruct (read_config_valid p w prm Hp Hvalid) as [cfg Hcfg].
  pose proof (read_config_returned _ _ _ _ Hcfg) as (_ & prm0 & Hp0 & _ & Hsnd).
  rewrite Hp in Hp0. inversion Hp0; subst prm0; clear Hp0.
  unfold connect_target. unfold bind at 1. rewrite Hcfg, Hv.
  unfold request_headers. rewrite <- Hsnd.
  unfold bind, lift, ret.
  destruct cfg as [[l c0]|]; simpl;
    match goal with
    | |- context [addAuthHeaders (auth live) ?h] =>
        destruct (addAuthHeaders (auth live) h); reflexivity
    end.
Qed.

End ConnectFailures.

Lemma headerMap_lookup (visited : list (string * string)) (headerMap : HeaderMap)
    (name : string) :
  fold_left (fun m kv => <[fst kv := snd kv]> m) visited headerMap !! name
  = match last_value name visited with
    | Some value => Some value
    | None => headerMap !! name
    end.
Proof.
  revert headerMap. induction visited as [|[key value] rest IH]; intros headerMap; simpl;
    [reflexivity|].
  rewrite IH. destruct (last_value name rest) as [later|]; [reflexivity|].
  destruct (String.eqb_spec name key) as [->|Hne].
  - apply lookup_insert_eq.
  - apply lookup_insert_ne. congruence.
Qed.

Section ConnectFurther.

Context (ext : Externals).

(** X7.  On the managed-cloud variant [connect] creates the connection
    for the URL [{wsBase}/ws/google.cloud.aiplatform.{apiVersion}.LlmBidiService/BidiGenerateContent],
    whatever the API key of the client.  The [Headers] object the auth
    provider gets is a new one to which the default headers of the
    client (with the MCP usage header when the configured tools use
    MCP) were appended in order; and the header map given to [create]
    has, for every name, the value of the last pair that [forEach] of
    the object visits under that name, once the auth provider has added
    its headers, and has no other names. *)
Theorem connect_url_vertex (live : Live) (p : loc) (w : World)
    (prm : LiveConnectParameters loc) (hdrs : Headers) :
  isVertexAI (apiClient live) = true ->
  param_objs w !! p = Some prm ->
  (forall l, config prm = Some l -> is_Some (config_objs w !! l)) ->
  addAuthHeaders (auth live)
    (fold_left (fun headers kv => Headers_append ext headers (fst kv) (snd kv))
       (default_headers ext (apiClient live) (config_snapshot w prm)) [])
    = Returned hdrs ->
  exists headerMap more,
    trace (snd (connect ext live p w))
    = trace w
      ++ WsCreate (next_conn w)
           (getWebsocketBaseUrl (apiClient live) +:+ "/ws/google.cloud.aiplatform."
            +:+ getApiVersion (apiClient live) +:+ ".LlmBidiService/BidiGenerateContent")
           headerMap
      :: more
    /\ forall name, headerMap !! name = last_value name (Headers_forEach ext hdrs).
Proof.
  intros Hv Hp Hvalid Hauth.
  change (fold_left _ (default_headers ext (apiClient live) (config_snapshot w prm)) [])
    with (request_headers ext (apiClient live) (config_snapshot w prm)) in Hauth.
  unfold connect. unfold bind at 1.
  rewrite (connect_target_vertex ext live p w prm Hv Hp Hvalid), Hauth. simpl.
  unfold bind at 1. unfold read_params. rewrite Hp.
  unfold bind at 1. unfold ws_create.
  match goal with
  | |- context [snd (bind (emit (WsConnect ?c)) ?k ?w2)] =>
      destruct (connect_rest_extends ext live p c
                  (getWebsocketBaseUrl (apiClient live) +:+ "/ws/google.cloud.aiplatform."
                   +:+ getApiVersion (apiClient live)
                   +:+ ".LlmBidiService/BidiGenerateContent")
                  (headersToMap ext hdrs) (callbacks prm) w2) as [_ [more Hmore]]
  end.
  exists (headersToMap ext hdrs), more. split.
  - rewrite Hmore. simpl. rewrite <- app_assoc. reflexivity.
  - intros name. unfold headersToMap. rewrite headerMap_lookup.
    destruct (last_value name (Headers_forEach ext hdrs)); [reflexivity | apply lookup_empty].
Qed.

(** X8.  On the managed-cloud variant, when the auth provider fails,
    [connect] fails with the provider's message before it creates a
    connection: the world is as it was. *)
Theorem connect_auth_failure (live : Live) (p : loc) (w : World)
    (prm : LiveConnectParameters loc) (msg : string) :
  isVertexAI (apiClient live) = true ->
  param_objs w !! p = Some prm ->
  (forall l, config prm = Some l -> is_Some (config_objs w !! l)) ->
  addAuthHeaders (auth live) (request_headers ext (apiClient live) (config_snapshot w prm))
    = Threw msg ->
  connect ext live p w = (Threw msg, w).
Proof.
  intros Hv Hp Hvalid Hauth.
  unfold connect. unfold bind at 1.
  rewrite (connect_target_vertex ext live p w prm Hv Hp Hvalid), Hauth. reflexivity.
Qed.

Lemma bind_unfold {A B} (m : M A) (k : A -> M B) (w : World) :
  bind m k w
  = match m w with
    | (Returned a, w1) => k a w1
    | (Threw msg, w1) => (Threw msg, w1)
    | (Pending, w1) => (Pending, w1)
    end.
Proof. reflexivity. Qed.

Lemma connect_blocked (live : Live) (p : loc) (w : World) :
  (forall prm c url hdrs, param_objs w !! p = Some prm ->
     never_returns (await_open live c url hdrs (callbacks prm))) ->
  (forall s, fst (connect ext live p w) <> Returned s)
  /\ same_stores w (snd (connect ext live p w))
  /\ calm w (snd (connect ext live p w)).
Proof.
  intros Hblocked. unfold connect. rewrite bind_unfold.
  pose proof (connect_target_calm ext live p w) as Hcalm1.
  pose proof (connect_target_same_stores ext live p w) as Hst1.
  destruct (connect_target ext live p w) as [[[url hdrs]|msg|] w1]; simpl in *;
    try (split; [discriminate | split; assumption]).
  rewrite bind_unfold. unfold read_params.
  destruct Hst1 as [Hpo1 Hco1]. rewrite Hpo1.
  destruct (param_objs w !! p) as [prm|] eqn:Hp;
    [|split; [discriminate | split; [split|]; assumption]].
  set (rest := bind (ws_create url (headersToMap ext hdrs))
                 (fun c => bind (emit (WsConnect c))
                   (fun _ => bind (await_open live c url (headersToMap ext hdrs) (callbacks prm))
                     (fun _ => connect_setup ext live p c)))).
  assert (Hnever : never_returns rest).
  { apply never_returns_bind_r. intros c. apply never_returns_bind_r. intros _.
    apply never_returns_bind_l. apply (Hblocked prm). reflexivity. }
  assert (Hcalm : preserves calm rest).
  { apply preserves_bind; [apply calm_trans | apply calm_ws_create | intros c].
    apply preserves_bind; [apply calm_trans | apply calm_emit; reflexivity | intros _].
    apply preserves_bind_blocked; [apply (Hblocked prm); reflexivity | apply await_open_calm]. }
  assert (Hstores : preserves same_stores rest).
  { apply preserves_bind; [apply same_stores_trans | apply same_stores_ws_create | intros c].
    apply preserves_bind; [apply same_stores_trans | apply same_stores_emit | intros _].
    apply preserves_bind_blocked;
      [apply (Hblocked prm); reflexivity | apply await_open_same_stores]. }
  change (bind (ws_create url (headersToMap ext hdrs)) _ w1) with (rest w1).
  split; [intros s; apply Hnever|].
  split.
  - eapply same_stores_trans; [split; eassumption | apply Hstores].
  - eapply calm_trans; [exact Hcalm1 | apply Hcalm].
Qed.

(** X9.  On a transport that does not signal open, [connect] never
    returns a session; it has sent nothing, closed nothing, and the
    objects of the caller are as they were: everything [connect] writes
    to them, it writes after the open signal. *)
Theorem connect_waits_for_open (live : Live) (p : loc) (w : World) :
  (forall url hdrs, signalsOpen (webSocketFactory live) url hdrs = false) ->
  (forall s, fst (connect ext live p w) <> Returned s)
  /\ param_objs (snd (connect ext live p w)) = param_objs w
  /\ config_objs (snd (connect ext live p w)) = config_objs w
  /\ exists more,
       trace (snd (connect ext live p w)) = trace w ++ more
       /\ sends more = [] /\ closes more = [].
Proof.
  intros Hclosed.
  destruct (connect_blocked live p w) as (Hnever & [Hpo Hco] & Hcalm).
  - intros prm c url hdrs _. unfold await_open. rewrite Hclosed. apply never_returns_hang.
  - auto.
Qed.

(** X10.  When the user's [onopen] throws, the promise [connect] waits
    for is never resolved: [connect] never returns a session, although
    the transport is open; nothing is sent and the objects of the
    caller are as they were. *)
Theorem connect_onopen_raises (live : Live) (p : loc) (w : World)
    (prm : LiveConnectParameters loc) (msg : string) :
  param_objs w !! p = Some prm ->
  optional_chain (callbacks prm) onopen = Some (Raises msg) ->
  (forall s, fst (connect ext live p w) <> Returned s)
  /\ param_objs (snd (connect ext live p w)) = param_objs w
  /\ config_objs (snd (connect ext live p w)) = config_objs w
  /\ exists more,
       trace (snd (connect ext live p w)) = trace w ++ more
       /\ sends more = [] /\ closes more = [].
Proof.
  intros Hp Hraise.
  destruct (connect_blocked live p w) as (Hnever & [Hpo Hco] & Hcalm).
  - intros prm0 c url hdrs Hp0. rewrite Hp in Hp0. inversion Hp0; subst prm0.
    unfold await_open. rewrite Hraise.
    destruct (signalsOpen (webSocketFactory live) url hdrs); [|apply never_returns_hang].
    apply never_returns_bind_r. intros _. apply never_returns_bind_r. intros _.
    apply never_returns_hang.
  - auto.
Qed.

Lemma sends_once_bind {A} (m : M A) (k : A -> M Session) :
  preserves calm m -> (forall a, sends_once (k a)) -> sends_once (bind m k).
Proof.
  intros Hm Hk w. unfold bind.
  destruct (Hm w) as (m1 & H1 & S1 & C1).
  destruct (m w) as [[a|msg|] w1]; simpl in *.
  - destruct (Hk a w1) as (m2 & H2 & C2 & S2). exists (m1 ++ m2).
    rewrite H2, H1, <- app_assoc, closes_app, sends_app, C1, C2, S1. auto.
  - exists m1. auto.
  - exists m1. auto.
Qed.

Lemma sends_once_send (c : nat) (frame : string) (client : ApiClient) :
  sends_once (bind (conn_send c frame)
                (fun _ => ret {| conn := c; session_apiClient := client |})).
Proof. intros w. exists [WsSend c frame]. simpl. eauto. Qed.

Lemma connect_setup_sends_once (live : Live) (p : loc) (c : nat) :
  sends_once (connect_setup ext live p c).
Proof.
  unfold connect_setup, default_responseModalities, warn_generationConfig, assign_tools.
  repeat (apply sends_once_bind; [solve [keep_calm] | intros]).
  apply sends_once_send.
Qed.

(** X11.  Whatever its outcome, [connect] closes no connection, and it
    hands a frame to [send] only when it returns a session, then exactly
    one frame, on the connection of that session.  A [connect] that
    fails after the transport is open leaves the connection open. *)
Theorem connect_sends_once (live : Live) (p : loc) (w : World) :
  exists more,
    trace (snd (connect ext live p w)) = trace w ++ more
    /\ closes more = []
    /\ match fst (connect ext live p w) with
       | Returned s => exists frame, sends more = [(conn s, frame)]
       | _ => sends more = []
       end.
Proof.
  revert w. change (sends_once (connect ext live p)).
  unfold connect.
  apply sends_once_bind; [apply connect_target_calm | intros target].
  apply sends_once_bind; [solve [keep_calm] | intros prm].
  apply sends_once_bind; [solve [keep_calm] | intros c].
  apply sends_once_bind; [solve [keep_calm] | intros _].
  apply sends_once_bind; [apply await_open_calm | intros _].
  apply connect_setup_sends_once.
Qed.

Lemma await_open_completes (live : Live) (c : nat) (url : string) (headers : HeaderMap)
    (cbs : option LiveCallbacks) (w : World) :
  signalsOpen (webSocketFactory live) url headers = true ->
  (forall msg, optional_chain cbs onopen <> Some (Raises msg)) ->
  exists w1,
    await_open live c url headers cbs w = (Returned tt, w1)
    /\ param_objs w1 = param_objs w /\ config_objs w1 = config_objs w
    /\ trace w1 = trace w ++ WsOpen c :: user_open_events cbs.
Proof.
  intros Hopen Hfine. unfold await_open, user_open_events. rewrite Hopen.
  unfold bind, emit, ret.
  destruct (optional_chain cbs onopen) as [[|msg]|]; simpl.
  - eexists. split; [reflexivity|]. simpl. rewrite <- app_assoc. auto.
  - exfalso. apply (Hfine msg). reflexivity.
  - eexists. split; [reflexivity|]. simpl. auto.
Qed.

(** X12.  When the model transform throws, [connect] on the direct API
    fails with the transform's message after the connection was created
    and opened: the connection is not closed, nothing is sent, and the
    objects of the caller are as they were. *)
Theorem connect_model_rejected (live : Live) (p : loc) (w : World)
    (prm : LiveConnectParameters loc) (msg : string) :
  isVertexAI (apiClient live) = false ->
  param_objs w !! p = Some prm ->
  (forall l, config prm = Some l -> is_Some (config_objs w !! l)) ->
  (forall url hdrs, signalsOpen (webSocketFactory live) url hdrs = true) ->
  (forall e, optional_chain (callbacks prm) onopen <> Some (Raises e)) ->
  tModel ext (apiClient live) (model prm) = Threw msg ->
  fst (connect ext live p w) = Threw msg
  /\ param_objs (snd (connect ext live p w)) = param_objs w
  /\ config_objs (snd (connect ext live p w)) = config_objs w
  /\ exists url hdrs,
       trace (snd (connect ext live p w))
       = trace w
         ++ [WsCreate (next_conn w) url hdrs; WsConnect (next_conn w); WsOpen (next_conn w)]
         ++ user_open_events (callbacks prm).
Proof.
  intros Hv Hp Hvalid Hopen Hfine Htm.
  destruct (connect_target_direct_api ext live p w prm Hv Hp Hvalid) as (hdrs & w1 & Htarget).
  destruct (connect_target_quiet ext live p w) as (Hpo1 & Hco1 & Htr1 & Hnc1).
  rewrite Htarget in Hpo1, Hco1, Htr1, Hnc1. simpl in Hpo1, Hco1, Htr1, Hnc1.
  assert (Hrun : exists w4,
             connect ext live p w = (Threw msg, w4)
             /\ param_objs w4 = param_objs w1 /\ config_objs w4 = config_objs w1
             /\ trace w4
                = ((trace w1 ++ [WsCreate (next_conn w1) (direct_api_url (apiClient live))
                                   (headersToMap ext hdrs)])
                   ++ [WsConnect (next_conn w1)])
                  ++ WsOpen (next_conn w1) :: user_open_events (callbacks prm)).
  { unfold connect. rewrite bind_unfold, Htarget. simpl fst. simpl snd. cbv iota.
    rewrite bind_unfold. unfold read_params at 1. rewrite Hpo1, Hp.
    rewrite bind_unfold. unfold ws_create at 1.
    rewrite bind_unfold. unfold emit at 1.
    rewrite bind_unfold.
    match goal with
    | |- context [await_open live ?c ?url ?h ?cbs ?w3] =>
        destruct (await_open_completes live c url h cbs w3 (Hopen url h) Hfine)
          as (w4 & Hawait & Hpo4 & Hco4 & Htr4)
    end.
    rewrite Hawait. simpl in Hpo4, Hco4, Htr4.
    unfold connect_setup. rewrite bind_unfold. unfold read_params at 1.
    rewrite Hpo4, Hpo1, Hp.
    rewrite bind_unfold. unfold lift at 1. rewrite Htm. cbv beta iota.
    exists w4. repeat split; congruence. }
  destruct Hrun as (w4 & Hrun & Hpo4 & Hco4 & Htr4).
  rewrite Hrun. simpl.
  rewrite Hpo4, Hco4, Htr4, Hpo1, Hco1, Htr1, Hnc1.
  repeat split; auto.
  eexists _, _. rewrite <- !app_assoc. reflexivity.
Qed.

(** X13.  After a [connect] that returns, a config whose tools are all
    static has the same tools, one by one and in the same order: the
    loop over the tools takes a static tool as it is.  (A list that is
    not empty is written back as a new array with these elements; an
    empty list is not written back.) *)
Theorem connect_keeps_static_tools (live : Live) (p : loc) (w w' : World) (s : Session)
    (prm : LiveConnectParameters loc) (decls : list JsValue) :
  param_objs w !! p = Some prm ->
  optional_chain (config_snapshot w prm) tools = Some (map StaticTool decls) ->
  connect ext live p w = (Returned s, w') ->
  exists prm' cfg',
    param_objs w' !! p = Some prm'
    /\ config prm' = config prm
    /\ config_snapshot w' prm' = Some cfg'
    /\ tools cfg' = Some (map StaticTool decls).
Proof.
  intros Hp Htools H.
  apply connect_returned in H
    as (url & hdrs & prm0 & tm & converted & msg & prm' & _ & _ & _ & _ & Hp0 & _ & Hconv & _ & Hp' & _ & _ & Hsame & _ & Hsnap).
  rewrite Hp in Hp0. inversion Hp0; subst prm0; clear Hp0.
  rewrite Htools in Hconv. simpl in Hconv.
  assert (Hid : convert_tools (map StaticTool decls) = Returned decls).
  { clear. induction decls as [|d ds IH]; simpl; [reflexivity|]. rewrite IH. reflexivity. }
  rewrite Hid in Hconv. inversion Hconv; subst converted; clear Hconv.
  destruct (config_snapshot w prm) as [c0|] eqn:Hc0; [|discriminate].
  simpl in Htools.
  assert (Hl : exists l, config prm = Some l).
  { unfold config_snapshot in Hc0. destruct (config prm) as [l|]; [eauto | discriminate]. }
  destruct Hl as [l Hl].
  exists prm'. rewrite Hsnap, (Hsame l Hl), Hl.
  unfold resolved_config, with_converted_tools, with_default_modality.
  destruct (isVertexAI (apiClient live)
            && negb (is_defined (optional_chain (Some c0) responseModalities)));
    destruct (Nat.ltb 0 (length decls)) eqn:Hlen; simpl;
    (eexists; split; [exact Hp'|]; split; [reflexivity|]; split; [reflexivity|];
     simpl; first [reflexivity | exact Htools]).
Qed.

(** X14.  [connect] does not test that the client has a project and a
    location: on the managed-cloud variant without them (a client in
    express mode), a name that starts with [publishers/] is sent as
    [projects/undefined/locations/undefined/publishers/...]. *)
Theorem connect_qualifies_without_project (live : Live) (p : loc) (w w' : World)
    (s : Session) (prm : LiveConnectParameters loc) (tm : string) :
  isVertexAI (apiClient live) = true ->
  param_objs w !! p = Some prm ->
  tModel ext (apiClient live) (model prm) = Returned tm ->
  String.prefix "publishers/" tm = true ->
  getProject (apiClient live) = None ->
  getLocation (apiClient live) = None ->
  connect ext live p w = (Returned s, w') ->
  exists converted msg before,
    convert_tools (default [] (optional_chain (config_snapshot w prm) tools))
      = Returned converted
    /\ setup_envelope ext (apiClient live)
         {| model := "projects/undefined/locations/undefined/" +:+ tm;
            config := resolved_config (apiClient live) (config_snapshot w prm) converted;
            callbacks := callbacks prm |} = Returned msg
    /\ trace w' = before ++ [WsSend (conn s) (JSON_stringify (obj_delete "config" msg))].
Proof.
  intros Hv Hp Htm Hpre Hpj Hlc H.
  apply connect_returned in H
    as (url & hdrs & prm0 & tm0 & converted & msg & prm' & _ & _ & -> & Htr & Hp0 & Htm0 & Hconv & Hmsg & _).
  rewrite Hp in Hp0. inversion Hp0; subst prm0; clear Hp0.
  rewrite Htm in Htm0. inversion Htm0; subst tm0; clear Htm0.
  unfold qualified_model in Hmsg. rewrite Hv, Hpre, Hpj, Hlc in Hmsg. simpl in Hmsg.
  eexists converted, msg, _. split; [exact Hconv|]. split; [exact Hmsg|].
  rewrite Htr. apply trace_ends.
Qed.

(** X15.  On the direct API, and on the managed-cloud variant for a
    name that does not start with [publishers/] (a name that starts with
    [projects/], say), the setup envelope is built for the name as the
    model transform gave it. *)
Theorem connect_keeps_model_name (live : Live) (p : loc) (w w' : World)
    (s : Session) (prm : LiveConnectParameters loc) (tm : string) :
  isVertexAI (apiClient live) = false \/ String.prefix "publishers/" tm = false ->
  param_objs w !! p = Some prm ->
  tModel ext (apiClient live) (model prm) = Returned tm ->
  connect ext live p w = (Returned s, w') ->
  exists converted msg before,
    convert_tools (default [] (optional_chain (config_snapshot w prm) tools))
      = Returned converted
    /\ setup_envelope ext (apiClient live)
         {| model := tm;
            config := resolved_config (apiClient live) (config_snapshot w prm) converted;
            callbacks := callbacks prm |} = Returned msg
    /\ trace w' = before ++ [WsSend (conn s) (JSON_stringify (obj_delete "config" msg))].
Proof.
  intros Hcase Hp Htm H.
  apply connect_returned in H
    as (url & hdrs & prm0 & tm0 & converted & msg & prm' & _ & _ & -> & Htr & Hp0 & Htm0 & Hconv & Hmsg & _).
  rewrite Hp in Hp0. inversion Hp0; subst prm0; clear Hp0.
  rewrite Htm in Htm0. inversion Htm0; subst tm0; clear Htm0.
  assert (Hq : qualified_model (apiClient live) tm = tm).
  { unfold qualified_model. destruct Hcase as [Hv|Hpre]; [rewrite Hv | rewrite Hpre];
      [reflexivity | rewrite andb_false_r; reflexivity]. }
  rewrite Hq in Hmsg.
  eexists converted, msg, _. split; [exact Hconv|]. split; [exact Hmsg|].
  rewrite Htr. apply trace_ends.
Qed.

End ConnectFurther.

(** The sample auth provider adds an authorization header. *)
Lemma connect_url_vertex_witness :
  exists headerMap more,
    trace (snd (connect sample_externals vertex_live 1%positive caller_world))
    = trace caller_world
      ++ WsCreate (next_conn caller_world)
           (getWebsocketBaseUrl (apiClient vertex_live) +:+ "/ws/google.cloud.aiplatform."
            +:+ getApiVersion (apiClient vertex_live) +:+ ".LlmBidiService/BidiGenerateContent")
           headerMap
      :: more
    /\ forall name,
         headerMap !! name
         = last_value name
             (Headers_forEach sample_externals
                [("user-agent", "google-genai-sdk"); ("authorization", "Bearer token")]).
Proof.
  apply (connect_url_vertex sample_externals vertex_live 1%positive caller_world
           caller_params
           [("user-agent", "google-genai-sdk"); ("authorization", "Bearer token")]).
  - reflexivity.
  - reflexivity.
  - intros l Hl. inversion Hl; subst l. exists caller_config. reflexivity.
  - reflexivity.
Defined.

(** An auth provider without credentials. *)
Lemma connect_auth_failure_witness :
  connect sample_externals unauthorized_live 1%positive caller_world
  = (Threw "Could not load the default credentials", caller_world).
Proof.
  apply (connect_auth_failure sample_externals unauthorized_live 1%positive caller_world
           caller_params "Could not load the default credentials").
  - reflexivity.
  - reflexivity.
  - intros l Hl. inversion Hl; subst l. exists caller_config. reflexivity.
  - reflexivity.
Defined.

(** A factory whose connections never open. *)
Lemma connect_waits_for_open_witness :
  (forall s, fst (connect sample_externals silent_live 1%positive caller_world) <> Returned s)
  /\ param_objs (snd (connect sample_externals silent_live 1%positive caller_world))
     = param_objs caller_world
  /\ config_objs (snd (connect sample_externals silent_live 1%positive caller_world))
     = config_objs caller_world
  /\ exists more,
       trace (snd (connect sample_externals silent_live 1%positive caller_world))
       = trace caller_world ++ more
       /\ sends more = [] /\ closes more = [].
Proof.
  apply (connect_waits_for_open sample_externals silent_live 1%positive caller_world).
  reflexivity.
Defined.

(** A caller whose [onopen] throws. *)
Lemma connect_onopen_raises_witness :
  (forall s, fst (connect sample_externals mldev_live 1%positive raising_world) <> Returned s)
  /\ param_objs (snd (connect sample_externals mldev_live 1%positive raising_world))
     = param_objs raising_world
  /\ config_objs (snd (connect sample_externals mldev_live 1%positive raising_world))
     = config_objs raising_world
  /\ exists more,
       trace (snd (connect sample_externals mldev_live 1%positive raising_world))
       = trace raising_world ++ more
       /\ sends more = [] /\ closes more = [].
Proof.
  apply (connect_onopen_raises sample_externals mldev_live 1%positive raising_world
           raising_params "boom"); reflexivity.
Defined.

(** The sample transform refuses the empty model name. *)
Lemma connect_model_rejected_witness :
  fst (connect sample_externals mldev_live 1%positive nameless_world)
  = Threw "model is required and must be a string"
  /\ param_objs (snd (connect sample_externals mldev_live 1%positive nameless_world))
     = param_objs nameless_world
  /\ config_objs (snd (connect sample_externals mldev_live 1%positive nameless_world))
     = config_objs nameless_world
  /\ exists url hdrs,
       trace (snd (connect sample_externals mldev_live 1%positive nameless_world))
       = trace nameless_world
         ++ [WsCreate (next_conn nameless_world) url hdrs;
             WsConnect (next_conn nameless_world); WsOpen (next_conn nameless_world)]
         ++ user_open_events (callbacks nameless_params).
Proof.
  apply (connect_model_rejected sample_externals mldev_live 1%positive nameless_world
           nameless_params "model is required and must be a string").
  - reflexivity.
  - reflexivity.
  - intros l Hl. inversion Hl; subst l. exists caller_config. reflexivity.
  - reflexivity.
  - intros e He. discriminate He.
  - reflexivity.
Defined.

(** Two static tools. *)
Lemma connect_keeps_static_tools_witness :
  exists prm' cfg',
    param_objs (snd (connect sample_externals mldev_live 1%positive static_world)) !! 1%positive
      = Some prm'
    /\ config prm' = config caller_params
    /\ config_snapshot (snd (connect sample_externals mldev_live 1%positive static_world)) prm'
       = Some cfg'
    /\ tools cfg'
       = Some (map StaticTool [JObj [("googleSearch", JObj [])];
                               JObj [("codeExecution", JObj [])]]).
Proof.
  apply (connect_keeps_static_tools sample_externals mldev_live 1%positive static_world
           (snd (connect sample_externals mldev_live 1%positive static_world))
           mldev_session caller_params
           [JObj [("googleSearch", JObj [])]; JObj [("codeExecution", JObj [])]]).
  - reflexivity.
  - reflexivity.
  - vm_compute. reflexivity.
Defined.

(** A managed-cloud client in express mode. *)
Lemma connect_qualifies_without_project_witness :
  exists converted msg before,
    convert_tools (default [] (optional_chain (config_snapshot caller_world caller_params)
                                 tools))
      = Returned converted
    /\ setup_envelope sample_externals (apiClient express_live)
         {| model := "projects/undefined/locations/undefined/"
                     +:+ "publishers/google/models/gemini-2.0-flash-live-preview-04-09";
            config := resolved_config (apiClient express_live)
                        (config_snapshot caller_world caller_params) converted;
            callbacks := callbacks caller_params |} = Returned msg
    /\ trace (snd (connect sample_externals express_live 1%positive caller_world))
       = before
         ++ [WsSend (conn {| conn := 0%nat; session_apiClient := express_client |})
               (JSON_stringify (obj_delete "config" msg))].
Proof.
  apply (connect_qualifies_without_project sample_externals express_live 1%positive
           caller_world (snd (connect sample_externals express_live 1%positive caller_world))
           {| conn := 0%nat; session_apiClient := express_client |} caller_params
           "publishers/google/models/gemini-2.0-flash-live-preview-04-09");
    vm_compute; reflexivity.
Defined.

(** The direct API. *)
Lemma connect_keeps_model_name_witness :
  exists converted msg before,
    convert_tools (default [] (optional_chain (config_snapshot bare_world bare_params) tools))
      = Returned converted
    /\ setup_envelope sample_externals (apiClient mldev_live)
         {| model := "models/gemini-2.0-flash-live-001";
            config := resolved_config (apiClient mldev_live)
                        (config_snapshot bare_world bare_params) converted;
            callbacks := callbacks bare_params |} = Returned msg
    /\ trace (snd (connect sample_externals mldev_live 1%positive bare_world))
       = before ++ [WsSend (conn mldev_session) (JSON_stringify (obj_delete "config" msg))].
Proof.
  apply (connect_keeps_model_name sample_externals mldev_live 1%positive bare_world
           (snd (connect sample_externals mldev_live 1%positive bare_world))
           mldev_session bare_params "models/gemini-2.0-flash-live-001").
  - left. reflexivity.
  - reflexivity.
  - reflexivity.
  - vm_compute. reflexivity.
Defined.

(** ** Inbound dispatch: nothing is lost, and the order of [Blob]s *)

Section InboundFurther.

Context (ext : Externals).

Lemma dispatch_text_any (client : ApiClient) (onmsg : option UserFn) (bytes : string)
    (w : World) :
  messages_dispatched (trace (dispatch_text ext client onmsg (decodeText ext bytes) w))
    = messages_dispatched (trace w)
      ++ match pending_frame ext {| sus_apiClient := client; sus_onmessage := onmsg;
                                    sus_blob := bytes |} with
         | Some frame => [frame]
         | None => []
         end
  /\ suspended (dispatch_text ext client onmsg (decodeText ext bytes) w) = suspended w.
Proof.
  destruct onmsg as [f|].
  - apply (dispatch_text_registered ext client f (decodeText ext bytes) w).
  - unfold dispatch_text, pending_frame. simpl.
    destruct (JSON_parse ext (decodeText ext bytes)) as [data|];
      [|split; [symmetry; apply app_nil_r | reflexivity]].
    destruct (if isVertexAI client
              then liveServerMessageFromVertex ext data
              else liveServerMessageFromMldev ext data);
      split; first [symmetry; apply app_nil_r | reflexivity].
Qed.

Lemma deliver_accounted (client : ApiClient) (cb : LiveCallbacks) (data : MessageData)
    (w : World) :
  is_defined (onmessage cb) = true ->
  accounted ext (ws_onmessage ext client (Some cb) data w)
  ≡ₚ accounted ext w ++ match decode_frame ext client data with
                    | Some frame => [frame]
                    | None => []
                    end.
Proof.
  intros Hcb. unfold accounted.
  destruct (is_blob data) eqn:Hblob.
  - destruct data as [s|bytes|bytes]; try discriminate. simpl.
    rewrite omap_app. simpl. unfold pending_frame at 2. simpl.
    destruct (onmessage cb); [|discriminate].
    rewrite <- !app_assoc. do 2 f_equiv.
  - destruct (deliver_without_blob ext client cb data w Hcb Hblob) as [Hmsgs Hsus].
    rewrite Hmsgs, Hsus. rewrite <- !app_assoc. f_equiv. apply Permutation_app_comm.
Qed.

Lemma resume_accounted (i : nat) (w : World) :
  accounted ext (resume_blob ext i w) ≡ₚ accounted ext w.
Proof.
  unfold accounted, resume_blob.
  destruct (suspended w !! i) as [h|] eqn:Hi; [|reflexivity].
  destruct h as [client onmsg bytes].
  destruct (dispatch_text_any client onmsg bytes (with_suspended (fun l => delete i l) w))
    as [Hmsgs Hsus].
  simpl sus_apiClient. simpl sus_onmessage. simpl sus_blob.
  rewrite Hmsgs, Hsus. simpl.
  rewrite (delete_Permutation (suspended w) i _ Hi) at 2. simpl.
  rewrite <- app_assoc. f_equiv.
  destruct (pending_frame ext {| sus_apiClient := client; sus_onmessage := onmsg;
                                 sus_blob := bytes |}); reflexivity.
Qed.

(** X16.  Whatever the order in which deliveries and the texts of
    [Blob]s follow each other, no message is lost and none reaches the
    callback twice: the frames the callback received, together with the
    frames of the calls still suspended, are the frames accounted for
    before and the decoded frames of the messages delivered, up to
    order. *)
Theorem inbound_nothing_lost (client : ApiClient) (cb : LiveCallbacks)
    (steps : list InboundStep) (w : World) :
  is_defined (onmessage cb) = true ->
  messages_dispatched (trace (inbound_run ext client (Some cb) steps w))
    ++ omap (pending_frame ext) (suspended (inbound_run ext client (Some cb) steps w))
  ≡ₚ (messages_dispatched (trace w) ++ omap (pending_frame ext) (suspended w))
     ++ omap (decode_frame ext client) (delivered steps).
Proof.
  intros Hcb. revert w.
  induction steps as [|step rest IH]; intros w.
  - simpl. rewrite app_nil_r. reflexivity.
  - change (inbound_run ext client (Some cb) (step :: rest) w)
      with (inbound_run ext client (Some cb) rest (inbound_step ext client (Some cb) w step)).
    rewrite IH. fold (accounted ext (inbound_step ext client (Some cb) w step)).
    fold (accounted ext w).
    destruct step as [data|i]; simpl.
    + rewrite (deliver_accounted client cb data w Hcb). rewrite <- !app_assoc. f_equiv.
      destruct (decode_frame ext client data); reflexivity.
    + rewrite resume_accounted. reflexivity.
Qed.

Lemma deliver_blob_accounted (client : ApiClient) (cb : LiveCallbacks) (data : MessageData)
    (w : World) :
  is_defined (onmessage cb) = true ->
  is_blob data = true ->
  accounted ext (ws_onmessage ext client (Some cb) data w)
  = accounted ext w ++ omap (decode_frame ext client) [data].
Proof.
  intros Hcb Hblob. destruct data as [s|bytes|bytes]; try discriminate.
  unfold accounted. simpl. rewrite omap_app, <- app_assoc. do 2 f_equal.
  unfold pending_frame. simpl. destruct (onmessage cb); [reflexivity | discriminate].
Qed.

Lemma resume_oldest_accounted (w : World) :
  accounted ext (resume_blob ext 0 w) = accounted ext w.
Proof.
  unfold accounted, resume_blob.
  destruct (suspended w) as [|h rest] eqn:Hsus; simpl; [rewrite Hsus; reflexivity|].
  destruct h as [client onmsg bytes]. simpl.
  destruct (dispatch_text_any client onmsg bytes (with_suspended (fun l => delete 0%nat l) w))
    as [Hmsgs Hsus'].
  rewrite Hmsgs, Hsus'. simpl. rewrite Hsus. simpl. rewrite <- app_assoc. f_equal.
  destruct (pending_frame ext {| sus_apiClient := client; sus_onmessage := onmsg;
                                 sus_blob := bytes |}); reflexivity.
Qed.

(** X17.  When all messages are [Blob]s and their texts arrive in the
    order of delivery, under whatever interleaving of deliveries and
    texts: the frames the callback has received, followed by the frames
    of the calls still suspended, are the frames accounted for before
    followed by the decoded frames of the messages delivered, in the
    order of delivery.  So the callback has, at every moment, received
    the decoded frames in the order of delivery up to some message, and
    all of them in that order once no call is suspended. *)
Theorem inbound_blobs_in_order (client : ApiClient) (cb : LiveCallbacks)
    (steps : list InboundStep) (w : World) :
  is_defined (onmessage cb) = true ->
  forallb in_delivery_order steps = true ->
  messages_dispatched (trace (inbound_run ext client (Some cb) steps w))
    ++ omap (pending_frame ext) (suspended (inbound_run ext client (Some cb) steps w))
  = (messages_dispatched (trace w) ++ omap (pending_frame ext) (suspended w))
    ++ omap (decode_frame ext client) (delivered steps)
  /\ (suspended w = [] ->
      suspended (inbound_run ext client (Some cb) steps w) = [] ->
      messages_dispatched (trace (inbound_run ext client (Some cb) steps w))
      = messages_dispatched (trace w) ++ omap (decode_frame ext client) (delivered steps)).
Proof.
  intros Hcb Hall.
  assert (Hacc : accounted ext (inbound_run ext client (Some cb) steps w)
                 = accounted ext w ++ omap (decode_frame ext client) (delivered steps)).
  { revert w. induction steps as [|step rest IH]; intros w.
    - simpl. rewrite app_nil_r. reflexivity.
    - simpl in Hall. apply andb_true_iff in Hall as [Hstep Hrest].
      change (inbound_run ext client (Some cb) (step :: rest) w)
        with (inbound_run ext client (Some cb) rest (inbound_step ext client (Some cb) w step)).
      rewrite (IH Hrest). destruct step as [data|i]; simpl in Hstep.
      + change (delivered (Deliver data :: rest)) with (data :: delivered rest).
        change (inbound_step ext client (Some cb) w (Deliver data))
          with (ws_onmessage ext client (Some cb) data w).
        rewrite (deliver_blob_accounted client cb data w Hcb Hstep).
        rewrite <- app_assoc. f_equal. symmetry. apply (omap_app _ [data]).
      + apply Nat.eqb_eq in Hstep. subst i.
        change (delivered (BlobText 0 :: rest)) with (delivered rest).
        change (inbound_step ext client (Some cb) w (BlobText 0)) with (resume_blob ext 0 w).
        rewrite resume_oldest_accounted. reflexivity. }
  unfold accounted in Hacc. split; [exact Hacc|].
  intros Hempty Hdone. rewrite Hempty, Hdone in Hacc. simpl in Hacc.
  rewrite !app_nil_r in Hacc. exact Hacc.
Qed.

End InboundFurther.

(** Two [Blob]s and a text, the second [Blob] read first. *)
Lemma inbound_nothing_lost_witness :
  messages_dispatched
    (trace (inbound_run sample_externals mldev_client (Some sample_callbacks)
              interleaved_steps empty_world))
    ++ omap (pending_frame sample_externals)
         (suspended (inbound_run sample_externals mldev_client (Some sample_callbacks)
                       interleaved_steps empty_world))
  ≡ₚ (messages_dispatched (trace empty_world)
      ++ omap (pending_frame sample_externals) (suspended empty_world))
     ++ omap (decode_frame sample_externals mldev_client) (delivered interleaved_steps).
Proof.
  apply (inbound_nothing_lost sample_externals mldev_client sample_callbacks
           interleaved_steps empty_world).
  reflexivity.
Defined.

(** Two [Blob]s, the text of the first read before the second is
    delivered. *)
Lemma inbound_blobs_in_order_witness :
  messages_dispatched
    (trace (inbound_run sample_externals mldev_client (Some sample_callbacks)
              alternating_steps empty_world))
    ++ omap (pending_frame sample_externals)
         (suspended (inbound_run sample_externals mldev_client (Some sample_callbacks)
                       alternating_steps empty_world))
  = (messages_dispatched (trace empty_world)
     ++ omap (pending_frame sample_externals) (suspended empty_world))
    ++ omap (decode_frame sample_externals mldev_client) (delivered alternating_steps)
  /\ (suspended empty_world = [] ->
      suspended (inbound_run sample_externals mldev_client (Some sample_callbacks)
                   alternating_steps empty_world) = [] ->
      messages_dispatched
        (trace (inbound_run sample_externals mldev_client (Some sample_callbacks)
                  alternating_steps empty_world))
      = messages_dispatched (trace empty_world)
        ++ omap (decode_frame sample_externals mldev_client) (delivered alternating_steps)).
Proof.
  apply (inbound_blobs_in_order sample_externals mldev_client sample_callbacks
           alternating_steps empty_world); reflexivity.
Defined.

(** ** The Node client: which key, project and location a client gets *)

Section NodeClientFurther.

Context (env : string -> option string).
Context (getBaseUrl : GoogleGenAIOptions -> option string -> option string -> option string).

Lemma env_lookup_returned (a b : option string) (line : string) (w w1 : World)
    (r : option string) :
  bind (if truthy_ostring a && truthy_ostring b then console_log line else ret tt)
    (fun _ => ret (or_string a b)) w = (Returned r, w1) ->
  r = or_string a b
  /\ console w1 = console w
                  ++ (if truthy_ostring a && truthy_ostring b then [line] else []).
Proof.
  unfold bind, console_log, ret.
  destruct (truthy_ostring a && truthy_ostring b); intros H; inversion H; subst; simpl;
    rewrite ?app_nil_r; auto.
Qed.

Lemma GoogleGenAI_new_returned (options : GoogleGenAIOptions) (w w' : World)
    (g : GoogleGenAI) :
  GoogleGenAI_new env getBaseUrl options w = (Returned g, w') ->
  exists w2,
    express_mode options (env_api_key env) (getEnv env "GOOGLE_CLOUD_PROJECT")
      (getEnv env "GOOGLE_CLOUD_LOCATION")
      (nullish_or (opt_apiKey options) (env_api_key env),
       nullish_or (opt_project options) (getEnv env "GOOGLE_CLOUD_PROJECT"),
       nullish_or (opt_location options) (getEnv env "GOOGLE_CLOUD_LOCATION")) w2
    = (Returned (apiKey g, project g, location g), w')
    /\ console w2 = console w ++ env_warnings env
    /\ vertexai g = default (getBooleanEnv env "GOOGLE_GENAI_USE_VERTEXAI")
                      (opt_vertexai options)
    /\ truthy_ostring (or_string (opt_project options) (opt_location options))
       && truthy_ostring (opt_apiKey options) = false.
Proof.
  unfold GoogleGenAI_new. intros H.
  destruct (truthy_ostring (or_string (opt_project options) (opt_location options))
            && truthy_ostring (opt_apiKey options)); [discriminate|].
  apply bind_returned in H as (envApiBaseUrl & w1 & Hurl & H).
  apply env_lookup_returned in Hurl as [-> Hc1].
  apply bind_returned in H as (envApiKey & w2 & Hkey & H).
  apply env_lookup_returned in Hkey as [-> Hc2].
  apply bind_returned in H as ([[k pj] lc] & w3 & Hexpress & H).
  unfold ret in H. inversion H; subst; clear H. simpl.
  exists w2. repeat split; auto.
  rewrite Hc2, Hc1. unfold env_warnings. rewrite app_assoc. reflexivity.
Qed.

Lemma express_mode_inactive (options : GoogleGenAIOptions)
    (envApiKey envProject envLocation : option string)
    (fields : option string * option string * option string) (w : World) :
  opt_vertexai options <> Some true ->
  express_mode options envApiKey envProject envLocation fields w = (Returned fields, w).
Proof.
  intros Hv. unfold express_mode. destruct fields as [[k pj] lc].
  destruct (opt_vertexai options) as [[|]|]; simpl; try reflexivity. congruence.
Qed.

Lemma truthy_or_string (a b : option string) :
  truthy_ostring (or_string a b) = truthy_ostring a || truthy_ostring b.
Proof.
  unfold or_string. destruct (truthy_ostring a) eqn:Ha; [exact Ha | reflexivity].
Qed.

Lemma truthy_nullish_or (a b : option string) :
  truthy_ostring (nullish_or a b) = true -> truthy_ostring a || truthy_ostring b = true.
Proof. destruct a as [x|]; simpl; intros H; [rewrite H; reflexivity | exact H]. Qed.

Lemma nullish_or_truthy (a b : option string) :
  truthy_ostring a = true -> nullish_or a b = a.
Proof. destruct a; [reflexivity | discriminate]. Qed.

(** A contradiction among equations between flags. *)
Ltac contradict_flags :=
  exfalso;
  repeat match goal with
         | H : _ = true |- _ => revert H
         | H : _ = false |- _ => revert H
         end;
  repeat match goal with
         | |- context [truthy_ostring ?x] => destruct (truthy_ostring x)
         end;
  simpl; intros; congruence.

Lemma express_mode_resolved (options : GoogleGenAIOptions)
    (envApiKey envProject envLocation k pj lc : option string) (w w' : World) :
  opt_vertexai options = Some true ->
  truthy_ostring (or_string (opt_project options) (opt_location options))
  && truthy_ostring (opt_apiKey options) = false ->
  express_mode options envApiKey envProject envLocation
    (nullish_or (opt_apiKey options) envApiKey,
     nullish_or (opt_project options) envProject,
     nullish_or (opt_location options) envLocation) w
  = (Returned (k, pj, lc), w') ->
  truthy_ostring k && (truthy_ostring pj || truthy_ostring lc) = false
  /\ (has_credentials options = true -> k = None)
  /\ (truthy_ostring (opt_project options) = true -> pj = opt_project options)
  /\ (truthy_ostring (opt_location options) = true -> lc = opt_location options)
  /\ (truthy_ostring (opt_apiKey options) = true -> has_credentials options = false ->
      k = opt_apiKey options).
Proof.
  intros Hv Hguard H. unfold express_mode in H. rewrite Hv in H.
  change (default false (Some true)) with true in H. cbv iota in H.
  fold (has_credentials options) in H.
  rewrite !truthy_or_string in H. rewrite truthy_or_string in Hguard.
  destruct (has_credentials options) eqn:Hcred;
    (destruct ((truthy_ostring envProject || truthy_ostring envLocation)
               && truthy_ostring (opt_apiKey options)) eqn:H1;
     [|destruct ((truthy_ostring (opt_project options)
                  || truthy_ostring (opt_location options))
                 && truthy_ostring envApiKey) eqn:H2;
       [|destruct ((truthy_ostring envProject || truthy_ostring envLocation)
                   && truthy_ostring envApiKey) eqn:H3]]);
    cbv [bind console_log ret] in H; injection H as <- <- <- _;
    (split;
     [ apply not_true_is_false; intros E; apply andb_true_iff in E as [Ek Ep];
       simpl in Ek; try discriminate Ek;
       apply orb_true_iff in Ep as [Ep|Ep]; simpl in Ep; try discriminate Ep;
       apply truthy_nullish_or in Ek; apply truthy_nullish_or in Ep; contradict_flags
     | split; [intros; congruence|];
       split; [intros Ht; first [apply nullish_or_truthy; exact Ht | contradict_flags]|];
       split; [intros Ht; first [apply nullish_or_truthy; exact Ht | contradict_flags]|];
       intros Ht Hc;
       first [discriminate Hc | apply nullish_or_truthy; exact Ht | contradict_flags] ]).
Qed.

Lemma env_lookup_returns (a b : option string) (line : string) (w : World) :
  exists w1,
    bind (if truthy_ostring a && truthy_ostring b then console_log line else ret tt)
      (fun _ => ret (or_string a b)) w = (Returned (or_string a b), w1).
Proof.
  unfold bind, console_log, ret.
  destruct (truthy_ostring a && truthy_ostring b); eexists; reflexivity.
Qed.

Lemma express_mode_returns (options : GoogleGenAIOptions)
    (envApiKey envProject envLocation : option string)
    (fields : option string * option string * option string) (w : World) :
  exists fields' w1,
    express_mode options envApiKey envProject envLocation fields w = (Returned fields', w1).
Proof.
  unfold express_mode. destruct fields as [[k pj] lc].
  destruct (default false (opt_vertexai options)); [|eexists _, _; reflexivity].
  unfold bind, console_log, ret.
  repeat match goal with
         | |- context [if ?b then _ else _] => destruct b
         end; eexists _, _; reflexivity.
Qed.

Lemma GoogleGenAI_new_accepts (options : GoogleGenAIOptions) (w : World) :
  truthy_ostring (or_string (opt_project options) (opt_location options))
  && truthy_ostring (opt_apiKey options) = false ->
  exists g w', GoogleGenAI_new env getBaseUrl options w = (Returned g, w').
Proof.
  intros Hguard. unfold GoogleGenAI_new. rewrite Hguard.
  unfold getBaseApiUrlFromEnv, getApiKeyFromEnv.
  rewrite bind_unfold.
  destruct (env_lookup_returns (getEnv env "GOOGLE_BASE_API_URL")
              (getEnv env "GEMINI_BASE_API_URL") BOTH_KEYS_WARNING w) as [w1 ->].
  rewrite bind_unfold.
  destruct (env_lookup_returns (getEnv env "GOOGLE_API_KEY")
              (getEnv env "GEMINI_API_KEY") BOTH_KEYS_WARNING w1) as [w2 ->].
  rewrite bind_unfold.
  match goal with
  | |- context [express_mode ?o ?a ?b ?c ?f ?w0] =>
      destruct (express_mode_returns o a b c f w0) as ([[k pj] lc] & w3 & ->)
  end.
  eexists _, _. reflexivity.
Qed.

(** X18.  The constructor fails with the mutually-exclusive error
    exactly when the options themselves carry a non-empty API key and a
    non-empty project or location.  A key, a project or a location that
    come from the environment never make it fail. *)
Theorem GoogleGenAI_new_throws_iff (options : GoogleGenAIOptions) (w : World) :
  fst (GoogleGenAI_new env getBaseUrl options w) = Threw MUTUALLY_EXCLUSIVE
  <-> truthy_ostring (opt_apiKey options) = true
      /\ (truthy_ostring (opt_project options) = true
          \/ truthy_ostring (opt_location options) = true).
Proof.
  destruct (truthy_ostring (or_string (opt_project options) (opt_location options))
            && truthy_ostring (opt_apiKey options)) eqn:Hguard.
  - split.
    + intros _. rewrite truthy_or_string in Hguard.
      apply andb_true_iff in Hguard as [Hpl Hk]. apply orb_true_iff in Hpl. auto.
    + intros _. unfold GoogleGenAI_new. rewrite Hguard. reflexivity.
  - destruct (GoogleGenAI_new_accepts options w Hguard) as (g & w' & ->).
    split; [discriminate|].
    intros [Hk Hpl]. rewrite truthy_or_string, Hk in Hguard.
    destruct Hpl as [Hp|Hl]; [rewrite Hp in Hguard | rewrite Hl, orb_true_r in Hguard];
      discriminate.
Qed.

(** X19.  With [vertexai] set to true in the options, a constructed
    client never has both an API key and a project or a location: of a
    key and a project or location that meet, the ones given in the
    options win over the ones of the environment, and the project and
    location of the environment win over its key. *)
Theorem GoogleGenAI_new_key_or_project (options : GoogleGenAIOptions) (w w' : World)
    (g : GoogleGenAI) :
  opt_vertexai options = Some true ->
  GoogleGenAI_new env getBaseUrl options w = (Returned g, w') ->
  truthy_ostring (apiKey g) && (truthy_ostring (project g) || truthy_ostring (location g))
  = false.
Proof.
  intros Hv H.
  apply GoogleGenAI_new_returned in H as (w2 & Hexpress & _ & _ & Hguard).
  apply (express_mode_resolved _ _ _ _ _ _ _ _ _ Hv Hguard Hexpress).
Qed.

(** X20.  The precedence between key and project is resolved only for
    [vertexai] set to true in the options.  Otherwise, also when Vertex
    AI is selected by the variable [GOOGLE_GENAI_USE_VERTEXAI] alone,
    the client takes key, project and location each from the options
    or else from the environment (the key from [GOOGLE_API_KEY] or else
    [GEMINI_API_KEY]), and the console gets the warnings of the
    environment lookups and nothing else. *)
Theorem GoogleGenAI_new_without_express_mode (options : GoogleGenAIOptions) (w w' : World)
    (g : GoogleGenAI) :
  opt_vertexai options <> Some true ->
  GoogleGenAI_new env getBaseUrl options w = (Returned g, w') ->
  apiKey g = nullish_or (opt_apiKey options) (env_api_key env)
  /\ project g = nullish_or (opt_project options) (getEnv env "GOOGLE_CLOUD_PROJECT")
  /\ location g = nullish_or (opt_location options) (getEnv env "GOOGLE_CLOUD_LOCATION")
  /\ vertexai g = default (getBooleanEnv env "GOOGLE_GENAI_USE_VERTEXAI")
                    (opt_vertexai options)
  /\ console w' = console w ++ env_warnings env.
Proof.
  intros Hv H.
  apply GoogleGenAI_new_returned in H as (w2 & Hexpress & Hconsole & Hvertex & _).
  rewrite (express_mode_inactive _ _ _ _ _ _ Hv) in Hexpress.
  inversion Hexpress; subst. auto.
Qed.

(** X21.  What the options give explicitly is kept: a non-empty project
    or location of the options is the project or location of the
    client, and a non-empty API key of the options is its key, unless
    [vertexai] is true and the options carry credentials. *)
Theorem GoogleGenAI_new_explicit_wins (options : GoogleGenAIOptions) (w w' : World)
    (g : GoogleGenAI) :
  GoogleGenAI_new env getBaseUrl options w = (Returned g, w') ->
  (truthy_ostring (opt_project options) = true -> project g = opt_project options)
  /\ (truthy_ostring (opt_location options) = true -> location g = opt_location options)
  /\ (truthy_ostring (opt_apiKey options) = true ->
      opt_vertexai options <> Some true \/ has_credentials options = false ->
      apiKey g = opt_apiKey options).
Proof.
  intros H.
  apply GoogleGenAI_new_returned in H as (w2 & Hexpress & _ & _ & Hguard).
  destruct (decide (opt_vertexai options = Some true)) as [Hv|Hv].
  - destruct (express_mode_resolved _ _ _ _ _ _ _ _ _ Hv Hguard Hexpress)
      as (_ & _ & Hp & Hl & Hk).
    repeat split; auto.
    intros Ht [Hnv|Hc]; [congruence | auto].
  - rewrite (express_mode_inactive _ _ _ _ _ _ Hv) in Hexpress.
    inversion Hexpress; subst.
    repeat split; intros; apply nullish_or_truthy; assumption.
Qed.

(** X22.  With [vertexai] set to true and credentials in the options,
    the client has no API key, whether a key comes from the options or
    from the environment. *)
Theorem GoogleGenAI_new_credentials_drop_key (options : GoogleGenAIOptions) (w w' : World)
    (g : GoogleGenAI) :
  opt_vertexai options = Some true ->
  has_credentials options = true ->
  GoogleGenAI_new env getBaseUrl options w = (Returned g, w') ->
  apiKey g = None.
Proof.
  intros Hv Hc H.
  apply GoogleGenAI_new_returned in H as (w2 & Hexpress & _ & _ & Hguard).
  destruct (express_mode_resolved _ _ _ _ _ _ _ _ _ Hv Hguard Hexpress) as (_ & Hk & _).
  auto.
Qed.

Lemma express_mode_console (options : GoogleGenAIOptions)
    (envApiKey envProject envLocation : option string)
    (fields fields' : option string * option string * option string) (w w' : World) :
  express_mode options envApiKey envProject envLocation fields w = (Returned fields', w') ->
  exists rest, console w' = console w ++ rest.
Proof.
  unfold express_mode. destruct fields as [[k pj] lc].
  destruct (default false (opt_vertexai options));
    [|intros H; inversion H; subst; exists []; rewrite app_nil_r; reflexivity].
  unfold bind, console_log, ret.
  repeat match goal with
         | |- context [if ?b then _ else _] => destruct b
         end;
    intros H; inversion H; subst; simpl; rewrite <- ?app_assoc; eexists; try reflexivity.
  rewrite app_nil_r. reflexivity.
Qed.

(** X23.  When [GOOGLE_BASE_API_URL] and [GEMINI_BASE_API_URL] are both
    set, the client takes the first, unless the options give an
    [apiUrl], and the first line the constructor writes to the console
    is the warning that names the two API key variables, whatever the
    API key variables are. *)
Theorem GoogleGenAI_new_base_url_warning (options : GoogleGenAIOptions) (w w' : World)
    (g : GoogleGenAI) :
  truthy_ostring (getEnv env "GOOGLE_BASE_API_URL") = true ->
  truthy_ostring (getEnv env "GEMINI_BASE_API_URL") = true ->
  GoogleGenAI_new env getBaseUrl options w = (Returned g, w') ->
  apiUrl g = nullish_or (opt_apiUrl options) (getEnv env "GOOGLE_BASE_API_URL")
  /\ exists rest,
       console w'
       = console w
         ++ "Both GOOGLE_API_KEY and GEMINI_API_KEY are set. Using GOOGLE_API_KEY." :: rest.
Proof.
  intros Hgoogle Hgemini H.
  pose proof H as Hfull.
  apply GoogleGenAI_new_returned in H as (w2 & Hexpress & Hconsole & _ & Hguard).
  apply express_mode_console in Hexpress as [rest Hrest].
  split.
  - unfold GoogleGenAI_new in Hfull. rewrite Hguard in Hfull.
    apply bind_returned in Hfull as (envApiBaseUrl & w1 & Hurl & Hfull).
    apply env_lookup_returned in Hurl as [-> _].
    apply bind_returned in Hfull as (envApiKey & w3 & _ & Hfull).
    apply bind_returned in Hfull as ([[k pj] lc] & w4 & _ & Hfull).
    unfold ret in Hfull. inversion Hfull; subst; clear Hfull. simpl.
    unfold or_string. rewrite Hgoogle. reflexivity.
  - rewrite Hrest, Hconsole. unfold env_warnings. rewrite Hgoogle, Hgemini. simpl.
    rewrite <- !app_assoc. simpl. eexists. reflexivity.
Qed.

End NodeClientFurther.

(** Vertex AI with an explicit key, in an environment with a project. *)
Lemma GoogleGenAI_new_key_or_project_witness :
  truthy_ostring
    (apiKey {| vertexai := true; apiUrl := None; apiKey := Some "explicit-key";
               project := None; location := None; apiVersion := None;
               httpOptions := None |})
  && (truthy_ostring
        (project {| vertexai := true; apiUrl := None; apiKey := Some "explicit-key";
                    project := None; location := None; apiVersion := None;
                    httpOptions := None |})
      || truthy_ostring
           (location {| vertexai := true; apiUrl := None; apiKey := Some "explicit-key";
                        project := None; location := None; apiVersion := None;
                        httpOptions := None |}))
  = false.
Proof.
  apply (GoogleGenAI_new_key_or_project vertex_environment (fun _ _ _ => None)
           express_options empty_world
           (snd (GoogleGenAI_new vertex_environment (fun _ _ _ => None) express_options
                   empty_world))).
  - reflexivity.
  - vm_compute. reflexivity.
Defined.

(** Vertex AI selected by the environment, which has two keys and a
    project. *)
Lemma GoogleGenAI_new_without_express_mode_witness :
  apiKey {| vertexai := true; apiUrl := None; apiKey := Some "google-key";
            project := Some "env-project"; location := None; apiVersion := None;
            httpOptions := None |}
    = nullish_or (opt_apiKey no_options) (env_api_key vertex_environment)
  /\ project {| vertexai := true; apiUrl := None; apiKey := Some "google-key";
                project := Some "env-project"; location := None; apiVersion := None;
                httpOptions := None |}
     = nullish_or (opt_project no_options) (getEnv vertex_environment "GOOGLE_CLOUD_PROJECT")
  /\ location {| vertexai := true; apiUrl := None; apiKey := Some "google-key";
                 project := Some "env-project"; location := None; apiVersion := None;
                 httpOptions := None |}
     = nullish_or (opt_location no_options)
         (getEnv vertex_environment "GOOGLE_CLOUD_LOCATION")
  /\ vertexai {| vertexai := true; apiUrl := None; apiKey := Some "google-key";
                 project := Some "env-project"; location := None; apiVersion := None;
                 httpOptions := None |}
     = default (getBooleanEnv vertex_environment "GOOGLE_GENAI_USE_VERTEXAI")
         (opt_vertexai no_options)
  /\ console (snd (GoogleGenAI_new vertex_environment (fun _ _ _ => None) no_options
                     empty_world))
     = console empty_world ++ env_warnings vertex_environment.
Proof.
  apply (GoogleGenAI_new_without_express_mode vertex_environment (fun _ _ _ => None)
           no_options empty_world).
  - discriminate.
  - vm_compute. reflexivity.
Defined.

(** An explicit key, in an environment with a project. *)
Lemma GoogleGenAI_new_explicit_wins_witness :
  (truthy_ostring (opt_project express_options) = true ->
   project {| vertexai := true; apiUrl := None; apiKey := Some "explicit-key";
              project := None; location := None; apiVersion := None;
              httpOptions := None |} = opt_project express_options)
  /\ (truthy_ostring (opt_location express_options) = true ->
      location {| vertexai := true; apiUrl := None; apiKey := Some "explicit-key";
                  project := None; location := None; apiVersion := None;
                  httpOptions := None |} = opt_location express_options)
  /\ (truthy_ostring (opt_apiKey express_options) = true ->
      opt_vertexai express_options <> Some true \/ has_credentials express_options = false ->
      apiKey {| vertexai := true; apiUrl := None; apiKey := Some "explicit-key";
                project := None; location := None; apiVersion := None;
                httpOptions := None |} = opt_apiKey express_options).
Proof.
  apply (GoogleGenAI_new_explicit_wins vertex_environment (fun _ _ _ => None)
           express_options empty_world
           (snd (GoogleGenAI_new vertex_environment (fun _ _ _ => None) express_options
                   empty_world))).
  vm_compute. reflexivity.
Defined.

(** An explicit key and explicit credentials. *)
Lemma GoogleGenAI_new_credentials_drop_key_witness :
  apiKey {| vertexai := true; apiUrl := None; apiKey := None;
            project := None; location := None; apiVersion := None;
            httpOptions := None |} = None.
Proof.
  apply (GoogleGenAI_new_credentials_drop_key vertex_environment (fun _ _ _ => None)
           credential_options empty_world
           (snd (GoogleGenAI_new vertex_environment (fun _ _ _ => None) credential_options
                   empty_world))).
  - reflexivity.
  - reflexivity.
  - vm_compute. reflexivity.
Defined.

(** Both base-URL variables, and no API key variable. *)
Lemma GoogleGenAI_new_base_url_warning_witness :
  apiUrl {| vertexai := false; apiUrl := Some "https://google.example";
            apiKey := None; project := None; location := None; apiVersion := None;
            httpOptions := None |}
    = nullish_or (opt_apiUrl no_options) (getEnv two_base_urls "GOOGLE_BASE_API_URL")
  /\ exists rest,
       console (snd (GoogleGenAI_new two_base_urls (fun _ _ _ => None) no_options empty_world))
       = console empty_world
         ++ "Both GOOGLE_API_KEY and GEMINI_API_KEY are set. Using GOOGLE_API_KEY." :: rest.
Proof.
  apply (GoogleGenAI_new_base_url_warning two_base_urls (fun _ _ _ => None) no_options
           empty_world).
  - reflexivity.
  - reflexivity.
  - vm_compute. reflexivity.
Defined.

(** ** What [connect] writes to the console *)

Lemma with_default_modality_generationConfig (client : ApiClient)
    (cfg : option LiveConnectConfig) :
  optional_chain (with_default_modality client cfg) generationConfig
  = optional_chain cfg generationConfig.
Proof.
  unfold with_default_modality.
  destruct (isVertexAI client && negb (is_defined (optional_chain cfg responseModalities)));
    destruct cfg; reflexivity.
Qed.

Lemma silent_emit (e : Event) : preserves silent (emit e).
Proof. intros w. reflexivity. Qed.

Lemma silent_write_config (l : loc) (cfg : LiveConnectConfig) :
  preserves silent (write_config l cfg).
Proof. intros w. reflexivity. Qed.

Lemma silent_assign_new_config (p : loc) (cfg : LiveConnectConfig) :
  preserves silent (assign_new_config p cfg).
Proof.
  intros w. unfold assign_new_config, bind, read_params.
  destruct (param_objs w !! p); reflexivity.
Qed.

Lemma silent_ws_create (url : string) (headers : HeaderMap) :
  preserves silent (ws_create url headers).
Proof. intros w. reflexivity. Qed.

Lemma silent_refl (w : World) : silent w w.
Proof. reflexivity. Qed.

Lemma silent_trans (w1 w2 w3 : World) : silent w1 w2 -> silent w2 w3 -> silent w1 w3.
Proof. unfold silent. congruence. Qed.

Create HintDb silent_db.
#[local] Hint Resolve silent_refl silent_trans preserves_ret preserves_throw preserves_hang
  preserves_lift preserves_read_params preserves_read_config silent_emit silent_write_config
  silent_assign_new_config silent_ws_create : silent_db.

Ltac keep_silent :=
  repeat first
    [ solve [eauto 3 with silent_db]
    | apply preserves_bind
    | match goal with
      | |- forall _, _ => intro
      | |- preserves _ (if ?b then _ else _) => destruct b
      | |- preserves _ (match ?x with _ => _ end) => destruct x
      end ].

Section ConnectConsole.

Context (ext : Externals).

Lemma await_open_silent (live : Live) (c : nat) (url : string) (headers : HeaderMap)
    (cbs : option LiveCallbacks) :
  preserves silent (await_open live c url headers cbs).
Proof. unfold await_open. keep_silent. Qed.

Lemma default_responseModalities_silent (live : Live) (p : loc) :
  preserves silent (default_responseModalities live p).
Proof. unfold default_responseModalities. keep_silent. Qed.

Lemma assign_tools_silent (p : loc) (converted : list JsValue) :
  preserves silent (assign_tools p converted).
Proof. unfold assign_tools. keep_silent. Qed.

Lemma connect_target_console (live : Live) (p : loc) (w w1 : World)
    (target : string * Headers) :
  connect_target ext live p w = (Returned target, w1) ->
  console w1 = console w ++ connect_warnings (apiClient live) None.
Proof.
  unfold connect_target, connect_warnings. intros H.
  apply bind_returned in H as (cfg & w0 & Hc & H).
  apply read_config_returned in Hc as (-> & _).
  simpl. rewrite app_nil_r.
  destruct (isVertexAI (apiClient live)); simpl.
  - apply bind_returned in H as (h & w0 & Hh & H).
    apply lift_returned in Hh as [-> _]. inversion H; subst. rewrite app_nil_r. reflexivity.
  - destruct (getApiKey (apiClient live)) as [key|];
      [|inversion H; subst; rewrite app_nil_r; reflexivity].
    destruct (truthy_string key); simpl;
      [|inversion H; subst; rewrite app_nil_r; reflexivity].
    destruct (String.prefix "auth_tokens/" key); unfold bind, console_log, ret in H;
      inversion H; subst; simpl; rewrite ?app_nil_r; reflexivity.
Qed.

Lemma warn_generationConfig_console (cfg : option LiveConnectConfig) (w w1 : World) (u : unit) :
  warn_generationConfig cfg w = (Returned u, w1) ->
  console w1 = console w
               ++ (if match optional_chain cfg generationConfig with
                      | Some g => js_truthy g
                      | None => false
                      end
                   then [GENERATION_CONFIG_WARNING] else []).
Proof.
  unfold warn_generationConfig.
  destruct (match optional_chain cfg generationConfig with
            | Some g => js_truthy g
            | None => false
            end); intros H; inversion H; subst; simpl; rewrite ?app_nil_r; reflexivity.
Qed.

Lemma connect_setup_console (live : Live) (p : loc) (c : nat) (w w' : World) (s : Session)
    (prm : LiveConnectParameters loc) :
  param_objs w !! p = Some prm ->
  connect_setup ext live p c w = (Returned s, w') ->
  console w' = console w
               ++ (if match optional_chain (config_snapshot w prm) generationConfig with
                      | Some g => js_truthy g
                      | None => false
                      end
                   then [GENERATION_CONFIG_WARNING] else []).
Proof.
  intros Hp H. unfold connect_setup in H.
  apply bind_returned in H as (prm0 & w0 & Hp0 & H).
  apply bind_returned in H as (tm & w0' & Htm & H).
  apply bind_returned in H as ([] & w1 & Hdef & H).
  apply bind_returned in H as (cfg & w1' & Hc & H).
  apply bind_returned in H as (u & w2 & Hwarn & H).
  apply bind_returned in H as (converted & w2' & Hconv & H).
  apply bind_returned in H as ([] & w3 & Hassign & H).
  apply bind_returned in H as (prm3 & w3' & Hp3 & H).
  apply bind_returned in H as (cfg3 & w3'' & Hc3 & H).
  apply bind_returned in H as (msg & w3''' & Hmsg & H).
  apply bind_returned in H as ([] & w4 & Hsend & H).
  unfold ret in H. inversion H; subst w4; clear H.
  unfold conn_send, emit in Hsend. inversion Hsend; subst w'; clear Hsend.
  apply lift_returned in Hmsg as [-> _].
  apply read_config_returned in Hc3 as (-> & _).
  apply read_params_returned in Hp3 as [-> _].
  pose proof (assign_tools_silent p converted w2') as Hs3.
  rewrite Hassign in Hs3. unfold silent in Hs3. simpl in Hs3.
  apply lift_returned in Hconv as [-> _].
  apply warn_generationConfig_console in Hwarn.
  apply read_config_returned in Hc as (-> & prm1 & Hp1 & _ & Hsnd).
  pose proof (default_responseModalities_silent live p w0') as Hs1.
  rewrite Hdef in Hs1. unfold silent in Hs1. simpl in Hs1.
  apply default_responseModalities_returned in Hdef
    as (prmA & prmB & HpA & HpB & _ & _ & _ & _ & Hsnap1 & _).
  rewrite Hp1 in HpB. inversion HpB; subst prmB; clear HpB.
  apply lift_returned in Htm as [-> _].
  apply read_params_returned in Hp0 as [-> _].
  rewrite Hp in HpA. inversion HpA; subst prmA; clear HpA.
  rewrite Hsnd, Hsnap1, with_default_modality_generationConfig in Hwarn.
  simpl. rewrite Hs3, Hwarn, Hs1. reflexivity.
Qed.

(** X24.  The code of a [connect] that returns has written to the
    console, in this order and nothing else: the warning for an ephemeral token, when the
    client is on the direct API with a key that starts with
    [auth_tokens/]; and the deprecation warning, when the caller's
    config has a [generationConfig] that is truthy. *)
Theorem connect_warnings_logged (live : Live) (p : loc) (w w' : World) (s : Session)
    (prm : LiveConnectParameters loc) :
  param_objs w !! p = Some prm ->
  connect ext live p w = (Returned s, w') ->
  console w' = console w ++ connect_warnings (apiClient live) (config_snapshot w prm).
Proof.
  intros Hp H. unfold connect in H.
  apply bind_returned in H as (target & w1 & Htarget & H).
  destruct (connect_target_quiet ext live p w) as (Hpo1 & Hco1 & _ & _).
  rewrite Htarget in Hpo1, Hco1. simpl in Hpo1, Hco1.
  apply connect_target_console in Htarget.
  apply bind_returned in H as (prm0 & w0 & Hp0 & H).
  apply read_params_returned in Hp0 as [-> _].
  apply bind_returned in H as (c & w2 & Hcreate & H).
  unfold ws_create in Hcreate. inversion Hcreate; subst c w2; clear Hcreate.
  apply bind_returned in H as ([] & w3 & Hconnect & H).
  unfold emit in Hconnect. inversion Hconnect; subst w3; clear Hconnect.
  apply bind_returned in H as ([] & w4 & Hopen & H).
  match type of Hopen with
  | await_open ?l ?c ?u ?h ?cbs ?w0 = _ =>
      pose proof (await_open_silent l c u h cbs w0) as Hs4
  end.
  rewrite Hopen in Hs4. unfold silent in Hs4. simpl in Hs4.
  apply await_open_returned in Hopen as (_ & Hpo4 & Hco4 & _). simpl in Hpo4, Hco4.
  apply (connect_setup_console _ _ _ _ _ _ prm) in H; [|rewrite Hpo4, Hpo1; exact Hp].
  assert (Hsnap : config_snapshot w4 prm = config_snapshot w prm)
    by (unfold config_snapshot; rewrite Hco4, Hco1; reflexivity).
  rewrite Hsnap, Hs4, Htarget in H. rewrite H.
  unfold connect_warnings. simpl. rewrite app_nil_r, <- app_assoc. reflexivity.
Qed.

End ConnectConsole.

(** An ephemeral token and a deprecated [generationConfig]. *)
Lemma connect_warnings_logged_witness :
  console (snd (connect sample_externals ephemeral_live 1%positive deprecated_world))
  = console deprecated_world
    ++ connect_warnings (apiClient ephemeral_live)
         (config_snapshot deprecated_world caller_params).
Proof.
  apply (connect_warnings_logged sample_externals ephemeral_live 1%positive deprecated_world
           (snd (connect sample_externals ephemeral_live 1%positive deprecated_world))
           {| conn := 0%nat; session_apiClient := ephemeral_client |} caller_params).
  - reflexivity.
  - vm_compute. reflexivity.
Defined.

(** ** The errors of [connect] *)





Lemma warn_generationConfig_returns (cfg : option LiveConnectConfig) (w : World) :
  exists w1, warn_generationConfig cfg w = (Returned tt, w1)
    /\ param_objs w1 = param_objs w /\ config_objs w1 = config_objs w.
Proof.
  unfold warn_generationConfig.
  destruct (match optional_chain cfg generationConfig with
            | Some g => js_truthy g
            | None => false
            end); eexists; (split; [reflexivity|]); auto.
Qed.


Section ConnectErrors.

Context (ext : Externals).



End ConnectErrors.

Lemma read_config_at (p l : loc) (w : World) (prm : LiveConnectParameters loc)
    (cfg : LiveConnectConfig) :
  param_objs w !! p = Some prm ->
  config prm = Some l ->
  config_objs w !! l = Some cfg ->
  read_config p w = (Returned (Some (l, cfg)), w).
Proof.
  intros Hp Hl Hc. unfold read_config, bind, read_params. rewrite Hp, Hl, Hc. reflexivity.
Qed.

Lemma default_responseModalities_writes (live : Live) (p l : loc) (w : World)
    (prm : LiveConnectParameters loc) (c0 : LiveConnectConfig) :
  isVertexAI (apiClient live) = true ->
  param_objs w !! p = Some prm ->
  config prm = Some l ->
  config_objs w !! l = Some c0 ->
  responseModalities c0 = None ->
  default_responseModalities live p w
  = (Returned tt,
     with_config_objs (fun h => <[l := set_responseModalities [AUDIO] c0]> h) w).
Proof.
  intros Hv Hp Hl Hc Hrm. unfold default_responseModalities.
  rewrite bind_unfold, (read_config_at p l w prm c0 Hp Hl Hc), Hv. simpl.
  rewrite Hrm. reflexivity.
Qed.

Section ConnectToolFailure.

Context (ext : Externals).

(** X26.  A [connect] that fails may have written to the caller's
    config before: on the managed-cloud variant, for a config without
    [responseModalities], when a callable tool of the config fails,
    [connect] fails with the error of the tool, and the config has got
    the default modality [AUDIO]; its tools are as they were. *)
Theorem connect_tool_failure_keeps_default (live : Live) (p l : loc) (w : World)
    (prm : LiveConnectParameters loc) (c0 : LiveConnectConfig) (hdrs : Headers)
    (tm msg : string) :
  isVertexAI (apiClient live) = true ->
  param_objs w !! p = Some prm ->
  config prm = Some l ->
  config_objs w !! l = Some c0 ->
  responseModalities c0 = None ->
  addAuthHeaders (auth live) (request_headers ext (apiClient live) (Some c0))
    = Returned hdrs ->
  (forall url h, signalsOpen (webSocketFactory live) url h = true) ->
  (forall e, optional_chain (callbacks prm) onopen <> Some (Raises e)) ->
  tModel ext (apiClient live) (model prm) = Returned tm ->
  convert_tools (default [] (tools c0)) = Threw msg ->
  fst (connect ext live p w) = Threw msg
  /\ param_objs (snd (connect ext live p w)) = param_objs w
  /\ config_objs (snd (connect ext live p w))
     = <[l := set_responseModalities [AUDIO] c0]> (config_objs w).
Proof.
  intros Hv Hp Hl Hc0 Hrm Hauth Hopen Hfine Htm Hconv.
  assert (Hvalid : forall l', config prm = Some l' -> is_Some (config_objs w !! l')).
  { intros l' Hl'. rewrite Hl in Hl'. inversion Hl'; subst l'. eauto. }
  assert (Hsnap : config_snapshot w prm = Some c0)
    by (unfold config_snapshot; rewrite Hl; exact Hc0).
  pose proof (connect_target_vertex ext live p w prm Hv Hp Hvalid) as Htarget.
  rewrite Hsnap, Hauth in Htarget. simpl in Htarget.
  assert (Hrun : exists w',
             connect ext live p w = (Threw msg, w')
             /\ param_objs w' = param_objs w
             /\ config_objs w' = <[l := set_responseModalities [AUDIO] c0]> (config_objs w)).
  { unfold connect. rewrite bind_unfold, Htarget. simpl fst. simpl snd. cbv iota.
    rewrite bind_unfold. unfold read_params at 1. rewrite Hp.
    rewrite bind_unfold. unfold ws_create at 1.
    rewrite bind_unfold. unfold emit at 1.
    rewrite bind_unfold.
    match goal with
    | |- context [await_open live ?c ?url ?h ?cbs ?w3] =>
        destruct (await_open_completes live c url h cbs w3 (Hopen url h) Hfine)
          as (w4 & Hawait & Hpo4 & Hco4 & _)
    end.
    rewrite Hawait. simpl in Hpo4, Hco4.
    assert (Hp4 : param_objs w4 !! p = Some prm) by (rewrite Hpo4; exact Hp).
    assert (Hc4 : config_objs w4 !! l = Some c0) by (rewrite Hco4; exact Hc0).
    unfold connect_setup. rewrite bind_unfold. unfold read_params at 1. rewrite Hp4.
    rewrite bind_unfold. unfold lift at 1. rewrite Htm. cbv beta iota.
    rewrite bind_unfold.
    rewrite (default_responseModalities_writes live p l w4 prm c0 Hv Hp4 Hl Hc4 Hrm).
    rewrite bind_unfold.
    rewrite (read_config_at p l _ prm (set_responseModalities [AUDIO] c0));
      [|exact Hp4 | exact Hl | apply lookup_insert_eq].
    rewrite bind_unfold.
    match goal with
    | |- context [warn_generationConfig ?cfg ?w5] =>
        destruct (warn_generationConfig_returns cfg w5) as (w6 & Hwarn & Hpo6 & Hco6)
    end.
    rewrite Hwarn. simpl in Hpo6, Hco6.
    rewrite bind_unfold. unfold lift at 1. simpl. rewrite Hconv.
    exists w6. split; [reflexivity|]. rewrite Hpo6, Hco6, Hpo4, Hco4. auto. }
  destruct Hrun as (w' & -> & Hpo & Hco). simpl. auto.
Qed.

End ConnectToolFailure.


(** A tool that cannot be resolved, in a config without
    [responseModalities]. *)
Lemma connect_tool_failure_keeps_default_witness :
  fst (connect sample_externals vertex_live 1%positive unavailable_world)
  = Threw "tool unavailable"
  /\ param_objs (snd (connect sample_externals vertex_live 1%positive unavailable_world))
     = param_objs unavailable_world
  /\ config_objs (snd (connect sample_externals vertex_live 1%positive unavailable_world))
     = <[1%positive := set_responseModalities [AUDIO] unavailable_config]>
         (config_objs unavailable_world).
Proof.
  apply (connect_tool_failure_keeps_default sample_externals vertex_live 1%positive 1%positive
           unavailable_world caller_params unavailable_config
           (request_headers sample_externals vertex_client (Some unavailable_config)
            ++ [("authorization", "Bearer token")])
           "publishers/google/models/gemini-2.0-flash-live-preview-04-09" "tool unavailable").
  - reflexivity.
  - reflexivity.
  - reflexivity.
  - reflexivity.
  - reflexivity.
  - reflexivity.
  - reflexivity.
  - intros e. discriminate.
  - vm_compute. reflexivity.
  - vm_compute. reflexivity.
Defined.

(** ** What [connect] writes to the objects of the caller *)


Section ConnectWrites.

Context (ext : Externals).




End ConnectWrites.

